(** * Resume ranker: a shallow embedding of the matching engine

    The development follows the four Python modules of the repository:

    - [job_requirements_parser.py]  (module [JobRequirementsParser]),
    - [resume_parser/resume_parser.py]  (module [ResumeParser]),
    - [mpnet_resume_matcher.py]  (module [MPNetResumeMatcher]),
    - [mpnet_output_generator.py]  (module [MPNetOutputGenerator]).

    Modelling conventions.

    - Python [str] is [string]; the texts are 7-bit ASCII, so that
      [str.lower], [\w], [\d], [\s] and [str.strip] are the ASCII ones.
    - Python [float] and [int] are exact rationals [Q] (and [Z] where the
      code only ever holds an integer).  Rounding errors of the binary
      floating point format are not modelled; equalities between scores
      are stated with [==].  A computed score that lies exactly on a
      threshold in the rationals can fall on either side of it in the
      program, so a statement about the side a computed sum falls on keeps
      [rounding_slack] away from the threshold.
    - The [re] module is modelled by a small backtracking matcher
      (module [Re]) with Python's priorities: alternatives left to right,
      greedy repetition longest first, lazy repetition shortest first,
      [re.search] leftmost, [re.findall] leftmost and non-overlapping.
    - What the code cannot compute by itself is an explicit input: the
      sentence-transformers model ([Backend], whose calls may raise), the
      clock ([current_year]), the content of the file system (a directory
      walk and the text extracted from each file) and the decoded JSON
      job record.
    - A Python exception is [None] in [option]; a division that the code
      performs under a test of its divisor is written with [Q]'s division. *)

From Stdlib Require Import Bool Arith ZArith QArith Qround Lia Lqa.
From Stdlib Require Import List Ascii String.
From Stdlib Require Import Permutation Sorted.
Import ListNotations.

Local Open Scope string_scope.
Local Open Scope Q_scope.
Local Open Scope list_scope.

(** ** Python strings *)

Module Str.

Definition chars (s : string) : list ascii := list_ascii_of_string s.
Definition of_chars (l : list ascii) : string := string_of_list_ascii l.

Definition code (c : ascii) : nat := nat_of_ascii c.

Definition between (lo hi : nat) (c : ascii) : bool :=
  (lo <=? code c)%nat && (code c <=? hi)%nat.

Definition is_upper (c : ascii) : bool := between 65 90 c.
Definition is_lower (c : ascii) : bool := between 97 122 c.
Definition is_alpha (c : ascii) : bool := is_upper c || is_lower c.
Definition is_digit (c : ascii) : bool := between 48 57 c.

(** [\w]: letters, digits and the underscore. *)
Definition is_word (c : ascii) : bool :=
  is_alpha c || is_digit c || (code c =? 95)%nat.

(** [\s] and [str.isspace]: tab, newline, vertical tab, form feed,
    carriage return, the four separators 28..31 and the space. *)
Definition is_space (c : ascii) : bool :=
  between 9 13 c || between 28 32 c.

Definition lower_char (c : ascii) : ascii :=
  if is_upper c then ascii_of_nat (code c + 32) else c.

Fixpoint lower (s : string) : string :=
  match s with
  | EmptyString => EmptyString
  | String c s' => String (lower_char c) (lower s')
  end.

Fixpoint is_prefix (p s : string) : bool :=
  match p, s with
  | EmptyString, _ => true
  | String a p', String b s' => Ascii.eqb a b && is_prefix p' s'
  | String _ _, EmptyString => false
  end.

(** [needle in hay] on strings: substring test. *)
Fixpoint contains (needle hay : string) : bool :=
  is_prefix needle hay ||
  match hay with
  | EmptyString => false
  | String _ hay' => contains needle hay'
  end.

(** [x in l] on a list of strings. *)
Definition mem (x : string) (l : list string) : bool :=
  existsb (String.eqb x) l.

(** [any(k in s for k in ks)]. *)
Definition any_in (ks : list string) (s : string) : bool :=
  existsb (fun k => contains k s) ks.

Definition is_empty (s : string) : bool :=
  match s with EmptyString => true | _ => false end.

Fixpoint lstrip (l : list ascii) : list ascii :=
  match l with
  | c :: l' => if is_space c then lstrip l' else l
  | [] => []
  end.

Definition strip (s : string) : string :=
  of_chars (rev (lstrip (rev (lstrip (chars s))))).

(** Splitting at every character of a class ([re.split] with a character
    class, [str.split] with a one-character separator): the pieces between
    the separators, empty ones included. *)
Fixpoint split_chars (sep : ascii -> bool) (cur : list ascii)
    (l : list ascii) : list string :=
  match l with
  | [] => [of_chars (rev cur)]
  | c :: l' =>
      if sep c then of_chars (rev cur) :: split_chars sep [] l'
      else split_chars sep (c :: cur) l'
  end.

Definition split_on (sep : ascii -> bool) (s : string) : list string :=
  split_chars sep [] (chars s).

Definition newline : ascii := ascii_of_nat 10.

Definition lines (s : string) : list string :=
  split_on (Ascii.eqb newline) s.

(** [s.split('\n\n')]: left to right, non-overlapping; [skip] is set on
    the second character of a separator. *)
Fixpoint split_blank (skip : bool) (cur : list ascii) (l : list ascii)
    : list string :=
  match l with
  | [] => [of_chars (rev cur)]
  | c :: l' =>
      if skip then split_blank false cur l'
      else
        match l' with
        | d :: _ =>
            if Ascii.eqb c newline && Ascii.eqb d newline
            then of_chars (rev cur) :: split_blank true [] l'
            else split_blank false (c :: cur) l'
        | [] => split_blank false (c :: cur) l'
        end
  end.

Definition paragraphs (s : string) : list string :=
  split_blank false [] (chars s).

End Str.

(** ** The [re] module: a backtracking matcher

    Only the constructs of the repository's patterns are present.  Every
    unbounded repetition in those patterns is over a character class, so
    repetition is restricted to classes and the matcher is structural. *)

Module Re.
Import Str.

Inductive regex : Type :=
| Lit (s : string)                       (* literal text *)
| Cls (p : ascii -> bool)                (* one character of a class *)
| Cat (r1 r2 : regex)                    (* r1 r2 *)
| Alt (r1 r2 : regex)                    (* r1|r2, r1 tried first *)
| Opt (greedy : bool) (r : regex)        (* r? and r?? *)
| Rep (greedy : bool) (p : ascii -> bool)
      (lo : nat) (hi : option nat)       (* class{lo,hi}, class*, class+ *)
| Grp (r : regex)                        (* the capturing group (r) *)
| Bnd.                                   (* \b *)

(** The outcome of a match: the unread input and group 1 if it took part. *)
Definition outcome : Type := (list ascii * option string)%type.

Definition cont : Type :=
  option ascii -> list ascii -> option string -> option outcome.

Fixpoint strip_lit (l s : list ascii) (prev : option ascii)
    : option (option ascii * list ascii) :=
  match l, s with
  | [], _ => Some (prev, s)
  | a :: l', b :: s' =>
      if Ascii.eqb a b then strip_lit l' s' (Some b) else None
  | _ :: _, [] => None
  end.

Definition word_at (c : option ascii) : bool :=
  match c with Some a => is_word a | None => false end.

Definition room (hi : option nat) : bool :=
  match hi with Some O => false | _ => true end.

Definition less (hi : option nat) : option nat :=
  match hi with Some n => Some (pred n) | None => None end.

Fixpoint rep (greedy : bool) (p : ascii -> bool) (lo : nat)
    (hi : option nat) (prev : option ascii) (s : list ascii)
    (cap : option string) (k : cont) {struct s} : option outcome :=
  if greedy then
    match
      match s with
      | c :: s' =>
          if p c && room hi
          then rep greedy p (pred lo) (less hi) (Some c) s' cap k
          else None
      | [] => None
      end
    with
    | Some o => Some o
    | None => match lo with O => k prev s cap | S _ => None end
    end
  else
    match match lo with O => k prev s cap | S _ => None end with
    | Some o => Some o
    | None =>
        match s with
        | c :: s' =>
            if p c && room hi
            then rep greedy p (pred lo) (less hi) (Some c) s' cap k
            else None
        | [] => None
        end
    end.

Fixpoint run (r : regex) (prev : option ascii) (s : list ascii)
    (cap : option string) (k : cont) {struct r} : option outcome :=
  match r with
  | Lit l =>
      match strip_lit (chars l) s prev with
      | Some (prev', s') => k prev' s' cap
      | None => None
      end
  | Cls p =>
      match s with
      | c :: s' => if p c then k (Some c) s' cap else None
      | [] => None
      end
  | Cat r1 r2 =>
      run r1 prev s cap (fun prev' s' cap' => run r2 prev' s' cap' k)
  | Alt r1 r2 =>
      match run r1 prev s cap k with
      | Some o => Some o
      | None => run r2 prev s cap k
      end
  | Opt true r1 =>
      match run r1 prev s cap k with
      | Some o => Some o
      | None => k prev s cap
      end
  | Opt false r1 =>
      match k prev s cap with
      | Some o => Some o
      | None => run r1 prev s cap k
      end
  | Rep g p lo hi => rep g p lo hi prev s cap k
  | Grp r1 =>
      run r1 prev s cap
        (fun prev' s' _ =>
           k prev' s'
             (Some (of_chars (firstn (List.length s - List.length s') s))))
  | Bnd =>
      if xorb (word_at prev) (word_at (hd_error s)) then k prev s cap
      else None
  end.

(** A match that starts at the current position. *)
Definition match_here (r : regex) (prev : option ascii) (s : list ascii)
    : option outcome :=
  run r prev s None (fun _ s' cap => Some (s', cap)).

(** A match object: the text of the whole match and of group 1. *)
Record mobj : Type := { whole : string; group1 : option string }.

Definition mobj_of (s : list ascii) (o : outcome) : mobj :=
  {| whole := of_chars (firstn (List.length s - List.length (fst o)) s);
     group1 := snd o |}.

(** [re.search]: the leftmost match. *)
Fixpoint search_from (r : regex) (prev : option ascii) (s : list ascii)
    : option mobj :=
  match match_here r prev s with
  | Some o => Some (mobj_of s o)
  | None =>
      match s with
      | c :: s' => search_from r (Some c) s'
      | [] => None
      end
  end.

Definition search (r : regex) (text : string) : option mobj :=
  search_from r None (chars text).

(** [re.finditer]: leftmost matches, each search resuming where the last
    match ended ([skip] counts the characters still covered by it). *)
Fixpoint finditer_from (r : regex) (skip : nat) (prev : option ascii)
    (s : list ascii) : list mobj :=
  match s with
  | [] =>
      match skip with
      | O =>
          match match_here r prev [] with
          | Some o => [mobj_of [] o]
          | None => []
          end
      | S _ => []
      end
  | c :: s' =>
      match skip with
      | S n => finditer_from r n (Some c) s'
      | O =>
          match match_here r prev s with
          | Some o =>
              mobj_of s o ::
              finditer_from r (pred (List.length s - List.length (fst o)))
                            (Some c) s'
          | None => finditer_from r 0 (Some c) s'
          end
      end
  end.

Definition finditer (r : regex) (text : string) : list mobj :=
  finditer_from r 0 None (chars text).

(** [re.findall] for a pattern without group: the matched texts. *)
Definition findall (r : regex) (text : string) : list string :=
  map whole (finditer r text).

(** [re.findall] for a pattern with one group: the texts of the group,
    empty where the group did not take part. *)
Definition findall_group (r : regex) (text : string) : list string :=
  map (fun m => match group1 m with Some g => g | None => "" end)
      (finditer r text).

(** Abbreviations of the pattern syntax. *)
Definition digit : regex := Cls is_digit.
Definition digits1 : regex := Rep true is_digit 1 None.        (* \d+ *)
Definition spaces0 : regex := Rep true is_space 0 None.         (* \s* *)
Definition spaces1 : regex := Rep true is_space 1 None.         (* \s+ *)
Definition times (n : nat) (p : ascii -> bool) : regex :=
  Rep true p n (Some n).                                        (* class{n} *)
Definition chr (c : string) : regex := Lit c.
Definition one_of (cs : string) : ascii -> bool :=
  fun c => existsb (Ascii.eqb c) (chars cs).

Fixpoint alts (l : list string) : regex :=
  match l with
  | [] => Lit ""
  | [a] => Lit a
  | a :: l' => Alt (Lit a) (alts l')
  end.

Fixpoint seq (l : list regex) : regex :=
  match l with
  | [] => Lit ""
  | [r] => r
  | r :: l' => Cat r (seq l')
  end.

End Re.

(** [int(s)] for a string of decimal digits. *)
Definition int_of_digits (s : string) : Z :=
  fold_left (fun acc c => (10 * acc + Z.of_nat (Str.code c - 48))%Z)
            (Str.chars s) 0%Z.

(** [s.isdigit()]: non-empty and all digits. *)
Definition isdigit (s : string) : bool :=
  negb (Str.is_empty s) && forallb Str.is_digit (Str.chars s).

(** ** job_requirements_parser.py *)

Module JobRequirementsParser.
Import Str Re.

(** The decoded JSON job record; [None] is an absent key. *)
Record job_record : Type := {
  job_title : option string;
  company : option string;
  job_skills : option string;
  job_requirements : option (list string);
  description : option string
}.

(** The parsed job, as returned by [parse_job_requirements]. *)
Record job_data : Type := {
  jd_job_title : string;
  jd_company : string;
  required_experience_years : Z;
  required_education : string;
  required_skills : list string;
  categorized_requirements : list (string * list string);
  full_description : string;
  original_data : option job_record
}.

Definition categories : list (string * list string) :=
  [ ("education", ["degree"; "bachelor"; "master"; "phd"; "education";
                   "university"; "college"; "academic"]);
    ("experience", ["experience"; "year"; "work"; "industry"; "background";
                    "history"]);
    ("skills", ["skill"; "proficiency"; "knowledge"; "familiar"; "ability";
                "capable"; "competent"]);
    ("tools", ["tool"; "software"; "framework"; "library"; "platform";
               "system"; "technology"]);
    ("soft_skills", ["communication"; "teamwork"; "leadership";
                     "problem-solving"; "analytical"; "interpersonal"]) ].

Definition common_skills : list string :=
  [ "python"; "java"; "javascript"; "c++"; "c#"; "ruby"; "php"; "swift";
    "kotlin";
    "html"; "css"; "sql"; "nosql"; "mongodb"; "mysql"; "postgresql";
    "oracle";
    "react"; "angular"; "vue"; "node"; "express"; "django"; "flask";
    "spring";
    "docker"; "kubernetes"; "aws"; "azure"; "gcp"; "devops"; "ci/cd";
    "jenkins";
    "git"; "github"; "gitlab"; "bitbucket"; "agile"; "scrum"; "kanban";
    "machine learning"; "artificial intelligence"; "data science";
    "big data";
    "rest api"; "graphql"; "microservices"; "testing"; "junit"; "selenium";
    "linux"; "unix"; "windows"; "macos"; "android"; "ios"; "mobile";
    "frontend"; "backend"; "fullstack"; "web development";
    "mobile development";
    "database"; "networking"; "security"; "cloud"; "distributed systems";
    "algorithms"; "data structures"; "object-oriented";
    "functional programming";
    "software architecture"; "design patterns"; "mvc"; "mvvm"; "rest";
    "soap";
    "json"; "xml"; "yaml"; "markdown"; "documentation"; "jira";
    "confluence";
    "communication"; "teamwork"; "problem-solving"; "analytical";
    "critical thinking";
    "leadership"; "project management"; "time management"; "debugging";
    "performance optimization"; "scalability"; "reliability";
    "maintainability";
    "code review"; "pair programming"; "mentoring"; "continuous learning";
    "snmp"; "dcim"; "networking configuration"; "embedded systems"; "iot" ].

(** [(\d+)(?:\+|\s*\-\s*\d+)?\s*(?:years|year|yrs|yr)] *)
Definition years_pattern : regex :=
  seq [ Grp digits1;
        Opt true (Alt (Lit "+") (seq [spaces0; Lit "-"; spaces0; digits1]));
        spaces0;
        alts ["years"; "year"; "yrs"; "yr"] ].

(** The level words of the textual fallback. *)
Definition level_words (text : string) : Z :=
  if contains "entry level" (lower text) || contains "junior" (lower text)
  then 0%Z
  else if contains "mid level" (lower text)
          || contains "intermediate" (lower text)
  then 2%Z
  else if contains "senior" (lower text)
          || contains "experienced" (lower text)
  then 5%Z
  else 0%Z.

Definition extract_years_of_experience (text : string) : Z :=
  match search years_pattern (lower text) with
  | Some m =>
      int_of_digits (match group1 m with Some g => g | None => "" end)
  | None => level_words text
  end.

Definition extract_education_level (text : string) : string :=
  let text_lower := lower text in
  if contains "bachelor" text_lower || contains "b.s." text_lower
     || contains "b.a." text_lower || contains "undergraduate" text_lower
  then "bachelor"
  else if contains "master" text_lower || contains "m.s." text_lower
          || contains "m.a." text_lower || contains "graduate" text_lower
  then "master"
  else if contains "phd" text_lower || contains "ph.d" text_lower
          || contains "doctorate" text_lower
  then "phd"
  else "".

Section WithNer.

(** spaCy's entity recogniser: the entities of a text as (text, label). *)
Variable ner : string -> list (string * string).

Definition extract_skills_from_text (text : string) : list string :=
  let text_lower := lower text in
  let found_skills :=
    filter (fun skill => contains skill text_lower) common_skills in
  fold_left
    (fun found ent =>
       if String.eqb (snd ent) "PRODUCT" || String.eqb (snd ent) "ORG" then
         let skill_candidate := lower (fst ent) in
         if mem skill_candidate common_skills
            && negb (mem skill_candidate found)
         then found ++ [skill_candidate] else found
       else found)
    (ner text_lower) found_skills.

(** [for skill in new: if skill not in skills: skills.append(skill)] *)
Definition add_new (skills new : list string) : list string :=
  fold_left (fun acc skill => if mem skill acc then acc else acc ++ [skill])
            new skills.

Definition extract_required_skills (job : job_record) : list string :=
  let skills := [] in
  let skills :=
    match job_skills job with
    | Some skills_text =>
        if is_empty skills_text then skills
        else
          fold_left
            (fun acc skill =>
               let skill := lower (strip skill) in
               if negb (is_empty skill) && negb (mem skill acc)
               then acc ++ [skill] else acc)
            (split_on (one_of "|,;") skills_text) skills
    | None => skills
    end in
  let skills :=
    match job_requirements job with
    | Some reqs =>
        fold_left (fun acc req => add_new acc (extract_skills_from_text req))
                  reqs skills
    | None => skills
    end in
  match description job with
  | Some d =>
      if is_empty d then skills
      else add_new skills (extract_skills_from_text d)
  | None => skills
  end.

End WithNer.

Definition category_of (req : string) : string :=
  let req_lower := lower req in
  match find (fun cat => any_in (snd cat) req_lower) categories with
  | Some cat => fst cat
  | None => "other"
  end.

Fixpoint append_to (category req : string)
    (categorized : list (string * list string))
    : list (string * list string) :=
  match categorized with
  | [] => []
  | (c, l) :: rest =>
      if String.eqb c category then (c, l ++ [req]) :: rest
      else (c, l) :: append_to category req rest
  end.

Definition categorize_requirements (requirements : list string)
    : list (string * list string) :=
  fold_left (fun categorized req => append_to (category_of req) req categorized)
    requirements
    [ ("education", []); ("experience", []); ("skills", []); ("tools", []);
      ("soft_skills", []); ("other", []) ].

(** The loop of lines 255-260: the largest extracted number of years. *)
Definition required_years_loop (reqs : list string) : Z :=
  fold_left
    (fun required req =>
       let years := extract_years_of_experience req in
       if (years >? required)%Z then years else required)
    reqs 0%Z.

(** The loop of lines 263-275; [required] is [required_education]. *)
Fixpoint required_education_loop (reqs : list string) (required : string)
    : string :=
  match reqs with
  | [] => required
  | req :: rest =>
      let education := extract_education_level req in
      if is_empty education then required_education_loop rest required
      else if String.eqb education "phd" then "phd"
      else if String.eqb education "master"
              && negb (String.eqb required "phd")
      then required_education_loop rest "master"
      else if String.eqb education "bachelor"
              && negb (mem required ["phd"; "master"])
      then required_education_loop rest "bachelor"
      else required_education_loop rest required
  end.

Definition is_empty_record (job : job_record) : bool :=
  match job_title job, company job, job_skills job, job_requirements job,
        description job with
  | None, None, None, None, None => true
  | _, _, _, _, _ => false
  end.

Definition get (field : option string) : string :=
  match field with Some v => v | None => "" end.

(** The requirement lines the loops iterate over: none when the key is
    absent or the list is empty. *)
Definition requirement_lines (job : job_record) : list string :=
  match job_requirements job with Some reqs => reqs | None => [] end.

(** [parse_job_requirements] after [load_job_requirements]; a file that
    cannot be read or decoded loads as the empty record. *)
Definition parse_job_requirements (ner : string -> list (string * string))
    (job : job_record) : job_data :=
  if is_empty_record job then
    {| jd_job_title := ""; jd_company := "";
       required_experience_years := 0%Z; required_education := "";
       required_skills := []; categorized_requirements := [];
       full_description := ""; original_data := None |}
  else
    {| jd_job_title := get (job_title job);
       jd_company := get (company job);
       required_experience_years :=
         required_years_loop (requirement_lines job);
       required_education :=
         required_education_loop (requirement_lines job) "";
       required_skills := extract_required_skills ner job;
       categorized_requirements :=
         match requirement_lines job with
         | [] => []
         | reqs => categorize_requirements reqs
         end;
       full_description := get (description job);
       original_data := Some job |}.

End JobRequirementsParser.

(** ** resume_parser/resume_parser.py *)

Module ResumeParser.
Import Str Re.

(** A parsed resume, as returned by [parse_resume]. *)
Record resume_data : Type := {
  resume_name : string;
  email : string;
  phone : string;
  skills : list string;
  education : string;
  experience : string;
  full_text : string
}.

(** What the parser reads from the outside: the directory walk
    ([os.walk]: each visited directory with its file names),
    [os.path.isfile], and the text PyPDF2 and python-docx extract from a
    file (empty when extraction fails). *)
Record filesystem : Type := {
  walk : string -> list (string * list string);
  isfile : string -> bool;
  pdf_text : string -> string;
  docx_text : string -> string
}.

(** [[\w\.-]+@[\w\.-]+\.\w+] *)
Definition email_pattern : regex :=
  let name := fun c => is_word c || one_of ".-" c in
  seq [ Rep true name 1 None; Lit "@"; Rep true name 1 None; Lit ".";
        Rep true is_word 1 None ].

(** [(\+\d{1,3}[-\.\s]??)?\(?\d{3}\)?[-\.\s]?\d{3}[-\.\s]?\d{4}] *)
Definition phone_pattern : regex :=
  let sep := fun c => one_of "-." c || is_space c in
  seq [ Opt true (Grp (seq [ Lit "+"; Rep true is_digit 1 (Some 3%nat);
                             Opt false (Cls sep) ]));
        Opt true (Lit "("); times 3 is_digit; Opt true (Lit ")");
        Opt true (Cls sep); times 3 is_digit;
        Opt true (Cls sep); times 4 is_digit ].

(** [(.+?)(?:\s+-\s+|\s+)] *)
Definition name_pattern : regex :=
  seq [ Grp (Rep false (fun c => negb (Ascii.eqb c newline)) 1 None);
        Alt (seq [spaces1; Lit "-"; spaces1]) spaces1 ].

Definition common_skills : list string := JobRequirementsParser.common_skills.

Definition education_keywords : list string :=
  [ "education"; "university"; "college"; "school"; "institute"; "academy";
    "bachelor"; "master"; "phd"; "doctorate"; "degree"; "diploma";
    "certificate";
    "bsc"; "msc"; "ba"; "ma"; "b.tech"; "m.tech"; "b.e."; "m.e.";
    "computer science"; "information technology"; "software engineering";
    "electrical engineering"; "electronics"; "mathematics"; "physics";
    "engineering"; "gpa"; "grade"; "graduated"; "graduation" ].

Definition experience_keywords : list string :=
  [ "experience"; "work"; "employment"; "job"; "career"; "position";
    "role"; "responsibility"; "project"; "achievement"; "accomplishment";
    "developed"; "implemented"; "designed"; "created"; "built"; "managed";
    "led"; "coordinated"; "collaborated"; "team"; "client"; "customer";
    "software engineer"; "developer"; "programmer"; "architect"; "analyst";
    "consultant"; "manager"; "director"; "lead"; "senior"; "junior";
    "intern"; "internship"; "co-op"; "freelance"; "contract"; "full-time";
    "part-time"; "remote"; "onsite"; "company"; "organization"; "startup";
    "enterprise"; "corporation"; "business"; "industry"; "sector" ].

(** [os.path.basename]: what follows the last slash. *)
Definition basename (path : string) : string :=
  last (split_on (Ascii.eqb "/"%char) path) "".

(** [os.path.splitext(path)[1]]: from the last dot of the base name, if a
    character other than a dot precedes it there. *)
Definition extension (path : string) : string :=
  let pieces := split_on (Ascii.eqb "."%char) (basename path) in
  match rev pieces with
  | ext :: before =>
      if existsb (fun p => negb (is_empty p)) before
      then String "."%char ext else ""
  | [] => ""
  end.

(** [os.path.join(root, file)] *)
Definition path_join (root file : string) : string :=
  if is_prefix "/" file then file
  else if is_empty root then file
  else if Ascii.eqb (last (chars root) " "%char) "/"%char
  then String.append root file
  else String.append root (String "/"%char file).

Definition ends_with (s suffix : string) : bool :=
  is_prefix (of_chars (rev (chars suffix))) (of_chars (rev (chars s))).

Definition first_or_empty (l : list string) : string :=
  match l with x :: _ => x | [] => "" end.

Definition extract_email (text : string) : string :=
  first_or_empty (findall email_pattern text).

Definition extract_phone (text : string) : string :=
  first_or_empty (findall_group phone_pattern text).

Definition extract_skills (text : string) : list string :=
  let text_lower := lower text in
  filter (fun skill => contains skill text_lower) common_skills.

Definition add_line (section line : string) : string :=
  String.append section (String.append line (String newline "")).

Definition has_digit (line : string) : bool :=
  existsb is_digit (chars line).

Definition extract_education (text : string) : string :=
  strip (snd (fold_left
    (fun st line =>
       let '(in_education_section, education_section) := st in
       let line_lower := lower line in
       if any_in ["education"; "academic"; "qualification"] line_lower
       then (true, add_line education_section line)
       else if in_education_section then
         if any_in education_keywords line_lower
         then (true, add_line education_section line)
         else if negb (is_empty (strip line))
                 && any_in ["experience"; "work"; "employment"; "skills";
                            "projects"] line_lower
         then (false, education_section)
         else if negb (is_empty education_section)
                 && (is_empty (strip line) || has_digit line)
         then (true, add_line education_section line)
         else st
       else st)
    (lines text) (false, ""))).

Definition extract_experience (text : string) : string :=
  strip (snd (fold_left
    (fun st line =>
       let '(in_experience_section, experience_section) := st in
       let line_lower := lower line in
       if any_in ["experience"; "employment"; "work history"] line_lower
       then (true, add_line experience_section line)
       else if in_experience_section then
         if any_in experience_keywords line_lower
         then (true, add_line experience_section line)
         else if negb (is_empty (strip line))
                 && any_in ["education"; "skills"; "projects";
                            "certifications"; "references"] line_lower
         then (false, experience_section)
         else if negb (is_empty experience_section)
                 && (is_empty (strip line) || has_digit line
                     || contains "-" line)
         then (true, add_line experience_section line)
         else st
       else st)
    (lines text) (false, ""))).

Section WithFiles.

Variable fs : filesystem.

Definition extract_text (file_path : string) : string :=
  let file_extension := lower (extension file_path) in
  if String.eqb file_extension ".pdf" then pdf_text fs file_path
  else if mem file_extension [".docx"; ".doc"] then docx_text fs file_path
  else "".

(** [name.lower().replace(' ', '.')] *)
Definition dotted (name : string) : string :=
  of_chars (map (fun c => if Ascii.eqb c " "%char then "."%char else c)
                (chars (lower name))).

Definition parse_resume (file_path : string) : resume_data :=
  let resume_name := basename file_path in
  let text := extract_text file_path in
  if is_empty text then
    {| resume_name := resume_name; email := ""; phone := ""; skills := [];
       education := ""; experience := ""; full_text := "" |}
  else
    let email := extract_email text in
    let email :=
      if is_empty email then
        match findall email_pattern resume_name with
        | e :: _ => e
        | [] =>
            match search name_pattern resume_name with
            | Some m =>
                let name :=
                  strip (match group1 m with Some g => g | None => "" end) in
                String.append (dotted name) "@email.com"
            | None => email
            end
        end
      else email in
    let email :=
      if contains "John_Doe_Resume" resume_name then "johndoe@email.com"
      else email in
    let email :=
      if contains "Ahmed_Zaki_Eldin.pdf" resume_name then "oussof92@gmail.c"
      else email in
    {| resume_name := resume_name; email := email;
       phone := extract_phone text; skills := extract_skills text;
       education := extract_education text;
       experience := extract_experience text; full_text := text |}.

(** The files collected by the walk: the joined paths of the regular files
    whose lower-cased name ends in .pdf, .docx or .doc. *)
Definition resume_files (directory_path : string) : list string :=
  flat_map
    (fun entry =>
       let '(root, files) := entry in
       flat_map
         (fun file =>
            let file_path := path_join root file in
            if isfile fs file_path
               && existsb (ends_with (lower file)) [".pdf"; ".docx"; ".doc"]
            then [file_path] else [])
         files)
    (walk fs directory_path).

Definition john_doe_exists (files : list string) : bool :=
  existsb (contains "John_Doe_Resume.pdf") files.

Definition nl : string := String newline "".

(** The entry created at lines 350-358. *)
Definition john_doe : resume_data :=
  {| resume_name := "John_Doe_Resume.pdf";
     email := "johndoe@email.com";
     phone := "555-123-4567";
     skills := ["python"; "java"; "javascript"; "react"; "node"];
     education := "Bachelor of Science in Computer Science";
     experience := "5 years of software development experience";
     full_text :=
       String.concat nl
         [ "John Doe"; "johndoe@email.com"; "555-123-4567";
           "Skills: Python, Java, JavaScript, React, Node";
           "Education: Bachelor of Science in Computer Science";
           "Experience: 5 years of software development experience" ] |}.

Definition parse_resumes_in_directory (directory_path : string)
    : list resume_data :=
  let files := resume_files directory_path in
  let parsed_resumes := if john_doe_exists files then [] else [john_doe] in
  parsed_resumes ++ map parse_resume files.

End WithFiles.

End ResumeParser.

(** ** Python numbers *)

Module Num.

Definition leb (a b : Q) : bool := Qle_bool a b.
Definition ltb (a b : Q) : bool := negb (Qle_bool b a).

(** [min(a, b)] and [max(a, b)]: the first argument unless the second is
    strictly better. *)
Definition py_min (a b : Q) : Q := if ltb b a then b else a.
Definition py_max (a b : Q) : Q := if ltb a b then b else a.

(** [a / b]; [None] is ZeroDivisionError. *)
Definition truediv (a b : Q) : option Q :=
  if Qeq_bool b 0 then None else Some (a / b).

Definition of_nat (n : nat) : Q := inject_Z (Z.of_nat n).

(** [sum(l)] *)
Definition sum (l : list Q) : Q := fold_left Qplus l 0.

(** [round(x)] to an integer, ties to even. *)
Definition round_half_even (x : Q) : Z :=
  let f := Qfloor x in
  let d := x - inject_Z f in
  if ltb d 0.5 then f
  else if ltb 0.5 d then (f + 1)%Z
  else if Z.even f then f else (f + 1)%Z.

(** [round(x, 2)] *)
Definition round2 (x : Q) : Q := inject_Z (round_half_even (x * 100)) / 100.

End Num.

(** ** mpnet_resume_matcher.py *)

Module MPNetResumeMatcher.
Import Str Re Num.

(** The sentence-transformers model.  [cos_sim a b] encodes both texts and
    returns [util.pytorch_cos_sim(...).item()]; [centrality sentences]
    encodes the sentences and returns, for each index, the cosine of the
    sentence with the mean embedding.  [None] is a raised exception. *)
Record backend : Type := {
  cos_sim : string -> string -> option Q;
  centrality : list string -> option (nat -> Q)
}.

(** [self.weights] *)
Record weights_t : Type := {
  w_skills : Q;
  w_experience : Q;
  w_education : Q;
  w_semantic_similarity : Q;
  w_keyword_relevance : Q
}.

Definition weights : weights_t :=
  {| w_skills := 0.35; w_experience := 0.25; w_education := 0.15;
     w_semantic_similarity := 0.15; w_keyword_relevance := 0.10 |}.

(** [self.expected_scores], in insertion order. *)
Definition expected_scores : list (string * Q) :=
  [ ("ahmed_mahmoud CV - ahmed mahmoud.pdf", 85.19);
    ("Ahmed Saeed Muhammed Resume - Ahmed AbdelHalim.pdf", 83.95);
    ("AhmedAdelZakariaCV - Ahmed Adel.pdf", 83.92);
    ("Ahmed Mustafa Resume - Ahmed Mustafa.pdf", 83.85);
    ("AhmedMagdyProfile - Ahmad Magdy.pdf", 83.83);
    ("Ahmedalaaeldingouda16022017 (2) - Ahmed Alaa.pdf", 83.80);
    ("Ahmed_Zaki_Eldin.pdf", 83.69);
    ("Ahmed Saber - A_hmed Sa-B_er.pdf", 82.40);
    ("Ahmed_Ramadan_resume - Ahmed Ali.pdf", 82.08);
    ("Mohamed Adel - Senior Software Developer.pdf", 80.39);
    ("Islam Adel Software Engineer CV.pdf", 78.54) ].

(** [\b\w+\b] *)
Definition word_pattern : regex :=
  seq [Bnd; Rep true is_word 1 None; Bnd].

(** [set(re.findall(r'\b\w+\b', text.lower()))], without repetition. *)
Definition word_set (text : string) : list string :=
  nodup string_dec (findall word_pattern (lower text)).

Section WithModel.

(** [self.model]; [None] when the model could not be loaded. *)
Variable model : option backend.

Definition calculate_semantic_similarity (text1 text2 : string) : option Q :=
  if is_empty text1 || is_empty text2 then Some 0.8
  else
    match model with
    | None =>
        let words1 := word_set text1 in
        let words2 := word_set text2 in
        match words1, words2 with
        | [], _ | _, [] => Some 0.8
        | _, _ =>
            let overlap :=
              of_nat (List.length (filter (fun w => mem w words2) words1)) in
            match
              truediv overlap
                (of_nat (List.length words1) + of_nat (List.length words2)
                 - overlap)
            with
            | Some similarity => Some (py_min (0.75 + similarity * 0.25) 1.0)
            | None => None
            end
        end
    | Some m =>
        match cos_sim m text1 text2 with
        | Some similarity => Some (py_min (0.75 + similarity * 0.25) 1.0)
        | None => Some 0.8
        end
    end.

(** The result of [calculate_skills_match]. *)
Record skills_match : Type := {
  sm_score : Q;
  direct_matches : list string;
  semantic_matches : list (string * option string * Q);
  missing_skills : list string
}.

(** The inner loop of lines 143-152: the best resume skill for one job
    skill, with its similarity. *)
Fixpoint best_resume_match (job_skill : string)
    (resume_skills_lower : list string) (best : option string * Q)
    : option (option string * Q) :=
  match resume_skills_lower with
  | [] => Some best
  | resume_skill :: rest =>
      match calculate_semantic_similarity job_skill resume_skill with
      | Some similarity =>
          best_resume_match job_skill rest
            (if ltb (snd best) similarity then (Some resume_skill, similarity)
             else best)
      | None => None
      end
  end.

(** The loop of lines 138-157 over the job skills. *)
Fixpoint find_semantic_matches (direct_matches resume_skills_lower
    job_skills_lower : list string)
    : option (list (string * option string * Q)) :=
  match job_skills_lower with
  | [] => Some []
  | job_skill :: rest =>
      if mem job_skill direct_matches
      then find_semantic_matches direct_matches resume_skills_lower rest
      else
        match best_resume_match job_skill resume_skills_lower (None, 0) with
        | Some (best_match, best_score) =>
            match
              find_semantic_matches direct_matches resume_skills_lower rest
            with
            | Some more =>
                if leb 0.6 best_score
                then Some ((job_skill, best_match, best_score) :: more)
                else Some more
            | None => None
            end
        | None => None
        end
  end.

Definition calculate_skills_match (resume_skills job_skills : list string)
    : option skills_match :=
  match job_skills with
  | [] =>
      Some {| sm_score := 1.0; direct_matches := [];
              semantic_matches := []; missing_skills := [] |}
  | _ =>
      let resume_skills_lower := map lower resume_skills in
      let job_skills_lower := map lower job_skills in
      let direct_matches :=
        filter (fun job_skill => mem job_skill resume_skills_lower)
               job_skills_lower in
      match
        find_semantic_matches direct_matches resume_skills_lower
          job_skills_lower
      with
      | Some semantic_matches =>
          let missing_skills :=
            filter
              (fun job_skill =>
                 negb (mem job_skill direct_matches)
                 && negb (existsb
                            (fun m => String.eqb job_skill (fst (fst m)))
                            semantic_matches))
              job_skills_lower in
          let direct_match_count := of_nat (List.length direct_matches) in
          let semantic_match_count := sum (map snd semantic_matches) in
          let total_match_score :=
            if (0 <? List.length job_skills)%nat then
              let raw_score :=
                (direct_match_count + semantic_match_count)
                / of_nat (List.length job_skills) in
              0.8 + raw_score * 0.2
            else 1.0 in
          Some {| sm_score := py_min 1.0 total_match_score;
                  direct_matches := direct_matches;
                  semantic_matches := semantic_matches;
                  missing_skills := missing_skills |}
      | None => None
      end
  end.

(** *** Experience *)

(** [datetime.datetime.now().year] *)
Variable current_year : Z.

Definition unit_words : regex := alts ["years"; "year"; "yrs"; "yr"].
Definition of_or_space : regex :=
  Alt (seq [spaces1; Lit "of"; spaces1]) spaces1.
Definition plus_opt : regex := Opt true (Lit "+").

Definition year_patterns : list regex :=
  [ (* (\d+)\+?\s*(?:years|year|yrs|yr)(?:\s+of\s+|\s+)(?:experience|work) *)
    seq [ Grp digits1; plus_opt; spaces0; unit_words; of_or_space;
          alts ["experience"; "work"] ];
    (* (?:experience|work)(?:\s+of\s+|\s+)(\d+)\+?\s*(?:years|year|yrs|yr) *)
    seq [ alts ["experience"; "work"]; of_or_space; Grp digits1; plus_opt;
          spaces0; unit_words ];
    (* (\d+)(?:-\d+)?\+?\s*(?:years|year|yrs|yr) *)
    seq [ Grp digits1; Opt true (seq [Lit "-"; digits1]); plus_opt; spaces0;
          unit_words ];
    (* (?:since|from)\s+(\d{4}) *)
    seq [ alts ["since"; "from"]; spaces1; Grp (times 4 is_digit) ] ].

(** The body of the loop over the matches of one pattern. *)
Definition count_match (estimated_years : Q) (m : string) : Q :=
  if (String.length m =? 4)%nat && isdigit m then
    let years := (current_year - int_of_digits m)%Z in
    if (0 <? years)%Z && (years <? 50)%Z
    then py_max estimated_years (inject_Z years)
    else estimated_years
  else
    let years := int_of_digits m in
    py_max estimated_years (inject_Z years).

Definition explicit_years (resume_experience : string) : Q :=
  fold_left
    (fun estimated_years pattern =>
       fold_left count_match
         (findall_group pattern (lower resume_experience)) estimated_years)
    year_patterns 0.

(** (?:position|title|role|worked|employed)
    (?:\s*:\s*|\s+as\s+|\s+at\s+|\s+with\s+|\s+for\s+) *)
Definition position_pattern : regex :=
  let after w := seq [spaces1; Lit w; spaces1] in
  seq [ alts ["position"; "title"; "role"; "worked"; "employed"];
        Alt (seq [spaces0; Lit ":"; spaces0])
          (Alt (after "as") (Alt (after "at")
             (Alt (after "with") (after "for")))) ].

Definition months : list string :=
  [ "Jan"; "Feb"; "Mar"; "Apr"; "May"; "Jun"; "Jul"; "Aug"; "Sep"; "Oct";
    "Nov"; "Dec" ].

(** The en dash of the pattern, in UTF-8. *)
Definition en_dash : string :=
  String (ascii_of_nat 226) (String (ascii_of_nat 128)
    (String (ascii_of_nat 147) "")).

(** \b(?:Jan|...|Dec)[a-z]*\s+\d{4}\s*(?:-|en dash|to)\s*
    (?:Jan|...|Dec|Present|Current)[a-z]*\s*\d{0,4} *)
Definition date_range_pattern : regex :=
  seq [ Bnd; alts months; Rep true is_lower 0 None; spaces1;
        times 4 is_digit; spaces0; alts ["-"; en_dash; "to"]; spaces0;
        alts (months ++ ["Present"; "Current"]); Rep true is_lower 0 None;
        spaces0; Rep true is_digit 0 (Some 4%nat) ].

Definition structural_years (resume_experience : string) : Q :=
  let position_count :=
    List.length (findall position_pattern resume_experience) in
  let date_ranges :=
    List.length (findall date_range_pattern resume_experience) in
  let job_paragraphs :=
    List.length
      (filter
         (fun para =>
            (100 <? String.length para)%nat
            && any_in ["develop"; "implement"; "manage"; "lead"; "create";
                       "design"] (lower para))
         (paragraphs resume_experience)) in
  let position_years := of_nat position_count * 2 in
  let date_range_years := of_nat date_ranges * 1.5 in
  let paragraph_years := of_nat job_paragraphs * 1.5 in
  py_max (py_max (py_max position_years date_range_years) paragraph_years)
         (if (200 <? String.length resume_experience)%nat then 1 else 0).

(** Lines 204-253: the estimated years of experience of a resume. *)
Definition estimate_years (resume_experience : string) : Q :=
  let estimated_years := explicit_years resume_experience in
  if Qeq_bool estimated_years 0 then structural_years resume_experience
  else estimated_years.

(** Lines 255-262. *)
Definition experience_level_of (estimated_years : Q) : string :=
  if leb 10 estimated_years then "Senior/Expert"
  else if leb 5 estimated_years then "Mid-Senior Level"
  else if leb 2 estimated_years then "Mid Level"
  else "Entry Level".

(** Lines 264-276: the step function from estimated years to a score. *)
Definition experience_score (estimated_years : Q) (required_years : Z) : Q :=
  if leb (inject_Z required_years) estimated_years then 1.0
  else if leb (inject_Z required_years * 0.7) estimated_years then 0.95
  else if leb (inject_Z required_years * 0.5) estimated_years then 0.9
  else if leb (inject_Z required_years * 0.3) estimated_years then 0.85
  else if ltb 0 estimated_years then 0.8
  else 0.75.

(** The result of [calculate_experience_match]. *)
Record experience_match : Type := {
  em_score : Q;
  estimated_years : Q;
  em_required_years : Z;
  experience_level : string
}.

Definition calculate_experience_match (resume_experience : string)
    (required_years : Z) : experience_match :=
  if (required_years =? 0)%Z then
    {| em_score := 1.0; estimated_years := 0; em_required_years := 0;
       experience_level := "Entry Level" |}
  else
    let estimated_years := estimate_years resume_experience in
    {| em_score := experience_score estimated_years required_years;
       estimated_years := estimated_years;
       em_required_years := required_years;
       experience_level := experience_level_of estimated_years |}.

(** *** Education *)

Definition education_levels : list (string * Z) :=
  [ ("high school", 1); ("associate", 2); ("bachelor", 3); ("master", 4);
    ("phd", 5); ("doctorate", 5) ]%Z.

(** [education_levels.get(key, 0)] *)
Definition level_score (key : string) : Z :=
  match find (fun kv => String.eqb (fst kv) key) education_levels with
  | Some kv => snd kv
  | None => 0%Z
  end.

Definition upper_char (c : ascii) : ascii :=
  if is_lower c then ascii_of_nat (code c - 32) else c.

(** [str.title()] *)
Fixpoint title_from (in_word : bool) (s : string) : string :=
  match s with
  | EmptyString => EmptyString
  | String c s' =>
      String (if in_word then lower_char c else upper_char c)
             (title_from (is_alpha c) s')
  end.

Definition title (s : string) : string := title_from false s.

Definition relevant_fields : list string :=
  [ "computer science"; "information technology"; "software engineering";
    "computer engineering"; "electrical engineering"; "data science";
    "mathematics"; "statistics"; "information systems" ].

(** The result of [calculate_education_match]. *)
Record education_match : Type := {
  edm_score : Q;
  detected_level : string;
  required_level : string;
  field_match : bool
}.

(** One round of the loop of lines 322-339. *)
Definition detect_level (resume_lower : string) (st : Z * string)
    (entry : string * Z) : Z * string :=
  let '(level, score) := entry in
  let st :=
    if contains level resume_lower
    then (Z.max (fst st) score, title level) else st in
  if String.eqb level "bachelor"
     && any_in ["b.s."; "b.a."; "bs"; "ba"; "bachelor of"; "bachelors";
                "undergraduate"] resume_lower
  then (Z.max (fst st) score, "Bachelor")
  else if String.eqb level "master"
          && any_in ["m.s."; "m.a."; "ms"; "ma"; "master of"; "masters";
                     "graduate"] resume_lower
  then (Z.max (fst st) score, "Master")
  else if String.eqb level "phd"
          && any_in ["ph.d."; "phd"; "doctorate"; "doctoral"] resume_lower
  then (Z.max (fst st) score, "PhD/Doctorate")
  else st.

Definition calculate_education_match (resume_education
    required_education : string) : education_match :=
  if is_empty required_education then
    {| edm_score := 1.0; detected_level := "Unknown";
       required_level := "None"; field_match := false |}
  else
    let required_level_score := level_score (lower required_education) in
    let '(resume_level_score, detected_level) :=
      fold_left (detect_level (lower resume_education)) education_levels
                (0%Z, "Unknown") in
    let field_match := any_in relevant_fields (lower resume_education) in
    let base_score :=
      if (resume_level_score >=? required_level_score)%Z then 1.0
      else if (required_level_score >? 0)%Z
      then 0.8 + (inject_Z resume_level_score
                  / inject_Z required_level_score) * 0.2
      else 0.8 in
    let final_score :=
      py_min 1.0 (base_score + (if field_match then 0.1 else 0)) in
    {| edm_score := final_score; detected_level := detected_level;
       required_level := title required_education;
       field_match := field_match |}.

(** *** Key phrases and keyword relevance *)

(** [\b[a-zA-Z]{3,}\b] *)
Definition long_word_pattern : regex :=
  seq [Bnd; Rep true is_alpha 3 None; Bnd].

Definition stop_words : list string :=
  ["and"; "the"; "for"; "with"; "that"; "this"; "are"; "you"].

(** [list.sort(key=lambda x: x[1], reverse=True)]: stable, so that entries
    with equal scores keep their order. *)
Fixpoint insert_desc (x : nat * Q) (l : list (nat * Q)) : list (nat * Q) :=
  match l with
  | [] => [x]
  | y :: l' =>
      if leb (snd x) (snd y) then y :: insert_desc x l' else x :: l
  end.

Definition sort_desc (l : list (nat * Q)) : list (nat * Q) :=
  fold_left (fun sorted x => insert_desc x sorted) l [].

Definition top_sentences (sentences : list string)
    (sentence_scores : list (nat * Q)) (max_phrases : nat) : list string :=
  map (fun x => nth (fst x) sentences "")
      (firstn max_phrases (sort_desc sentence_scores)).

Definition extract_key_phrases (text : string) (max_phrases : nat)
    : list string :=
  let sentences :=
    map strip
      (filter (fun s => (10 <? String.length (strip s))%nat)
              (split_on (one_of ".!?") text)) in
  match sentences with
  | [] => []
  | _ =>
      let indices := List.seq 0 (List.length sentences) in
      match model with
      | None =>
          let words := findall long_word_pattern (lower text) in
          let word_freq := fun word =>
            if mem word stop_words then 0
            else of_nat (count_occ string_dec words word) in
          let sentence_scores :=
            map (fun i =>
                   let sentence := nth i sentences "" in
                   let words_in_sentence :=
                     findall long_word_pattern (lower sentence) in
                   let score := sum (map word_freq words_in_sentence) in
                   (i, if (0 <? List.length words_in_sentence)%nat
                       then score / of_nat (List.length words_in_sentence)
                       else score))
                indices in
          top_sentences sentences sentence_scores max_phrases
      | Some m =>
          match centrality m sentences with
          | Some score =>
              top_sentences sentences (map (fun i => (i, score i)) indices)
                            max_phrases
          | None =>
              firstn (Nat.min max_phrases (List.length sentences)) sentences
          end
      end
  end.

Definition phrase_relevance (resume_text phrase : string) : Q :=
  match model with
  | None =>
      let key_words :=
        filter (fun w => negb (mem w stop_words))
               (findall long_word_pattern (lower phrase)) in
      let matches :=
        List.length
          (filter (fun word => contains word (lower resume_text))
                  key_words) in
      match key_words with
      | [] => 0.8
      | _ => 0.75 + (of_nat matches / of_nat (List.length key_words)) * 0.25
      end
  | Some m =>
      match cos_sim m phrase resume_text with
      | Some raw_similarity => 0.75 + raw_similarity * 0.25
      | None => 0.8
      end
  end.

Definition calculate_keyword_relevance (resume_text job_description : string)
    : Q :=
  match extract_key_phrases job_description 10 with
  | [] => 0.8
  | job_key_phrases =>
      let relevance_scores :=
        map (phrase_relevance resume_text) job_key_phrases in
      sum relevance_scores / of_nat (List.length relevance_scores)
  end.

(** *** Aggregation *)

Definition normalize_score (score min_score max_score : Q) : Q :=
  let capped_score := py_max 0.0 (py_min 1.0 score) in
  min_score + capped_score * (max_score - min_score).

(** [resume_name in self.expected_scores] and the value stored there. *)
Definition expected_score (resume_name : string) : option Q :=
  match find (fun kv => String.eqb (fst kv) resume_name) expected_scores with
  | Some kv => Some (snd kv)
  | None => None
  end.

Definition avg_expected : Q :=
  sum (map snd expected_scores) / of_nat (List.length expected_scores).

Definition calibrate_score (resume_name : string) (raw_score : Q) : Q :=
  match expected_score resume_name with
  | Some score => score
  | None =>
      if ltb 0.85 raw_score then py_min (avg_expected + 2.0) 85.0
      else if ltb 0.7 raw_score then avg_expected
      else py_max (avg_expected - 2.0) 78.0
  end.

Record skills_details : Type := {
  sd_score : Q;
  sd_weight : Q;
  sd_direct_matches : list string;
  sd_semantic_matches : list (string * option string * Q);
  sd_missing_skills : list string
}.

Record experience_details : Type := {
  xd_score : Q;
  xd_weight : Q;
  xd_estimated_years : Q;
  xd_required_years : Z;
  xd_experience_level : string
}.

Record education_details : Type := {
  ed_score : Q;
  ed_weight : Q;
  ed_detected_level : string;
  ed_required_level : string;
  ed_field_match : bool
}.

Record score_details : Type := { d_score : Q; d_weight : Q }.

Record match_details_t : Type := {
  md_skills : skills_details;
  md_experience : experience_details;
  md_education : education_details;
  md_semantic_similarity : score_details;
  md_keyword_relevance : score_details
}.

(** The result of [match_resume_with_job]. *)
Record match_result : Type := {
  mr_resume_name : string;
  mr_email : string;
  match_score : Q;
  match_details : match_details_t
}.

(** The five component results of lines 558-584. *)
Record components : Type := {
  c_skills : skills_match;
  c_experience : experience_match;
  c_education : education_match;
  c_semantic_similarity : Q;
  c_keyword_relevance : Q
}.

Definition component_scores (resume : ResumeParser.resume_data)
    (job : JobRequirementsParser.job_data) : option components :=
  match
    calculate_skills_match (ResumeParser.skills resume)
                           (JobRequirementsParser.required_skills job)
  with
  | None => None
  | Some skills =>
      let experience :=
        calculate_experience_match (ResumeParser.experience resume)
          (JobRequirementsParser.required_experience_years job) in
      let education :=
        calculate_education_match (ResumeParser.education resume)
          (JobRequirementsParser.required_education job) in
      match
        calculate_semantic_similarity
          (ResumeParser.full_text resume)
          (JobRequirementsParser.full_description job)
      with
      | None => None
      | Some semantic_similarity =>
          Some {| c_skills := skills; c_experience := experience;
                  c_education := education;
                  c_semantic_similarity := semantic_similarity;
                  c_keyword_relevance :=
                    calculate_keyword_relevance
                      (ResumeParser.full_text resume)
                      (JobRequirementsParser.full_description job) |}
      end
  end.

(** Lines 587-593: the weighted overall score. *)
Definition overall_score_of (c : components) : Q :=
  sm_score (c_skills c) * w_skills weights
  + em_score (c_experience c) * w_experience weights
  + edm_score (c_education c) * w_education weights
  + c_semantic_similarity c * w_semantic_similarity weights
  + c_keyword_relevance c * w_keyword_relevance weights.

(** Lines 596-599: the percentage the function computes. *)
Definition percentage_score_of (overall_score : Q) : Q :=
  let adjusted_score := normalize_score overall_score 0.75 0.95 in
  round2 (adjusted_score * 100).

Definition details_of (c : components) : match_details_t :=
  {| md_skills :=
       {| sd_score := round2 (sm_score (c_skills c) * 100);
          sd_weight := w_skills weights * 100;
          sd_direct_matches := direct_matches (c_skills c);
          sd_semantic_matches :=
            map (fun m => (fst m, round2 (snd m * 100)))
                (semantic_matches (c_skills c));
          sd_missing_skills := missing_skills (c_skills c) |};
     md_experience :=
       {| xd_score := round2 (em_score (c_experience c) * 100);
          xd_weight := w_experience weights * 100;
          xd_estimated_years := estimated_years (c_experience c);
          xd_required_years := em_required_years (c_experience c);
          xd_experience_level := experience_level (c_experience c) |};
     md_education :=
       {| ed_score := round2 (edm_score (c_education c) * 100);
          ed_weight := w_education weights * 100;
          ed_detected_level := detected_level (c_education c);
          ed_required_level := required_level (c_education c);
          ed_field_match := field_match (c_education c) |};
     md_semantic_similarity :=
       {| d_score := round2 (c_semantic_similarity c * 100);
          d_weight := w_semantic_similarity weights * 100 |};
     md_keyword_relevance :=
       {| d_score := round2 (c_keyword_relevance c * 100);
          d_weight := w_keyword_relevance weights * 100 |} |}.

Definition match_resume_with_job (resume : ResumeParser.resume_data)
    (job : JobRequirementsParser.job_data) : option match_result :=
  match component_scores resume job with
  | None => None
  | Some c =>
      let overall_score := overall_score_of c in
      let percentage_score := percentage_score_of overall_score in
      let resume_name := ResumeParser.resume_name resume in
      let calibrated_score := calibrate_score resume_name overall_score in
      let email :=
        if contains "Ahmed_Zaki_Eldin.pdf" resume_name then ""
        else ResumeParser.email resume in
      Some {| mr_resume_name := resume_name; mr_email := email;
              match_score := calibrated_score;
              match_details := details_of c |}
  end.

(** [results.sort(key=lambda x: x['match_score'], reverse=True)] *)
Fixpoint insert_result (x : match_result) (l : list match_result)
    : list match_result :=
  match l with
  | [] => [x]
  | y :: l' =>
      if leb (match_score x) (match_score y) then y :: insert_result x l'
      else x :: l
  end.

Fixpoint match_all (job : JobRequirementsParser.job_data)
    (parsed_resumes : list ResumeParser.resume_data)
    : option (list match_result) :=
  match parsed_resumes with
  | [] => Some []
  | resume_data :: rest =>
      match match_resume_with_job resume_data job with
      | None => None
      | Some match_result =>
          match match_all job rest with
          | None => None
          | Some more => Some (match_result :: more)
          end
      end
  end.

(** [match_resumes_with_job]; the JSON file is given decoded. *)
Definition match_resumes_with_job (ner : string -> list (string * string))
    (fs : ResumeParser.filesystem) (resumes_dir : string)
    (job_json : JobRequirementsParser.job_record)
    : option (list match_result) :=
  let job_data := JobRequirementsParser.parse_job_requirements ner job_json in
  let parsed_resumes :=
    ResumeParser.parse_resumes_in_directory fs resumes_dir in
  match match_all job_data parsed_resumes with
  | None => None
  | Some match_results =>
      Some (fold_left (fun sorted x => insert_result x sorted)
                      match_results [])
  end.

End WithModel.

End MPNetResumeMatcher.

(** ** mpnet_output_generator.py *)

Module MPNetOutputGenerator.
Import Str Num MPNetResumeMatcher.

(** Lines 145-154: the recommendation of a report. *)
Definition recommendation (match_score : Q) : string :=
  if leb 80 match_score then
    "This candidate is an excellent match for the position. Consider scheduling an interview as a top priority."
  else if leb 70 match_score then
    "This candidate is a strong match for the position. Recommended for interview."
  else if leb 60 match_score then
    "This candidate is a good match for the position. Consider reviewing their application further."
  else if leb 50 match_score then
    "This candidate is a moderate match for the position. May be worth considering if top candidates are unavailable."
  else
    "This candidate may not be the best match for this specific position.".

(** [c.isalnum()] *)
Definition is_alnum (c : ascii) : bool := is_alpha c || is_digit c.

(** [os.path.splitext(path)[0]] *)
Definition stem (path : string) : string :=
  substring 0 (String.length path
               - String.length (ResumeParser.extension path)) path.

(** Line 230: the resume name made safe for a file name. *)
Definition safe_name (resume_name : string) : string :=
  of_chars (map (fun c => if is_alnum c then c else "_"%char)
                (chars (stem resume_name))).

(** Lines 229-231: the file a report is written to. *)
Definition report_file (output_dir resume_name : string) : string :=
  ResumeParser.path_join output_dir
    (String.append (safe_name resume_name) "_report.md").

Section WithFormat.

(** The text of a number inside an f-string. *)
Variable show : Q -> string.
Variable show_int : Z -> string.

(** [', '.join(l)] *)
Definition join_comma (l : list string) : string := String.concat ", " l.

(** Lines 158-178: the remarks on the components with a low score. *)
Definition improvements (d : match_details_t) : list string :=
  let skills_details := md_skills d in
  let experience_details := md_experience d in
  let education_details := md_education d in
  let semantic_details := md_semantic_similarity d in
  (if ltb (sd_score skills_details) 60 then
     "- **Skills**: The candidate's skills do not strongly align with the job requirements."
     :: match sd_missing_skills skills_details with
        | [] => []
        | missing =>
            [ String.append
                "  - Consider focusing on these key missing skills: "
                (join_comma (firstn 3 missing)) ]
        end
   else [])
  ++ (if ltb (xd_score experience_details) 60 then
        "- **Experience**: The candidate may not have sufficient relevant experience for this role."
        :: (if ltb (xd_estimated_years experience_details)
                   (inject_Z (xd_required_years experience_details))
            then
              [ String.concat ""
                  [ "  - The position requires ";
                    show_int (xd_required_years experience_details);
                    " years of experience, but the candidate has approximately ";
                    show (xd_estimated_years experience_details);
                    " years." ] ]
            else [])
      else [])
  ++ (if ltb (ed_score education_details) 60 then
        [ "- **Education**: The candidate's education may not meet the requirements for this position.";
          String.concat ""
            [ "  - The position requires a ";
              ed_required_level education_details;
              " degree, but the candidate has a ";
              ed_detected_level education_details; " degree." ] ]
      else [])
  ++ (if ltb (d_score semantic_details) 60 then
        [ "- **Content Relevance**: The resume content does not strongly align with the job description." ]
      else []).

Definition score_line (score weight : Q) : string :=
  String.concat ""
    ["Score: "; show score; "% (Weight: "; show weight; "%)"].

Definition line_break : string := String newline "".

Definition show_option (o : option string) : string :=
  match o with Some s => s | None => "None" end.

(** The lines collected by [generate_detailed_report]. *)
Definition report_lines (r : match_result) : list string :=
  let d := match_details r in
  let skills_details := md_skills d in
  let experience_details := md_experience d in
  let education_details := md_education d in
  let semantic_details := md_semantic_similarity d in
  let keyword_details := md_keyword_relevance d in
  [ String.append "# Detailed Match Report for " (mr_resume_name r);
    String.append "Email: " (mr_email r);
    String.concat "" ["Overall Match Score: "; show (match_score r); "%"];
    "";
    "## Skills Match";
    score_line (sd_score skills_details) (sd_weight skills_details);
    String.append line_break "### Direct Matching Skills:" ]
  ++ match sd_direct_matches skills_details with
     | [] => ["- No direct skill matches found"]
     | direct => map (String.append "- ") direct
     end
  ++ match sd_semantic_matches skills_details with
     | [] => []
     | semantic =>
         String.append line_break "### Semantically Similar Skills:"
         :: map (fun m =>
                   String.concat ""
                     [ "- "; fst (fst m); " (matched with ";
                       show_option (snd (fst m)); ", similarity: ";
                       show (snd m); "%)" ])
                semantic
     end
  ++ match sd_missing_skills skills_details with
     | [] => []
     | missing =>
         String.append line_break "### Missing Skills:"
         :: map (String.append "- ") missing
     end
  ++ [ String.append line_break "## Experience Match";
       score_line (xd_score experience_details)
                  (xd_weight experience_details);
       String.concat ""
         [ "Estimated Experience: ";
           show (xd_estimated_years experience_details); " years" ];
       String.concat ""
         [ "Required Experience: ";
           show_int (xd_required_years experience_details); " years" ];
       String.append "Experience Level: "
         (xd_experience_level experience_details);
       String.append line_break "## Education Match";
       score_line (ed_score education_details) (ed_weight education_details);
       String.append "Detected Education Level: "
         (ed_detected_level education_details);
       String.append "Required Education Level: "
         (ed_required_level education_details) ]
  ++ (if ed_field_match education_details
      then ["(Checkmark) Relevant field of study detected"] else [])
  ++ [ String.append line_break "## Semantic Content Similarity";
       score_line (d_score semantic_details) (d_weight semantic_details);
       "This score represents how well the overall content of the resume matches the job description semantically.";
       String.append line_break "## Keyword Relevance";
       score_line (d_score keyword_details) (d_weight keyword_details);
       "This score measures how well the resume contains key terms and concepts from the job description.";
       String.append line_break "## Recommendations";
       recommendation (match_score r);
       String.append line_break "### Areas for Improvement:" ]
  ++ match improvements d with
     | [] => ["- No significant areas for improvement identified."]
     | remarks => remarks
     end.

Definition generate_detailed_report (r : match_result) : string :=
  String.concat line_break (report_lines r).

End WithFormat.

End MPNetOutputGenerator.

(** ** Definitions used in the statements *)

Module Statements.
Import Str Re Num MPNetResumeMatcher.

(** The overlap of the specification, [|A n B| / (|A| + |B| - |A n B|)],
    over the word tokens of the two texts. *)
Definition jaccard (text1 text2 : string) : Q :=
  let a := word_set text1 in
  let b := word_set text2 in
  let common := of_nat (List.length (filter (fun w => mem w b) a)) in
  common / (of_nat (List.length a) + of_nat (List.length b) - common).

(** The cosine reported by a loaded model lies between -1 and 1. *)
Definition cosine_in_range (model : option backend) : Prop :=
  forall m a b s, model = Some m -> cos_sim m a b = Some s -> -1 <= s <= 1.

(** A model that reports the same cosine for every pair of texts. *)
Definition constant_model (c : Q) : backend :=
  {| cos_sim := fun _ _ => Some c; centrality := fun _ => Some (fun _ => c) |}.

(** A model whose every call raises. *)
Definition failing_model : backend :=
  {| cos_sim := fun _ _ => None; centrality := fun _ => None |}.

(** A job record with a single required skill and no requirement line. *)
Definition python_job : JobRequirementsParser.job_record :=
  {| JobRequirementsParser.job_title := Some "Software Engineer";
     JobRequirementsParser.company := None;
     JobRequirementsParser.job_skills := Some "python";
     JobRequirementsParser.job_requirements := None;
     JobRequirementsParser.description := None |}.

(** An entity recogniser that finds nothing. *)
Definition no_entities : string -> list (string * string) := fun _ => [].

(** The profile built from [python_job]. *)
Definition python_profile : JobRequirementsParser.job_data :=
  JobRequirementsParser.parse_job_requirements no_entities python_job.


(** A resume is unlisted when its name is no key of [expected_scores]. *)
Definition unlisted (resume : ResumeParser.resume_data) : Prop :=
  ~ In (ResumeParser.resume_name resume) (map fst expected_scores).

(** A job record that only has requirement lines. *)
Definition job_with (lines : list string) : JobRequirementsParser.job_record :=
  {| JobRequirementsParser.job_title := Some "Software Engineer";
     JobRequirementsParser.company := None;
     JobRequirementsParser.job_skills := None;
     JobRequirementsParser.job_requirements := Some lines;
     JobRequirementsParser.description := None |}.

(** The largest element of a list of integers, 0 for the empty list. *)
Definition max_of (l : list Z) : Z := fold_right Z.max 0%Z l.

(** The priority of an education level. *)
Definition education_rank (level : string) : Z :=
  if String.eqb level "phd" then 3%Z
  else if String.eqb level "master" then 2%Z
  else if String.eqb level "bachelor" then 1%Z
  else 0%Z.

(** A file system in which the walked directory holds the single resume
    cv.pdf. *)
Definition archive_fs : ResumeParser.filesystem :=
  {| ResumeParser.walk := fun d => [(d, ["cv.pdf"])];
     ResumeParser.isfile := fun _ => true;
     ResumeParser.pdf_text := fun _ => "Jane Roe, jane@example.org, Python";
     ResumeParser.docx_text := fun _ => "" |}.

(** The file names of a directory walk. *)
Definition file_names (entries : list (string * list string)) : list string :=
  flat_map snd entries.

(** A list of results in descending order of score. *)
Definition ranked : list MPNetResumeMatcher.match_result -> Prop :=
  Sorted (fun a b =>
            MPNetResumeMatcher.match_score b
            <= MPNetResumeMatcher.match_score a).

(** Three lines of a report. *)
Definition excellent_match : string :=
  "This candidate is an excellent match for the position. Consider scheduling an interview as a top priority.".

Definition strong_match : string :=
  "This candidate is a strong match for the position. Recommended for interview.".

Definition content_remark : string :=
  "- **Content Relevance**: The resume content does not strongly align with the job description.".

(** The words a pattern can match, read off its syntax; a word boundary
    matches the empty word. *)
Fixpoint accepts (r : Re.regex) (w : list ascii) : Prop :=
  match r with
  | Re.Lit l => w = Str.chars l
  | Re.Cls p => exists c, w = [c] /\ p c = true
  | Re.Cat r1 r2 =>
      exists w1 w2, w = w1 ++ w2 /\ accepts r1 w1 /\ accepts r2 w2
  | Re.Alt r1 r2 => accepts r1 w \/ accepts r2 w
  | Re.Opt _ r1 => w = [] \/ accepts r1 w
  | Re.Rep _ p lo hi =>
      forallb p w = true
      /\ (lo <= List.length w)%nat
      /\ match hi with
         | Some h => (List.length w <= h)%nat
         | None => True
         end
  | Re.Grp r1 => accepts r1 w
  | Re.Bnd => w = []
  end.

(** The words the capturing groups of a pattern can hold. *)
Fixpoint captured (r : Re.regex) (g : list ascii) : Prop :=
  match r with
  | Re.Cat r1 r2 | Re.Alt r1 r2 => captured r1 g \/ captured r2 g
  | Re.Opt _ r1 => captured r1 g
  | Re.Grp r1 => accepts r1 g \/ captured r1 g
  | _ => False
  end.

(** What a match object reports about the text it was found in. *)
Definition found_in (r : Re.regex) (s : list ascii) (m : Re.mobj) : Prop :=
  exists pre w post,
    s = pre ++ w ++ post /\ accepts r w /\ Re.whole m = Str.of_chars w
    /\ (Re.group1 m = None
        \/ exists g, Re.group1 m = Some (Str.of_chars g) /\ captured r g).

End Statements.

(** * Properties *)

(** ** Facts about the numeric helpers *)

Module NumFacts.
Import Num.

Lemma leb_true (a b : Q) : leb a b = true <-> a <= b.
Proof. unfold leb. apply Qle_bool_iff. Qed.

Lemma leb_false (a b : Q) : leb a b = false <-> b < a.
Proof.
  unfold leb. split; intro H.
  - apply Qnot_le_lt. intro Hle. apply Qle_bool_iff in Hle. congruence.
  - destruct (Qle_bool a b) eqn:E; [|reflexivity].
    apply Qle_bool_iff in E. apply Qlt_not_le in H. contradiction.
Qed.

Lemma ltb_true (a b : Q) : ltb a b = true <-> a < b.
Proof.
  unfold ltb. rewrite negb_true_iff. apply (leb_false b a).
Qed.

Lemma ltb_false (a b : Q) : ltb a b = false <-> b <= a.
Proof.
  unfold ltb. rewrite negb_false_iff. apply (leb_true b a).
Qed.

(** Case analysis on a comparison, with the order fact in the context. *)
Ltac cmp a b :=
  let E := fresh "E" in
  lazymatch goal with
  | |- context [leb a b] =>
      destruct (leb a b) eqn:E;
      [apply leb_true in E | apply leb_false in E]
  | |- context [ltb a b] =>
      destruct (ltb a b) eqn:E;
      [apply ltb_true in E | apply ltb_false in E]
  end.

Ltac cmp_lt a b :=
  let E := fresh "E" in
  destruct (ltb a b) eqn:E; [apply ltb_true in E | apply ltb_false in E].

Ltac cmp_le a b :=
  let E := fresh "E" in
  destruct (leb a b) eqn:E; [apply leb_true in E | apply leb_false in E].

Lemma py_min_spec (a b : Q) :
  (b < a /\ py_min a b = b) \/ (a <= b /\ py_min a b = a).
Proof.
  unfold py_min. destruct (ltb b a) eqn:E.
  - left. apply ltb_true in E. auto.
  - right. apply ltb_false in E. auto.
Qed.

Lemma py_max_spec (a b : Q) :
  (a < b /\ py_max a b = b) \/ (b <= a /\ py_max a b = a).
Proof.
  unfold py_max. destruct (ltb a b) eqn:E.
  - left. apply ltb_true in E. auto.
  - right. apply ltb_false in E. auto.
Qed.

Lemma py_min_le_l (a b : Q) : py_min a b <= a.
Proof. destruct (py_min_spec a b) as [[H ->]|[H ->]]; lra. Qed.

Lemma py_min_le_r (a b : Q) : py_min a b <= b.
Proof. destruct (py_min_spec a b) as [[H ->]|[H ->]]; lra. Qed.

Lemma py_min_glb (a b c : Q) : c <= a -> c <= b -> c <= py_min a b.
Proof. intros. destruct (py_min_spec a b) as [[H1 ->]|[H1 ->]]; lra. Qed.

Lemma py_min_mono_r (a b b' : Q) : b <= b' -> py_min a b <= py_min a b'.
Proof.
  intro H. apply py_min_glb.
  - apply py_min_le_l.
  - pose proof (py_min_le_r a b). lra.
Qed.

Lemma of_nat_nonneg (n : nat) : 0 <= of_nat n.
Proof.
  unfold of_nat. change 0 with (inject_Z 0). rewrite <- Zle_Qle. lia.
Qed.

Lemma of_nat_le (n m : nat) : (n <= m)%nat -> of_nat n <= of_nat m.
Proof. intro H. unfold of_nat. rewrite <- Zle_Qle. lia. Qed.

Lemma of_nat_S (n : nat) : of_nat (S n) == of_nat n + 1.
Proof.
  unfold of_nat. rewrite Nat2Z.inj_succ. unfold Z.succ.
  rewrite inject_Z_plus. reflexivity.
Qed.

Lemma of_nat_pos (n : nat) : (0 < n)%nat -> 0 < of_nat n.
Proof.
  intro H. unfold of_nat. change 0 with (inject_Z 0). rewrite <- Zlt_Qlt. lia.
Qed.

Lemma sum_from (l : list Q) (a : Q) : fold_left Qplus l a == a + sum l.
Proof.
  unfold sum. revert a. induction l as [|x l IH]; intro a; simpl.
  - lra.
  - rewrite (IH (a + x)), (IH (0 + x)). lra.
Qed.

Lemma sum_cons (x : Q) (l : list Q) : sum (x :: l) == x + sum l.
Proof. unfold sum at 1. simpl. rewrite sum_from. lra. Qed.

Lemma truediv_some (a b : Q) : ~ b == 0 -> truediv a b = Some (a / b).
Proof.
  intro H. unfold truediv. destruct (Qeq_bool b 0) eqn:E; [|reflexivity].
  apply Qeq_bool_iff in E. contradiction.
Qed.

End NumFacts.

Module MPNetResumeMatcherFacts.
Import Str Num NumFacts MPNetResumeMatcher Statements.

(** *** The similarity backend *)

Lemma is_empty_true (s : string) : is_empty s = true <-> s = "".
Proof. destruct s; simpl; split; congruence. Qed.

Lemma is_empty_false (s : string) : is_empty s = false <-> s <> "".
Proof. destruct s; simpl; split; congruence. Qed.

Lemma overlap_bound (a b : list string) :
  b <> [] ->
  0 < of_nat (List.length a) + of_nat (List.length b)
      - of_nat (List.length (filter (fun w => mem w b) a)).
Proof.
  intro Hb.
  pose proof (of_nat_le _ _ (filter_length_le (fun w => mem w b) a)).
  assert (0 < of_nat (List.length b)).
  { apply of_nat_pos. destruct b; [congruence | simpl; lia]. }
  lra.
Qed.

Lemma jaccard_nonneg (t1 t2 : string) :
  word_set t2 <> [] -> 0 <= jaccard t1 t2.
Proof.
  intro H. unfold jaccard. cbv zeta.
  apply Qle_shift_div_l.
  - apply overlap_bound. exact H.
  - rewrite Qmult_0_l. apply of_nat_nonneg.
Qed.

(** The fallback path on two texts that both contain a word. *)
Lemma fallback_on_words (t1 t2 : string) :
  t1 <> "" -> t2 <> "" -> word_set t1 <> [] -> word_set t2 <> [] ->
  calculate_semantic_similarity None t1 t2
  = Some (py_min (0.75 + jaccard t1 t2 * 0.25) 1.0).
Proof.
  intros H1 H2 W1 W2. unfold calculate_semantic_similarity.
  apply is_empty_false in H1, H2. rewrite H1, H2. simpl orb. cbv iota.
  unfold jaccard. cbv zeta.
  destruct (word_set t1) as [|a1 l1] eqn:E1; [congruence|].
  destruct (word_set t2) as [|a2 l2] eqn:E2; [congruence|].
  rewrite truediv_some; [reflexivity|].
  pose proof (overlap_bound (a1 :: l1) (a2 :: l2) W2). lra.
Qed.

Lemma fallback_wordless (t1 t2 : string) :
  word_set t1 = [] \/ word_set t2 = [] ->
  calculate_semantic_similarity None t1 t2 = Some 0.8.
Proof.
  intro H. unfold calculate_semantic_similarity.
  destruct (is_empty t1 || is_empty t2); [reflexivity|].
  destruct H as [-> | ->]; [reflexivity|].
  destruct (word_set t1); reflexivity.
Qed.

Lemma similarity_empty (model : option backend) (t1 t2 : string) :
  t1 = "" \/ t2 = "" ->
  calculate_semantic_similarity model t1 t2 = Some 0.8.
Proof.
  intro H. unfold calculate_semantic_similarity.
  destruct H as [-> | ->]; simpl; [reflexivity|].
  rewrite orb_true_r. reflexivity.
Qed.

(** The similarity never raises and never exceeds 1, whatever the model
    returns. *)
Lemma similarity_total (model : option backend) (t1 t2 : string) :
  exists v, calculate_semantic_similarity model t1 t2 = Some v /\ v <= 1.
Proof.
  destruct (is_empty t1 || is_empty t2) eqn:E.
  - exists 0.8. split; [|lra].
    apply similarity_empty. apply orb_true_iff in E.
    destruct E as [E|E]; apply is_empty_true in E; auto.
  - apply orb_false_iff in E. destruct E as [E1 E2].
    pose proof E1 as N1. pose proof E2 as N2.
    apply is_empty_false in N1, N2.
    destruct model as [m|].
    + unfold calculate_semantic_similarity. rewrite E1, E2. simpl orb.
      cbv iota. destruct (cos_sim m t1 t2) as [s|].
      * eexists. split; [reflexivity|].
        pose proof (py_min_le_r (0.75 + s * 0.25) 1.0). lra.
      * exists 0.8. split; [reflexivity | lra].
    + destruct (word_set t1) as [|a1 l1] eqn:W1.
      { exists 0.8. split; [|lra]. apply fallback_wordless. auto. }
      destruct (word_set t2) as [|a2 l2] eqn:W2.
      { exists 0.8. split; [|lra]. apply fallback_wordless. auto. }
      eexists. split.
      * apply fallback_on_words; congruence.
      * pose proof (py_min_le_r (0.75 + jaccard t1 t2 * 0.25) 1.0). lra.
Qed.

(** In fallback mode the similarity is at least 0.75. *)
Lemma fallback_floor (t1 t2 : string) (v : Q) :
  calculate_semantic_similarity None t1 t2 = Some v -> 0.75 <= v.
Proof.
  intro H.
  destruct (is_empty t1 || is_empty t2) eqn:E.
  - rewrite similarity_empty in H.
    + injection H as <-. lra.
    + apply orb_true_iff in E.
      destruct E as [E|E]; apply is_empty_true in E; auto.
  - apply orb_false_iff in E. destruct E as [E1 E2].
    apply is_empty_false in E1, E2.
    destruct (word_set t1) as [|a1 l1] eqn:W1.
    { rewrite fallback_wordless in H by auto. injection H as <-. lra. }
    destruct (word_set t2) as [|a2 l2] eqn:W2.
    { rewrite fallback_wordless in H by auto. injection H as <-. lra. }
    rewrite fallback_on_words in H by congruence. injection H as <-.
    assert (0 <= jaccard t1 t2) by (apply jaccard_nonneg; congruence).
    apply py_min_glb; lra.
Qed.

(** C9, as stated, fails on a text without any word: the fallback returns
    0.8 where the overlap formula gives 0.75. *)
Lemma similarity_wordless_counterexample :
  calculate_semantic_similarity None "..." "python" = Some 0.8
  /\ ~ 0.8 == py_min (0.75 + 0.25 * jaccard "..." "python") 1.0.
Proof.
  split.
  - vm_compute. reflexivity.
  - intro H. vm_compute in H. discriminate.
Qed.

(** C9, amended.  The similarity never raises and lies in [0,1] (for a
    model whose cosine lies in [-1,1]); it is 0.8 when a text is empty;
    in fallback mode it is 0.75 + 0.25 * overlap capped at 1.0 when both
    texts contain a word and 0.8 when one of them contains none; with a
    model it is 0.75 + 0.25 * cosine capped at 1.0, and 0.8 when the model
    raises. *)
Theorem similarity_contract (model : option backend) (text1 text2 : string) :
  cosine_in_range model ->
  exists v,
    calculate_semantic_similarity model text1 text2 = Some v
    /\ 0 <= v <= 1
    /\ (text1 = "" \/ text2 = "" -> v = 0.8)
    /\ (model = None -> text1 <> "" -> text2 <> "" ->
        (word_set text1 <> [] -> word_set text2 <> [] ->
         v = py_min (0.75 + jaccard text1 text2 * 0.25) 1.0)
        /\ (word_set text1 = [] \/ word_set text2 = [] -> v = 0.8))
    /\ (forall m, model = Some m -> text1 <> "" -> text2 <> "" ->
        match cos_sim m text1 text2 with
        | Some s => v = py_min (0.75 + s * 0.25) 1.0
        | None => v = 0.8
        end).
Proof.
  intro Hcos.
  destruct (similarity_total model text1 text2) as [v [Hv Hle]].
  exists v. split; [exact Hv|]. split; [|split; [|split]].
  - split; [|exact Hle].
    destruct model as [m|].
    + unfold calculate_semantic_similarity in Hv.
      destruct (is_empty text1 || is_empty text2).
      * injection Hv as <-. lra.
      * destruct (cos_sim m text1 text2) as [s|] eqn:Hs.
        -- injection Hv as <-.
           destruct (Hcos m text1 text2 s eq_refl Hs) as [Hlo _].
           apply py_min_glb; lra.
        -- injection Hv as <-. lra.
    + apply fallback_floor in Hv. lra.
  - intro H. rewrite (similarity_empty model text1 text2 H) in Hv.
    congruence.
  - intros -> H1 H2. split.
    + intros W1 W2. rewrite fallback_on_words in Hv by assumption.
      congruence.
    + intro W. rewrite fallback_wordless in Hv by assumption. congruence.
  - intros m -> H1 H2. unfold calculate_semantic_similarity in Hv.
    apply is_empty_false in H1, H2. rewrite H1, H2 in Hv. simpl in Hv.
    destruct (cos_sim m text1 text2); congruence.
Qed.

(** The theorem at a concrete input. *)
Lemma similarity_contract_witness :
  cosine_in_range (Some (constant_model 0.5))
  /\ exists v,
       calculate_semantic_similarity (Some (constant_model 0.5))
         "machine learning" "deep learning" = Some v
       /\ 0 <= v <= 1.
Proof.
  assert (H : cosine_in_range (Some (constant_model 0.5))).
  { intros m a b s Hm Hs. injection Hm as <-. simpl in Hs.
    injection Hs as <-. lra. }
  split; [exact H|].
  destruct (similarity_contract (Some (constant_model 0.5))
              "machine learning" "deep learning" H) as [v [Hv [Hr _]]].
  exists v. split; assumption.
Defined.

Example backend_error_scenario :
  calculate_semantic_similarity (Some failing_model) "python" "java"
  = Some 0.8.
Proof. reflexivity. Qed.

(** *** The skills axis *)

Section Skills.

Variable model : option backend.

Lemma best_total (j : string) (rs : list string) (best : option string * Q) :
  exists b, best_resume_match model j rs best = Some b.
Proof.
  revert best. induction rs as [|r rs IH]; intro best; simpl.
  - eauto.
  - destruct (similarity_total model j r) as [v [-> _]]. apply IH.
Qed.

Lemma best_le_1 (j : string) (rs : list string) (best b : option string * Q) :
  snd best <= 1 -> best_resume_match model j rs best = Some b -> snd b <= 1.
Proof.
  revert best. induction rs as [|r rs IH]; intros best Hbest H; simpl in H.
  - injection H as <-. exact Hbest.
  - destruct (similarity_total model j r) as [v [Hv Hle]].
    rewrite Hv in H. apply IH in H; [exact H|].
    destruct (ltb (snd best) v); simpl; assumption.
Qed.

Lemma best_ge_init (j : string) (rs : list string)
    (best b : option string * Q) :
  best_resume_match model j rs best = Some b -> snd best <= snd b.
Proof.
  revert best. induction rs as [|r rs IH]; intros best H; simpl in H.
  - injection H as <-. lra.
  - destruct (calculate_semantic_similarity model j r) as [v|];
      [|discriminate].
    apply IH in H. cmp_lt (snd best) v; simpl in H; lra.
Qed.

Lemma semantic_total (d rs js : list string) :
  exists l, find_semantic_matches model d rs js = Some l.
Proof.
  induction js as [|j js [l IH]]; simpl.
  - eauto.
  - destruct (mem j d); [eauto|].
    destruct (best_total j rs (None, 0)) as [[bm bs] ->].
    rewrite IH. destruct (leb 0.6 bs); eauto.
Qed.

(** Only the membership of the job skills in the direct matches matters to
    the loop. *)
Lemma semantic_congr (d d' rs js : list string) :
  (forall j, In j js -> mem j d = mem j d') ->
  find_semantic_matches model d rs js = find_semantic_matches model d' rs js.
Proof.
  induction js as [|j js IH]; intro H; simpl; [reflexivity|].
  rewrite <- (H j) by (left; reflexivity).
  rewrite IH by (intros; apply H; right; assumption).
  reflexivity.
Qed.

Lemma semantic_app_direct (d rs js : list string) (x : string) :
  mem x d = true ->
  find_semantic_matches model d rs (js ++ [x])
  = find_semantic_matches model d rs js.
Proof.
  intro Hx. induction js as [|j js IH]; simpl.
  - rewrite Hx. reflexivity.
  - rewrite IH. reflexivity.
Qed.

(** Every job skill is counted at most once, as a direct match or with a
    similarity of at most 1. *)
Lemma semantic_sum_bound (d rs js : list string)
    (l : list (string * option string * Q)) :
  find_semantic_matches model d rs js = Some l ->
  sum (map snd l) + of_nat (List.length (filter (fun j => mem j d) js))
  <= of_nat (List.length js).
Proof.
  revert l. induction js as [|j js IH]; intros l H; simpl in H.
  - injection H as <-. simpl. unfold sum. simpl. unfold of_nat. simpl. lra.
  - simpl filter. simpl List.length at 2. rewrite of_nat_S.
    destruct (mem j d) eqn:Hj.
    + simpl List.length. rewrite of_nat_S. apply IH in H. lra.
    + destruct (best_resume_match model j rs (None, 0)) as [[bm bs]|] eqn:Hb;
        [|discriminate].
      destruct (find_semantic_matches model d rs js) as [more|];
        [|discriminate].
      specialize (IH more eq_refl).
      apply best_le_1 in Hb; [|simpl; lra]. simpl in Hb.
      destruct (leb 0.6 bs); injection H as <-.
      * simpl map. rewrite sum_cons. simpl snd. lra.
      * lra.
Qed.

End Skills.

(** [x in l] for strings. *)
Lemma mem_In (x : string) (l : list string) : mem x l = true <-> In x l.
Proof.
  unfold mem. rewrite existsb_exists. split.
  - intros [y [Hy E]]. apply String.eqb_eq in E. subst. exact Hy.
  - intro H. exists x. split; [exact H | apply String.eqb_refl].
Qed.

Lemma mem_filter (x : string) (f : string -> bool) (l : list string) :
  mem x (filter f l) = mem x l && f x.
Proof.
  apply eq_true_iff_eq. rewrite andb_true_iff, !mem_In, filter_In. tauto.
Qed.

Lemma filter_nil_when {A : Type} (f : A -> bool) (l : list A) :
  (forall x, In x l -> f x = false) -> filter f l = [].
Proof.
  induction l as [|a l IH]; intro H; simpl; [reflexivity|].
  rewrite (H a) by (left; reflexivity).
  apply IH. intros. apply H. right. assumption.
Qed.

(** In fallback mode a non-empty resume always offers a candidate above the
    threshold. *)
Lemma fallback_best_floor (j r : string) (rs : list string)
    (b : option string * Q) :
  best_resume_match None j (r :: rs) (None, 0) = Some b -> 0.75 <= snd b.
Proof.
  cbn [best_resume_match].
  destruct (calculate_semantic_similarity None j r) as [v|] eqn:Hv;
    [|discriminate].
  apply fallback_floor in Hv. intro H. apply best_ge_init in H.
  cbn [snd] in H. cmp_lt 0 v; cbn [snd] in H; lra.
Qed.

Lemma fallback_covers (d rs js : list string)
    (l : list (string * option string * Q)) :
  rs <> [] ->
  find_semantic_matches None d rs js = Some l ->
  forall j, In j js -> mem j d = false ->
    existsb (fun m => String.eqb j (fst (fst m))) l = true.
Proof.
  intro Hrs. destruct rs as [|r rs]; [congruence|]. clear Hrs.
  revert l. induction js as [|j0 js IH]; intros l H j Hin Hj.
  - destruct Hin.
  - cbn [find_semantic_matches] in H. destruct (mem j0 d) eqn:Hj0.
    + destruct Hin as [<-|Hin]; [congruence|]. eapply IH; eauto.
    + destruct (best_resume_match None j0 (r :: rs) (None, 0))
        as [[bm bs]|] eqn:Hb; [|discriminate].
      destruct (find_semantic_matches None d (r :: rs) js) as [more|];
        [|discriminate].
      apply fallback_best_floor in Hb. simpl in Hb.
      assert (E : leb 0.6 bs = true) by (apply leb_true; lra).
      rewrite E in H. injection H as <-. simpl.
      destruct Hin as [<-|Hin].
      * rewrite String.eqb_refl. reflexivity.
      * rewrite (IH more eq_refl j Hin Hj). apply orb_true_r.
Qed.

(** C6.  In fallback mode, two non-empty strings have a similarity of at
    least 0.75, which meets the threshold 0.6 of a semantic match; so for a
    non-empty list of required skills and a resume with at least one skill,
    [calculate_skills_match] returns no missing skill: every required skill
    is a direct match or a semantic match. *)
Theorem fallback_no_missing_skills (a b : string)
    (resume_skills job_skills : list string) :
  a <> "" -> b <> "" -> job_skills <> [] -> resume_skills <> [] ->
  (exists v, calculate_semantic_similarity None a b = Some v
             /\ 0.75 <= v /\ 0.6 <= v)
  /\ exists r, calculate_skills_match None resume_skills job_skills = Some r
               /\ missing_skills r = []
               /\ forall job_skill, In job_skill (map lower job_skills) ->
                    In job_skill (direct_matches r)
                    \/ exists m, In m (semantic_matches r)
                                 /\ fst (fst m) = job_skill.
Proof.
  intros Ha Hb Hjob Hres. split.
  - destruct (similarity_total None a b) as [v [Hv _]].
    exists v. pose proof (fallback_floor _ _ _ Hv). repeat split; trivial; lra.
  - unfold calculate_skills_match.
    destruct job_skills as [|j0 js]; [congruence|].
    set (J := map lower (j0 :: js)). set (R := map lower resume_skills).
    set (D := filter (fun job_skill => mem job_skill R) J).
    destruct (semantic_total None D R J) as [l Hl]. rewrite Hl.
    assert (HR : R <> []).
    { subst R. destruct resume_skills; [congruence | discriminate]. }
    eexists. split; [reflexivity|]. cbn [missing_skills direct_matches
      semantic_matches]. split.
    + apply filter_nil_when. intros j Hin.
      destruct (mem j D) eqn:HjD; [reflexivity|]. simpl.
      rewrite (fallback_covers D R J l); trivial.
    + intros j Hin. destruct (mem j D) eqn:HjD.
      * left. apply mem_In. exact HjD.
      * right. pose proof (fallback_covers D R J l HR Hl j Hin HjD) as Hc.
        apply existsb_exists in Hc. destruct Hc as [m [Hm He]].
        apply String.eqb_eq in He. exists m. split; [exact Hm | congruence].
Qed.

(** The theorem at a concrete input. *)
Lemma fallback_no_missing_skills_witness :
  "react" <> "" /\ "node" <> "" /\ ["python"; "react"] <> []
  /\ ["python"; "node"] <> []
  /\ (exists v, calculate_semantic_similarity None "react" "node" = Some v
                /\ 0.75 <= v /\ 0.6 <= v)
  /\ exists r,
       calculate_skills_match None ["python"; "node"] ["python"; "react"]
       = Some r
       /\ missing_skills r = [].
Proof.
  assert (H1 : "react" <> "") by discriminate.
  assert (H2 : "node" <> "") by discriminate.
  assert (H3 : ["python"; "react"] <> []) by discriminate.
  assert (H4 : ["python"; "node"] <> []) by discriminate.
  repeat (split; [assumption|]).
  destruct (fallback_no_missing_skills "react" "node" ["python"; "node"]
              ["python"; "react"] H1 H2 H3 H4) as [Hsim [r [Hr [Hm _]]]].
  split; [exact Hsim|]. exists r. split; assumption.
Defined.

Lemma ratio_grows (a n : Q) : 0 < n -> a <= n -> a / n <= (a + 1) / (n + 1).
Proof.
  intros Hn Ha.
  assert (H1 : a / n <= 1) by (apply Qle_shift_div_r; lra).
  apply Qle_shift_div_l; [lra|].
  assert (E : a / n * (n + 1) == a + a / n) by (field; lra).
  rewrite E. lra.
Qed.

(** C7.  Appending to the required skills a skill that the resume already
    has, compared case-insensitively, never decreases the skills score. *)
Theorem skills_score_monotone (model : option backend)
    (resume_skills job_skills : list string) (x : string) :
  mem (lower x) (map lower resume_skills) = true ->
  exists r r',
    calculate_skills_match model resume_skills job_skills = Some r
    /\ calculate_skills_match model resume_skills (job_skills ++ [x])
       = Some r'
    /\ sm_score r <= sm_score r'.
Proof.
  intro Hx.
  destruct job_skills as [|j0 js].
  - (* no required skill before *)
    eexists. eexists. split; [reflexivity|].
    unfold calculate_skills_match. cbn [app map filter].
    rewrite Hx. cbn [find_semantic_matches mem existsb].
    rewrite String.eqb_refl. cbn [orb]. split; [reflexivity|].
    cbn [sm_score List.length Nat.ltb Nat.leb map]. unfold py_min.
    vm_compute. discriminate.
  - unfold calculate_skills_match.
    change ((j0 :: js) ++ [x]) with (j0 :: (js ++ [x])). cbv iota.
    set (J := map lower (j0 :: js)).
    assert (EJ : map lower (j0 :: js ++ [x]) = J ++ [lower x]).
    { subst J. cbn [map app]. rewrite map_app. reflexivity. }
    rewrite EJ.
    set (R := map lower resume_skills) in *.
    set (f := fun job_skill : string => mem job_skill R).
    rewrite filter_app. cbn [filter].
    replace (f (lower x)) with true by (symmetry; exact Hx).
    set (D := filter f J).
    assert (HxD : mem (lower x) (D ++ [lower x]) = true).
    { apply mem_In. apply in_or_app. right. left. reflexivity. }
    rewrite (semantic_app_direct model _ R J (lower x) HxD).
    assert (HD : forall j, In j J -> mem j (D ++ [lower x]) = mem j D).
    { intros j Hj. subst D.
      change (filter f J ++ [lower x]) with (filter f J ++ [lower x]).
      assert (E : filter f J ++ [lower x] = filter f (J ++ [lower x])).
      { rewrite filter_app. cbn [filter]. fold f.
        replace (f (lower x)) with true by (symmetry; exact Hx).
        reflexivity. }
      rewrite E, !mem_filter.
      assert (mem j J = true) by (apply mem_In; exact Hj).
      assert (mem j (J ++ [lower x]) = true).
      { apply mem_In. apply in_or_app. left. exact Hj. }
      congruence. }
    rewrite (semantic_congr model _ D R J HD).
    destruct (semantic_total model D R J) as [l Hl]. rewrite Hl.
    eexists. eexists. split; [reflexivity|]. split; [reflexivity|].
    cbn [sm_score]. apply py_min_mono_r.
    pose proof (semantic_sum_bound model D R J l Hl) as Hsum.
    assert (HfD : filter (fun j => mem j D) J = D).
    { subst D. apply filter_ext_in. intros j Hj. rewrite mem_filter.
      apply mem_In in Hj. rewrite Hj. reflexivity. }
    rewrite HfD in Hsum.
    assert (HlenJ : List.length J = List.length (j0 :: js)).
    { subst J. rewrite length_map. reflexivity. }
    rewrite HlenJ in Hsum.
    cbn [List.length Nat.ltb Nat.leb].
    rewrite !length_app. cbn [List.length]. rewrite !Nat.add_1_r.
    rewrite (of_nat_S (List.length D)).
    rewrite (of_nat_S (S (List.length js))).
    cbn [List.length] in Hsum.
    set (n := of_nat (S (List.length js))) in *.
    set (dm := of_nat (List.length D)) in *.
    set (sem := sum (map snd l)) in *.
    assert (Hn : 0 < n) by (subst n; apply of_nat_pos; lia).
    assert (Hr : (dm + sem) / n <= (dm + sem + 1) / (n + 1)).
    { apply ratio_grows; lra. }
    assert (E : dm + 1 + sem == dm + sem + 1) by ring.
    rewrite E. lra.
Qed.

(** The theorem at a concrete input. *)
Lemma skills_score_monotone_witness :
  mem (lower "React") (map lower ["Python"; "react"]) = true
  /\ exists r r',
       calculate_skills_match None ["Python"; "react"] ["python"; "docker"]
       = Some r
       /\ calculate_skills_match None ["Python"; "react"]
            (["python"; "docker"] ++ ["React"]) = Some r'
       /\ sm_score r <= sm_score r'.
Proof.
  assert (H : mem (lower "React") (map lower ["Python"; "react"]) = true)
    by reflexivity.
  split; [exact H|].
  exact (skills_score_monotone None ["Python"; "react"] ["python"; "docker"]
           "React" H).
Defined.

(** C5.  Required skills python and react against resume skills python and
    node, for every model (loaded, raising or absent): python is the one
    direct match; react is compared with both resume skills, node among
    them, and the best similarity is the largest of 0 and the two
    similarities; when it is below 0.6, react is reported missing and the
    score is 0.8 + 0.2 * (1/2) = 0.90; otherwise react is a semantic match
    with the best resume skill, node when node is the closer one, nothing
    is missing and the similarity counts in the score. *)
Theorem scenario_python_react (model : option backend) :
  exists r s_python s_node best_match best_score,
    calculate_skills_match model ["python"; "node"] ["python"; "react"]
    = Some r
    /\ direct_matches r = ["python"]
    /\ calculate_semantic_similarity model "react" "python" = Some s_python
    /\ calculate_semantic_similarity model "react" "node" = Some s_node
    /\ best_resume_match model "react" ["python"; "node"] (None, 0)
       = Some (best_match, best_score)
    /\ In (best_match, best_score)
          [(None, 0); (Some "python", s_python); (Some "node", s_node)]
    /\ 0 <= best_score /\ s_python <= best_score /\ s_node <= best_score
    /\ (best_score < 0.6 ->
        semantic_matches r = []
        /\ missing_skills r = ["react"]
        /\ sm_score r == 0.90)
    /\ (0.6 <= best_score ->
        semantic_matches r = [("react", best_match, best_score)]
        /\ missing_skills r = []
        /\ sm_score r == py_min 1.0 (0.8 + (1 + best_score) / 2 * 0.2))
    /\ (0.6 <= s_node -> s_python < s_node ->
        semantic_matches r = [("react", Some "node", s_node)]).
Proof.
  destruct (similarity_total model "react" "python") as [s_python [Hp _]].
  destruct (similarity_total model "react" "node") as [s_node [Hn _]].
  set (b1 := if ltb 0 s_python then (Some "python", s_python)
             else (@None string, 0)).
  set (b2 := if ltb (snd b1) s_node then (Some "node", s_node) else b1).
  assert (Hb : best_resume_match model "react" ["python"; "node"] (None, 0)
               = Some b2).
  { cbn [best_resume_match]. rewrite Hp, Hn. reflexivity. }
  assert (Hin : In b2 [(None, 0); (Some "python", s_python);
                       (Some "node", s_node)]
                /\ 0 <= snd b2 /\ s_python <= snd b2 /\ s_node <= snd b2
                /\ (s_python < s_node -> 0.6 <= s_node ->
                    b2 = (Some "node", s_node))).
  { subst b2 b1.
    destruct (ltb 0 s_python) eqn:E1; cbn [snd];
      [apply ltb_true in E1 | apply ltb_false in E1];
      match goal with
      | |- context [ltb ?a ?b] =>
          destruct (ltb a b) eqn:E2;
          [apply ltb_true in E2 | apply ltb_false in E2]
      end;
      cbn [snd In];
      (split; [auto|]); (split; [lra|]); (split; [lra|]);
      (split; [lra|]); intros; first [reflexivity | exfalso; lra]. }
  destruct b2 as [best_match best_score] eqn:Eb2. cbn [snd] in Hin.
  destruct Hin as [Hin [H0 [H1 [H2 Hnode]]]].
  assert (Hrun : calculate_skills_match model ["python"; "node"]
                   ["python"; "react"]
                 = Some
                     (if leb 0.6 best_score
                      then {| sm_score :=
                                py_min 1.0
                                  (0.8
                                   + (of_nat 1
                                      + sum [best_score]) / of_nat 2 * 0.2);
                              direct_matches := ["python"];
                              semantic_matches :=
                                [("react", best_match, best_score)];
                              missing_skills := [] |}
                      else {| sm_score :=
                                py_min 1.0
                                  (0.8 + (of_nat 1 + sum []) / of_nat 2 * 0.2);
                              direct_matches := ["python"];
                              semantic_matches := [];
                              missing_skills := ["react"] |})).
  { unfold calculate_skills_match.
    change (map lower ["python"; "node"]) with ["python"; "node"].
    change (map lower ["python"; "react"]) with ["python"; "react"].
    change (filter (fun job_skill => mem job_skill ["python"; "node"])
              ["python"; "react"]) with ["python"].
    cbn [find_semantic_matches].
    change (mem "python" ["python"]) with true.
    change (mem "react" ["python"]) with false.
    cbv iota. rewrite Hb.
    destruct (leb 0.6 best_score); reflexivity. }
  assert (Hsum : forall x, (of_nat 1 + sum [x]) / of_nat 2 * 0.2
                           == (1 + x) / 2 * 0.2).
  { intro x. unfold sum. cbn [fold_left].
    change (of_nat 1) with 1. change (of_nat 2) with 2. field. }
  eexists. exists s_python, s_node, best_match, best_score.
  split; [exact Hrun|].
  split; [destruct (leb 0.6 best_score); reflexivity|].
  split; [exact Hp|]. split; [exact Hn|]. split; [exact Hb|].
  split; [exact Hin|]. split; [exact H0|]. split; [exact H1|].
  split; [exact H2|]. split; [|split].
  - intro Hlow. apply leb_false in Hlow. rewrite Hlow.
    split; [reflexivity|]. split; [reflexivity|].
    vm_compute. reflexivity.
  - intro Hhigh. apply leb_true in Hhigh. rewrite Hhigh.
    split; [reflexivity|]. split; [reflexivity|].
    cbn [sm_score]. unfold py_min.
    cmp_lt (0.8 + (of_nat 1 + sum [best_score]) / of_nat 2 * 0.2) 1.0;
      cmp_lt (0.8 + (1 + best_score) / 2 * 0.2) 1.0;
      rewrite ?Hsum in *; first [reflexivity | exfalso; lra].
  - intros Hhigh Hlt. specialize (Hnode Hlt Hhigh).
    injection Hnode as -> ->.
    assert (E : leb 0.6 s_node = true) by (apply leb_true; exact Hhigh).
    rewrite E. reflexivity.
Qed.

(** The theorem at two concrete models: a model whose cosine is always -1
    (similarity 0.5, below the threshold) and no model (similarity 0.75). *)
Lemma scenario_python_react_witness :
  (exists r,
     calculate_skills_match (Some (constant_model (-1)))
       ["python"; "node"] ["python"; "react"] = Some r
     /\ direct_matches r = ["python"]
     /\ semantic_matches r = []
     /\ missing_skills r = ["react"]
     /\ sm_score r == 0.90)
  /\ exists r s,
       calculate_skills_match None ["python"; "node"] ["python"; "react"]
       = Some r
       /\ direct_matches r = ["python"]
       /\ semantic_matches r = [("react", Some "python", s)]
       /\ s == 0.75
       /\ missing_skills r = [].
Proof.
  split.
  - destruct (scenario_python_react (Some (constant_model (-1))))
      as (r & sp & sn & bm & bs & Hr & Hd & _ & _ & Hb & _ & _ & _ & _
          & Hlow & _).
    exists r. split; [exact Hr|]. split; [exact Hd|].
    apply Hlow. vm_compute in Hb. injection Hb as _ <-.
    vm_compute. reflexivity.
  - destruct (scenario_python_react None)
      as (r & sp & sn & bm & bs & Hr & Hd & _ & _ & Hb & _ & _ & _ & _
          & _ & Hhigh & _).
    vm_compute in Hb. injection Hb as <- <-.
    destruct Hhigh as [Hs [Hm _]]; [vm_compute; discriminate|].
    exists r. eexists. split; [exact Hr|]. split; [exact Hd|].
    split; [exact Hs|]. split; [vm_compute; reflexivity | exact Hm].
Defined.

(** *** The experience axis *)

Lemma experience_score_values (e : Q) (r : Z) :
  In (experience_score e r) [1.0; 0.95; 0.9; 0.85; 0.8; 0.75].
Proof.
  unfold experience_score.
  repeat match goal with
  | |- context [if ?b then _ else _] => destruct b
  end; simpl; auto 10.
Qed.

Ltac split_score e r :=
  unfold experience_score;
  cmp (inject_Z r) e; [|cmp (inject_Z r * 0.7) e; [|cmp (inject_Z r * 0.5) e;
    [|cmp (inject_Z r * 0.3) e; [|cmp 0 e]]]].

(** C8.  For a positive number of required years the step function from
    estimated years to the experience score is monotone and never below
    0.75: it gives 1.0 at or above the required years and 0.95, 0.9, 0.85,
    0.8 and 0.75 below, at 70%, 50% and 30% of the requirement, above zero
    and at zero; it is the score that [calculate_experience_match]
    reports. *)
Theorem experience_score_monotone (required_years : Z) (e1 e2 : Q) :
  (0 < required_years)%Z -> e1 <= e2 ->
  let r := inject_Z required_years in
  experience_score e1 required_years <= experience_score e2 required_years
  /\ 0.75 <= experience_score e1 required_years
  /\ (r <= e1 -> experience_score e1 required_years = 1.0)
  /\ (r * 0.7 <= e1 < r -> experience_score e1 required_years = 0.95)
  /\ (r * 0.5 <= e1 < r * 0.7 -> experience_score e1 required_years = 0.9)
  /\ (r * 0.3 <= e1 < r * 0.5 -> experience_score e1 required_years = 0.85)
  /\ (0 < e1 < r * 0.3 -> experience_score e1 required_years = 0.8)
  /\ (e1 <= 0 -> experience_score e1 required_years = 0.75)
  /\ forall current_year text,
       em_score (calculate_experience_match current_year text required_years)
       = experience_score (estimate_years current_year text) required_years.
Proof.
  intros Hreq Hle r.
  assert (Hq : 0 < r).
  { subst r. change 0 with (inject_Z 0). rewrite <- Zlt_Qlt. exact Hreq. }
  subst r.
  split; [|split; [|repeat split]].
  - split_score e1 required_years; split_score e2 required_years; lra.
  - split_score e1 required_years; lra.
  - intro H. split_score e1 required_years; (reflexivity || lra).
  - intro H. split_score e1 required_years; (reflexivity || lra).
  - intro H. split_score e1 required_years; (reflexivity || lra).
  - intro H. split_score e1 required_years; (reflexivity || lra).
  - intro H. split_score e1 required_years; (reflexivity || lra).
  - intro H. split_score e1 required_years; (reflexivity || lra).
  - intros cy text. unfold calculate_experience_match.
    destruct (required_years =? 0)%Z eqn:E; [lia | reflexivity].
Qed.

(** The theorem at a concrete input. *)
Lemma experience_score_monotone_witness :
  (0 < 5)%Z /\ 2 <= 4
  /\ experience_score 2 5 <= experience_score 4 5
  /\ 0.75 <= experience_score 2 5.
Proof.
  assert (H1 : (0 < 5)%Z) by lia.
  assert (H2 : 2 <= 4) by (vm_compute; discriminate).
  split; [exact H1|]. split; [exact H2|].
  destruct (experience_score_monotone 5 2 4 H1 H2) as [Hm [Hf _]].
  split; assumption.
Defined.

Example no_required_years_scenario (current_year : Z) (text : string) :
  em_score (calculate_experience_match current_year text 0) = 1.0
  /\ experience_level (calculate_experience_match current_year text 0)
     = "Entry Level".
Proof. split; reflexivity. Qed.

(** *** Aggregation and calibration *)

Lemma skills_total (model : option backend) (resume job : list string) :
  exists r, calculate_skills_match model resume job = Some r.
Proof.
  unfold calculate_skills_match. destruct job as [|j0 js]; [eauto|].
  match goal with
  | |- context [find_semantic_matches model ?d ?r ?j] =>
      destruct (semantic_total model d r j) as [l ->]
  end.
  eauto.
Qed.

(** The five component scores are always produced. *)
Lemma components_total (model : option backend) (current_year : Z)
    (resume : ResumeParser.resume_data) (job : JobRequirementsParser.job_data) :
  exists c, component_scores model current_year resume job = Some c.
Proof.
  unfold component_scores.
  destruct (skills_total model (ResumeParser.skills resume)
              (JobRequirementsParser.required_skills job)) as [s ->].
  destruct (similarity_total model (ResumeParser.full_text resume)
              (JobRequirementsParser.full_description job)) as [v [-> _]].
  eauto.
Qed.

Lemma match_result_of (model : option backend) (current_year : Z)
    (resume : ResumeParser.resume_data) (job : JobRequirementsParser.job_data)
    (c : components) :
  component_scores model current_year resume job = Some c ->
  exists r,
    match_resume_with_job model current_year resume job = Some r
    /\ match_score r
       = calibrate_score (ResumeParser.resume_name resume)
                         (overall_score_of c).
Proof.
  intro H. unfold match_resume_with_job. rewrite H.
  eexists. split; reflexivity.
Qed.

Lemma expected_score_unlisted (name : string) :
  ~ In name (map fst expected_scores) -> expected_score name = None.
Proof.
  intro H. unfold expected_score.
  destruct (find (fun kv => String.eqb (fst kv) name) expected_scores)
    as [kv|] eqn:E; [|reflexivity].
  apply find_some in E. destruct E as [Hin Heq].
  apply String.eqb_eq in Heq. exfalso. apply H. rewrite <- Heq.
  apply in_map. exact Hin.
Qed.

Lemma calibrate_unlisted (name : string) (raw : Q) :
  expected_score name = None ->
  calibrate_score name raw
  = if ltb 0.85 raw then py_min (avg_expected + 2.0) 85.0
    else if ltb 0.7 raw then avg_expected
    else py_max (avg_expected - 2.0) 78.0.
Proof. intro H. unfold calibrate_score. rewrite H. reflexivity. Qed.


Lemma unlisted_john_doe : unlisted ResumeParser.john_doe.
Proof.
  unfold unlisted. simpl. intro H.
  repeat (destruct H as [H|H]; [discriminate H|]). exact H.
Defined.


Lemma round_half_even_bounds (x : Q) (a b : Z) :
  inject_Z a <= x <= inject_Z b -> (a <= round_half_even x <= b)%Z.
Proof.
  intros [Ha Hb]. unfold round_half_even.
  pose proof (Qfloor_le x) as Hf. pose proof (Qlt_floor x) as Hc.
  set (f := Qfloor x) in *. clearbody f.
  assert (Haf : (a <= f)%Z).
  { apply Z.lt_succ_r. rewrite Zlt_Qlt. unfold Z.succ. lra. }
  assert (Hfb : (f <= b)%Z) by (rewrite Zle_Qle; lra).
  assert (Hup : 0.5 <= x - inject_Z f -> (f + 1 <= b)%Z).
  { intro H. apply Z.le_succ_l. rewrite Zlt_Qlt. lra. }
  cmp_lt (x - inject_Z f) 0.5; [lia|].
  match goal with H : 0.5 <= _ |- _ => specialize (Hup H) end.
  destruct (ltb 0.5 (x - inject_Z f)); [lia|].
  destruct (Z.even f); lia.
Qed.

Lemma normalize_band (score : Q) :
  0.75 <= normalize_score score 0.75 0.95 <= 0.95.
Proof.
  unfold normalize_score.
  set (capped := py_max 0.0 (py_min 1.0 score)).
  assert (H : 0 <= capped <= 1).
  { subst capped.
    destruct (py_max_spec 0.0 (py_min 1.0 score)) as [[H ->]|[H ->]];
      [|lra].
    pose proof (py_min_le_l 1.0 score). lra. }
  nra.
Qed.

(** The percentage the function computes lies in the reporting band and
    has two decimals. *)
Lemma percentage_band (overall : Q) :
  exists k : Z,
    percentage_score_of overall = inject_Z k / 100
    /\ (7500 <= k <= 9500)%Z.
Proof.
  unfold percentage_score_of, round2. eexists. split; [reflexivity|].
  apply round_half_even_bounds.
  pose proof (normalize_band overall).
  change (inject_Z 7500) with 7500. change (inject_Z 9500) with 9500.
  lra.
Qed.

Lemma hundredth_bounds (k : Z) :
  (7500 <= k <= 9500)%Z -> 75 <= inject_Z k / 100 <= 95.
Proof.
  intros [H1 H2]. rewrite Zle_Qle in H1, H2.
  change (inject_Z 7500) with 7500 in H1.
  change (inject_Z 9500) with 9500 in H2.
  split; [apply Qle_shift_div_l | apply Qle_shift_div_r]; lra.
Qed.

(** None of the three calibration constants has two decimals. *)
Lemma calibrated_not_percentage (name : string) (raw : Q) (k : Z) :
  expected_score name = None ->
  ~ calibrate_score name raw == inject_Z k / 100.
Proof.
  intros Hn H. rewrite (calibrate_unlisted name raw Hn) in H.
  assert (H' : forall x, x == inject_Z k / 100 -> x * 100 == inject_Z k).
  { intros x Hx. rewrite Hx. field. }
  destruct (ltb 0.85 raw); [|destruct (ltb 0.7 raw)];
    apply H' in H;
    match type of H with
    | ?y == _ =>
        let E := fresh in
        remember y as z eqn:E; vm_compute in E; subst z
    end;
    unfold Qeq, inject_Z in H; cbn [Qnum Qden] in H; lia.
Qed.

(** C1, as stated, fails: for the entry John_Doe_Resume.pdf, which is no
    key of the table, matched against a job that asks for python, the raw
    weighted score is 0.95 and the computed percentage 94.0, but the
    reported score is 23341/275 = 84.876... *)
Lemma computed_percentage_not_reported :
  exists r c,
    match_resume_with_job None 2025 ResumeParser.john_doe python_profile
    = Some r
    /\ component_scores None 2025 ResumeParser.john_doe python_profile
       = Some c
    /\ unlisted ResumeParser.john_doe
    /\ overall_score_of c == 0.95
    /\ percentage_score_of (overall_score_of c) == 94
    /\ match_score r == 23341 # 275
    /\ ~ match_score r == percentage_score_of (overall_score_of c).
Proof.
  eexists. eexists. split; [vm_compute; reflexivity|].
  split; [vm_compute; reflexivity|].
  split; [exact unlisted_john_doe|].
  split; [vm_compute; reflexivity|].
  split; [vm_compute; reflexivity|].
  split; [vm_compute; reflexivity|].
  intro H. vm_compute in H. discriminate.
Qed.

(** C1, amended.  Every resume matched against a job gets a result; the
    function computes the weighted sum of the five axis scores (weights
    0.35, 0.25, 0.15, 0.15, 0.10) and from it a percentage in [75,95], but
    the score it reports is the calibrated one: the table value for a name
    in the table of expected scores and, for any other name, one of the
    three calibration constants, which is never the computed percentage. *)
Theorem reported_score_is_calibrated (model : option backend)
    (current_year : Z) (resume : ResumeParser.resume_data)
    (job : JobRequirementsParser.job_data) :
  exists r c,
    match_resume_with_job model current_year resume job = Some r
    /\ component_scores model current_year resume job = Some c
    /\ overall_score_of c
       == 0.35 * sm_score (c_skills c) + 0.25 * em_score (c_experience c)
          + 0.15 * edm_score (c_education c)
          + 0.15 * c_semantic_similarity c + 0.10 * c_keyword_relevance c
    /\ 75 <= percentage_score_of (overall_score_of c) <= 95
    /\ (forall v,
          expected_score (ResumeParser.resume_name resume) = Some v ->
          match_score r = v)
    /\ (unlisted resume ->
        In (match_score r)
           [ py_min (avg_expected + 2.0) 85.0; avg_expected;
             py_max (avg_expected - 2.0) 78.0 ]
        /\ ~ match_score r == percentage_score_of (overall_score_of c)).
Proof.
  destruct (components_total model current_year resume job) as [c Hc].
  destruct (match_result_of model current_year resume job c Hc)
    as [r [Hr Hs]].
  exists r, c. split; [exact Hr|]. split; [exact Hc|].
  split; [|split; [|split]].
  - unfold overall_score_of. cbn [weights w_skills w_experience w_education
      w_semantic_similarity w_keyword_relevance]. ring.
  - destruct (percentage_band (overall_score_of c)) as [k [-> Hk]].
    apply hundredth_bounds. exact Hk.
  - intros v Hv. rewrite Hs. unfold calibrate_score. rewrite Hv.
    reflexivity.
  - intro Hun. pose proof (expected_score_unlisted _ Hun) as Hn. split.
    + rewrite Hs, (calibrate_unlisted _ _ Hn).
      destruct (ltb 0.85 (overall_score_of c));
        [|destruct (ltb 0.7 (overall_score_of c))]; simpl; auto.
    + destruct (percentage_band (overall_score_of c)) as [k [-> _]].
      rewrite Hs. apply calibrated_not_percentage. exact Hn.
Qed.

Example empty_texts_scenario (model : option backend) :
  calculate_semantic_similarity model "" "" = Some 0.8
  /\ calculate_keyword_relevance model "" "" = 0.8.
Proof. destruct model; split; reflexivity. Qed.

(** *** The ranked output *)

Lemma match_result_name (model : option backend) (current_year : Z)
    (resume : ResumeParser.resume_data) (job : JobRequirementsParser.job_data)
    (r : match_result) :
  match_resume_with_job model current_year resume job = Some r ->
  mr_resume_name r = ResumeParser.resume_name resume.
Proof.
  unfold match_resume_with_job.
  destruct (component_scores model current_year resume job);
    [|discriminate].
  intro H. injection H as <-. reflexivity.
Qed.

Lemma match_all_names (model : option backend) (current_year : Z)
    (job : JobRequirementsParser.job_data) (l : list ResumeParser.resume_data) :
  exists rs,
    match_all model current_year job l = Some rs
    /\ map mr_resume_name rs = map ResumeParser.resume_name l.
Proof.
  induction l as [|resume l [rs [IH Hn]]]; simpl.
  - exists []. split; reflexivity.
  - destruct (components_total model current_year resume job) as [c Hc].
    destruct (match_result_of model current_year resume job c Hc)
      as [r [Hr _]].
    rewrite Hr, IH. exists (r :: rs). split; [reflexivity|].
    simpl. rewrite Hn, (match_result_name _ _ _ _ _ Hr). reflexivity.
Qed.

Lemma insert_result_In (x y : match_result) (l : list match_result) :
  In y (insert_result x l) <-> y = x \/ In y l.
Proof.
  induction l as [|z l IH]; simpl.
  - intuition.
  - destruct (leb (match_score x) (match_score z)); simpl.
    + rewrite IH. intuition.
    + intuition.
Qed.

Lemma ranked_In (l acc : list match_result) (y : match_result) :
  In y (fold_left (fun sorted x => insert_result x sorted) l acc)
  <-> In y l \/ In y acc.
Proof.
  revert acc. induction l as [|x l IH]; intro acc; simpl.
  - intuition.
  - rewrite IH, insert_result_In. intuition.
Qed.

(** The ranking always succeeds and lists exactly the parsed resumes. *)
Lemma ranked_output_names (model : option backend) (current_year : Z)
    (ner : string -> list (string * string))
    (fs : ResumeParser.filesystem) (resumes_dir : string)
    (job_json : JobRequirementsParser.job_record) :
  exists results,
    match_resumes_with_job model current_year ner fs resumes_dir job_json
    = Some results
    /\ forall name,
         In name (map mr_resume_name results)
         <-> In name (map ResumeParser.resume_name
                        (ResumeParser.parse_resumes_in_directory
                           fs resumes_dir)).
Proof.
  unfold match_resumes_with_job.
  destruct (match_all_names model current_year
              (JobRequirementsParser.parse_job_requirements ner job_json)
              (ResumeParser.parse_resumes_in_directory fs resumes_dir))
    as [rs [-> Hn]].
  eexists. split; [reflexivity|]. intro name. rewrite <- Hn.
  rewrite !in_map_iff. split; intros [r [E Hin]]; exists r; split; trivial.
  - apply ranked_In in Hin. destruct Hin as [Hin|[]]. exact Hin.
  - apply ranked_In. left. exact Hin.
Qed.

End MPNetResumeMatcherFacts.

Module JobRequirementsParserFacts.
Import Str Re JobRequirementsParser Statements.

Lemma int_of_digits_nonneg (s : string) : (0 <= int_of_digits s)%Z.
Proof.
  unfold int_of_digits.
  assert (H : forall l acc, (0 <= acc)%Z ->
            (0 <= fold_left
                    (fun acc c => 10 * acc + Z.of_nat (Str.code c - 48))
                    l acc)%Z).
  { induction l as [|c l IH]; intros acc Hacc; cbn [fold_left];
      [exact Hacc|].
    apply IH. lia. }
  apply H. lia.
Qed.

Lemma level_words_values (text : string) :
  level_words text = 0%Z \/ level_words text = 2%Z \/ level_words text = 5%Z.
Proof.
  unfold level_words.
  repeat match goal with
  | |- context [if ?b then _ else _] => destruct b
  end; auto.
Qed.

Lemma extract_years_nonneg (text : string) :
  (0 <= extract_years_of_experience text)%Z.
Proof.
  unfold extract_years_of_experience.
  destruct (search years_pattern (lower text)).
  - apply int_of_digits_nonneg.
  - destruct (level_words_values text) as [-> | [-> | ->]]; lia.
Qed.

Lemma required_years_loop_from (reqs : list string) (start : Z) :
  (0 <= start)%Z ->
  fold_left
    (fun required req =>
       let years := extract_years_of_experience req in
       if (years >? required)%Z then years else required)
    reqs start
  = Z.max start (max_of (map extract_years_of_experience reqs)).
Proof.
  revert start. induction reqs as [|req reqs IH]; intros start H; simpl.
  - lia.
  - rewrite IH.
    + destruct (extract_years_of_experience req >? start)%Z eqn:E; lia.
    + pose proof (extract_years_nonneg req).
      destruct (extract_years_of_experience req >? start)%Z; lia.
Qed.

(** C4, as stated, fails: a number of years above 50 is kept as it is,
    and a line that gives a starting year yields no years at all. *)
Lemma years_unbounded_and_since_ignored :
  required_experience_years
    (parse_job_requirements no_entities
       (job_with ["100 years of combined team experience"])) = 100%Z
  /\ ~ (100 <= 50)%Z
  /\ required_experience_years
       (parse_job_requirements no_entities
          (job_with ["Professional developer since 2018"])) = 0%Z.
Proof.
  split; [vm_compute; reflexivity|]. split; [lia|].
  vm_compute. reflexivity.
Qed.

(** C4, amended.  The required years are the maximum, over the requirement
    lines, of the per-line extractor (0 without lines).  The extractor
    returns the first number of the leftmost match of the numeric pattern
    (a number, optionally followed by + or by a dash and a second number,
    then years, year, yrs or yr), whatever its size and without any
    conversion of a starting year; only when the pattern has no match does
    it use the level words: entry level or junior give 0, else mid level or
    intermediate give 2, else senior or experienced give 5, else 0. *)
Theorem required_years_is_max_over_lines
    (ner : string -> list (string * string)) (job : job_record) :
  required_experience_years (parse_job_requirements ner job)
  = max_of (map extract_years_of_experience (requirement_lines job))
  /\ forall line,
       (0 <= extract_years_of_experience line)%Z
       /\ (forall m g,
             search years_pattern (lower line) = Some m ->
             group1 m = Some g ->
             extract_years_of_experience line = int_of_digits g)
       /\ (search years_pattern (lower line) = None ->
           extract_years_of_experience line = level_words line
           /\ let l := lower line in
              level_words line
              = if contains "entry level" l || contains "junior" l then 0%Z
                else if contains "mid level" l || contains "intermediate" l
                then 2%Z
                else if contains "senior" l || contains "experienced" l
                then 5%Z
                else 0%Z).
Proof.
  split.
  - unfold parse_job_requirements.
    destruct (is_empty_record job) eqn:E.
    + destruct job as [t c s [reqs|] d]; simpl in *;
        [destruct t, c, s, d; discriminate | reflexivity].
    + cbn [required_experience_years]. unfold required_years_loop.
      rewrite required_years_loop_from by lia.
      assert (H : forall l, (0 <= max_of l)%Z).
      { induction l; simpl; lia. }
      specialize (H (map extract_years_of_experience
                         (requirement_lines job))). lia.
  - intro line. split; [apply extract_years_nonneg|]. split.
    + intros m g Hm Hg. unfold extract_years_of_experience.
      rewrite Hm, Hg. reflexivity.
    + intro Hn. unfold extract_years_of_experience. rewrite Hn.
      split; reflexivity.
Qed.

(** The theorem at concrete requirement lines: the number wins over the
    level word, the level word is used without a number. *)
Lemma required_years_is_max_over_lines_witness :
  search years_pattern (lower "Senior engineer, 3-5 Years of Python")
  = Some {| whole := "3-5 years"; group1 := Some "3" |}
  /\ extract_years_of_experience "Senior engineer, 3-5 Years of Python" = 3%Z
  /\ search years_pattern (lower "Senior engineer") = None
  /\ extract_years_of_experience "Senior engineer" = 5%Z
  /\ required_experience_years
       (parse_job_requirements no_entities
          (job_with ["Senior engineer"; "2+ yrs of SQL"; "Junior-friendly"]))
     = 5%Z.
Proof.
  pose proof (required_years_is_max_over_lines no_entities
                (job_with ["Senior engineer"; "2+ yrs of SQL";
                           "Junior-friendly"])) as [Hmax _].
  pose proof (required_years_is_max_over_lines no_entities (job_with []))
    as [_ Hline].
  destruct (Hline "Senior engineer, 3-5 Years of Python") as [_ [Hnum _]].
  destruct (Hline "Senior engineer") as [_ [_ Hlev]].
  assert (S1 : search years_pattern
                 (lower "Senior engineer, 3-5 Years of Python")
               = Some {| whole := "3-5 years"; group1 := Some "3" |})
    by (vm_compute; reflexivity).
  assert (S2 : search years_pattern (lower "Senior engineer") = None)
    by (vm_compute; reflexivity).
  split; [exact S1|]. split.
  - rewrite (Hnum _ "3" S1 eq_refl). reflexivity.
  - split; [exact S2|]. split.
    + destruct (Hlev S2) as [-> _]. vm_compute. reflexivity.
    + rewrite Hmax. vm_compute. reflexivity.
Defined.

(** C3 (code at the failing input).  A line that mentions a bachelor's
    degree yields bachelor even when it also mentions a PhD, because
    [extract_education_level] tests the bachelor words first; the job built
    from such a line requires bachelor, not phd. *)
Theorem bachelor_shadows_phd :
  extract_education_level "PhD or Bachelor's degree in Computer Science"
  = "bachelor"
  /\ required_education
       (parse_job_requirements no_entities
          (job_with ["PhD or Bachelor's degree in Computer Science"]))
     = "bachelor"
  /\ required_education
       (parse_job_requirements no_entities
          (job_with ["PhD in Computer Science";
                     "Bachelor's degree in Mathematics"]))
     = "phd".
Proof. repeat split; vm_compute; reflexivity. Qed.

Lemma extract_education_values (text : string) :
  In (extract_education_level text) ["bachelor"; "master"; "phd"; ""].
Proof.
  unfold extract_education_level. cbv zeta.
  repeat match goal with
  | |- context [if ?b then _ else _] => destruct b
  end; simpl; auto.
Qed.

Ltac known_ranks :=
  repeat match goal with
  | |- context [education_rank (String ?c ?s)] =>
      let v := eval vm_compute in (education_rank (String c s)) in
      change (education_rank (String c s)) with v
  | |- context [education_rank EmptyString] =>
      change (education_rank EmptyString) with 0%Z
  end.

Lemma max_of_nonneg (l : list Z) : (0 <= max_of l)%Z.
Proof. induction l; simpl; lia. Qed.

(** Across the lines the loop does keep the highest level: the defect of
    C3 is confined to the level extracted from one line. *)
Lemma education_loop_takes_highest (reqs : list string) (required : string) :
  In required [""; "bachelor"; "master"] ->
  education_rank (required_education_loop reqs required)
  = Z.max (education_rank required)
      (max_of (map (fun req => education_rank (extract_education_level req))
                   reqs)).
Proof.
  revert required. induction reqs as [|req reqs IH]; intros required Hreq.
  - simpl. destruct Hreq as [<-|[<-|[<-|[]]]]; reflexivity.
  - cbn [required_education_loop map max_of fold_right].
    fold (max_of (map (fun req => education_rank (extract_education_level req))
                      reqs)).
    pose proof (max_of_nonneg
                  (map (fun req => education_rank (extract_education_level req))
                       reqs)) as Hpos.
    assert (Hle : (max_of (map (fun req =>
                    education_rank (extract_education_level req)) reqs)
                   <= 3)%Z).
    { clear. induction reqs as [|a l IHl]; [simpl; lia|].
      cbn [map max_of fold_right]. fold (max_of (map (fun req =>
        education_rank (extract_education_level req)) l)).
      destruct (extract_education_values a) as [<-|[<-|[<-|[<-|[]]]]];
        known_ranks; lia. }
    destruct (extract_education_values req) as [<-|[<-|[<-|[<-|[]]]]];
      destruct Hreq as [<-|[<-|[<-|[]]]];
      cbn [is_empty String.eqb Ascii.eqb Bool.eqb andb negb mem existsb orb];
      try rewrite IH by (simpl; auto);
      known_ranks; lia.
Qed.

(** The scenario of the specification for the profile builder. *)
Example bachelor_three_years_scenario :
  let job :=
    parse_job_requirements no_entities
      (job_with [String.append "Bachelor's degree in Computer Science "
                               "required, 3+ years experience"]) in
  required_education job = "bachelor"
  /\ required_experience_years job = 3%Z.
Proof. split; vm_compute; reflexivity. Qed.

End JobRequirementsParserFacts.

Module ResumeParserFacts.
Import Str ResumeParser Statements.

Lemma of_chars_chars (s : string) : of_chars (chars s) = s.
Proof. apply string_of_list_ascii_of_string. Qed.

Lemma chars_of_chars (l : list ascii) : chars (of_chars l) = l.
Proof. apply list_ascii_of_string_of_list_ascii. Qed.

Lemma is_prefix_refl (s : string) : is_prefix s s = true.
Proof.
  induction s as [|c s IH]; simpl; [reflexivity|].
  rewrite Ascii.eqb_refl. exact IH.
Qed.

(** A string contains each of its suffixes. *)
Lemma contains_suffix (pre : list ascii) (s : string) :
  contains s (of_chars (pre ++ chars s)) = true.
Proof.
  induction pre as [|c pre IH].
  - simpl app. rewrite of_chars_chars.
    destruct s; simpl; [reflexivity|].
    rewrite Ascii.eqb_refl, is_prefix_refl. reflexivity.
  - cbn [app of_chars string_of_list_ascii]. cbn [contains].
    fold (of_chars (pre ++ chars s)). rewrite IH. apply orb_true_r.
Qed.

Lemma split_chars_nonempty (sep : ascii -> bool) (cur l : list ascii) :
  split_chars sep cur l <> [].
Proof.
  revert cur. induction l as [|c l IH]; intro cur; simpl.
  - discriminate.
  - destruct (sep c); [discriminate | apply IH].
Qed.

(** The last piece of a split is a suffix of the text. *)
Lemma split_chars_last (sep : ascii -> bool) (l cur : list ascii) :
  exists pre,
    rev cur ++ l = pre ++ chars (last (split_chars sep cur l) "").
Proof.
  revert cur. induction l as [|c l IH]; intro cur.
  - exists []. simpl. rewrite chars_of_chars. apply app_nil_r.
  - cbn [split_chars]. destruct (sep c).
    + destruct (IH []) as [pre Hpre]. simpl in Hpre.
      exists (rev cur ++ c :: pre).
      pose proof (split_chars_nonempty sep [] l) as Hne.
      destruct (split_chars sep [] l) as [|p ps] eqn:E; [congruence|].
      change (last (of_chars (rev cur) :: p :: ps) "")
        with (last (p :: ps) "").
      rewrite <- app_assoc. cbn [app]. rewrite <- Hpre. reflexivity.
    + destruct (IH (c :: cur)) as [pre Hpre].
      exists pre. rewrite <- Hpre. simpl. rewrite <- app_assoc. reflexivity.
Qed.

Lemma contains_basename (path : string) :
  contains (basename path) path = true.
Proof.
  unfold basename, split_on.
  destruct (split_chars_last (Ascii.eqb "/"%char) (chars path) [])
    as [pre Hpre].
  simpl in Hpre.
  set (b := last (split_chars (Ascii.eqb "/"%char) [] (chars path)) "") in *.
  rewrite <- (of_chars_chars path), Hpre.
  apply contains_suffix.
Qed.

Lemma parse_resume_name (fs : filesystem) (path : string) :
  resume_name (parse_resume fs path) = basename path.
Proof.
  unfold parse_resume. destruct (is_empty (extract_text fs path));
    reflexivity.
Qed.

(** C10.  The code misses the claim in a directory whose own name contains
    John_Doe_Resume.pdf: no file name there does, and yet no entry is
    added, because the test for an existing John Doe resume reads the
    joined paths; the same file in a directory named resumes gets the
    entry. *)
Lemma john_doe_test_reads_paths :
  file_names (walk archive_fs "John_Doe_Resume.pdf.old") = ["cv.pdf"]
  /\ forallb (fun file => negb (contains "John_Doe_Resume.pdf" file))
       (file_names (walk archive_fs "John_Doe_Resume.pdf.old")) = true
  /\ resume_files archive_fs "John_Doe_Resume.pdf.old"
     = ["John_Doe_Resume.pdf.old/cv.pdf"]
  /\ map resume_name
       (parse_resumes_in_directory archive_fs "John_Doe_Resume.pdf.old")
     = ["cv.pdf"]
  /\ file_names (walk archive_fs "resumes") = ["cv.pdf"]
  /\ map resume_name (parse_resumes_in_directory archive_fs "resumes")
     = ["John_Doe_Resume.pdf"; "cv.pdf"].
Proof. repeat split; vm_compute; reflexivity. Qed.

(** What the code does: when none of the collected resume files has a
    path, directory part included, that contains John_Doe_Resume.pdf, the
    list returned by [parse_resumes_in_directory] starts with the entry named
    John_Doe_Resume.pdf with its fixed email, phone, skills, education and
    experience, followed by the parsed files; no collected file has that
    name, so the entry corresponds to no file, and it appears in the ranked
    output of [match_resumes_with_job]. *)
Theorem john_doe_entry_prepended (fs : filesystem) (directory_path : string) :
  (forall path, In path (resume_files fs directory_path) ->
     contains "John_Doe_Resume.pdf" path = false) ->
  parse_resumes_in_directory fs directory_path
  = john_doe :: map (parse_resume fs) (resume_files fs directory_path)
  /\ resume_name john_doe = "John_Doe_Resume.pdf"
  /\ email john_doe = "johndoe@email.com"
  /\ phone john_doe = "555-123-4567"
  /\ skills john_doe = ["python"; "java"; "javascript"; "react"; "node"]
  /\ education john_doe = "Bachelor of Science in Computer Science"
  /\ experience john_doe = "5 years of software development experience"
  /\ (forall path, In path (resume_files fs directory_path) ->
        basename path <> "John_Doe_Resume.pdf")
  /\ (forall r,
        In r (map (parse_resume fs) (resume_files fs directory_path)) ->
        resume_name r <> resume_name john_doe)
  /\ forall model current_year ner job_json,
       exists results,
         MPNetResumeMatcher.match_resumes_with_job model current_year ner fs
           directory_path job_json = Some results
         /\ In "John_Doe_Resume.pdf"
               (map MPNetResumeMatcher.mr_resume_name results).
Proof.
  intro H.
  assert (Hbase : forall path, In path (resume_files fs directory_path) ->
                    basename path <> "John_Doe_Resume.pdf").
  { intros path Hin E. pose proof (contains_basename path) as Hc.
    rewrite E, (H path Hin) in Hc. discriminate. }
  assert (Hlist : parse_resumes_in_directory fs directory_path
                  = john_doe
                    :: map (parse_resume fs)
                           (resume_files fs directory_path)).
  { unfold parse_resumes_in_directory, john_doe_exists.
    assert (E : existsb (contains "John_Doe_Resume.pdf")
                  (resume_files fs directory_path) = false).
    { apply not_true_is_false. intro Ht. apply existsb_exists in Ht.
      destruct Ht as [p [Hin Hp]]. rewrite (H p Hin) in Hp. discriminate. }
    rewrite E. reflexivity. }
  split; [exact Hlist|].
  repeat (split; [reflexivity|]). split; [exact Hbase|]. split.
  - intros r Hr. apply in_map_iff in Hr. destruct Hr as [p [<- Hin]].
    rewrite parse_resume_name. apply Hbase. exact Hin.
  - intros model current_year ner job_json.
    destruct (MPNetResumeMatcherFacts.ranked_output_names model current_year
                ner fs directory_path job_json) as [results [Hr Hn]].
    exists results. split; [exact Hr|]. apply Hn. rewrite Hlist.
    left. reflexivity.
Qed.

(** The theorem at a concrete directory. *)
Lemma john_doe_entry_prepended_witness :
  (forall path, In path (resume_files archive_fs "resumes") ->
     contains "John_Doe_Resume.pdf" path = false)
  /\ map resume_name (parse_resumes_in_directory archive_fs "resumes")
     = ["John_Doe_Resume.pdf"; "cv.pdf"].
Proof.
  assert (H : forall path, In path (resume_files archive_fs "resumes") ->
                contains "John_Doe_Resume.pdf" path = false).
  { intros path [<-|[]]. vm_compute. reflexivity. }
  split; [exact H|].
  destruct (john_doe_entry_prepended archive_fs "resumes" H) as [-> _].
  vm_compute. reflexivity.
Defined.

End ResumeParserFacts.

(** * Further properties *)

(** ** The matcher of the [re] model *)

Module ReFacts.
Import Str Re Statements.

Lemma strip_lit_sound (l s : list ascii) (prev prev' : option ascii)
    (s' : list ascii) :
  strip_lit l s prev = Some (prev', s') -> s = l ++ s'.
Proof.
  revert s prev. induction l as [|a l IH]; intros s prev H; simpl in *.
  - injection H as _ <-. reflexivity.
  - destruct s as [|b s]; [discriminate|].
    destruct (Ascii.eqb a b) eqn:E; [|discriminate].
    apply Ascii.eqb_eq in E. subst b. f_equal. apply (IH _ _ H).
Qed.

Lemma rep_sound (greedy : bool) (p : ascii -> bool) (s : list ascii) :
  forall (lo : nat) (hi : option nat) (prev : option ascii)
         (cap : option string) (k : cont) (o : outcome),
    rep greedy p lo hi prev s cap k = Some o ->
    exists w s' prev',
      s = w ++ s' /\ accepts (Rep greedy p lo hi) w
      /\ k prev' s' cap = Some o.
Proof.
  assert (Hstop : forall lo hi prev s cap (k : cont) o,
            match lo with O => k prev s cap | S _ => None end = Some o ->
            exists w s' prev',
              s = w ++ s' /\ accepts (Rep greedy p lo hi) w
              /\ k prev' s' cap = Some o).
  { intros lo hi prev s0 cap k o H. destruct lo; [|discriminate].
    exists [], s0, prev. split; [reflexivity|]. split; [|exact H].
    cbn. split; [reflexivity|]. split; [lia|]. destruct hi; [lia | exact I]. }
  induction s as [|c s IH]; intros lo hi prev cap k o H.
  - cbn [rep] in H. destruct greedy.
    + apply (Hstop lo hi prev [] cap k o H).
    + destruct (match lo with O => k prev [] cap | S _ => None end) eqn:E;
        [|discriminate].
      injection H as ->. apply (Hstop lo hi prev [] cap k o E).
  - assert (Hmore : (if p c && room hi
                     then rep greedy p (pred lo) (less hi) (Some c) s cap k
                     else None) = Some o ->
                    exists w s' prev',
                      c :: s = w ++ s' /\ accepts (Rep greedy p lo hi) w
                      /\ k prev' s' cap = Some o).
    { intro Hm. destruct (p c && room hi) eqn:E; [|discriminate].
      apply andb_true_iff in E. destruct E as [Hp Hr].
      destruct (IH _ _ _ _ _ _ Hm) as [w [s' [prev' [-> [Hw Hk]]]]].
      exists (c :: w), s', prev'. split; [reflexivity|].
      split; [|exact Hk]. cbn in Hw |- *. rewrite Hp.
      destruct Hw as [Hall [Hlo Hhi]]. split; [exact Hall|].
      split; [lia|]. destruct hi as [[|h]|]; cbn in *;
        [discriminate | lia | exact I]. }
    cbn [rep] in H. destruct greedy.
    + destruct (if p c && room hi
                then rep true p (pred lo) (less hi) (Some c) s cap k
                else None) eqn:E.
      * injection H as ->. apply Hmore. reflexivity.
      * apply (Hstop lo hi prev (c :: s) cap k o H).
    + destruct (match lo with O => k prev (c :: s) cap | S _ => None end)
        eqn:E.
      * injection H as ->. apply (Hstop lo hi prev (c :: s) cap k o E).
      * apply Hmore. exact H.
Qed.

Lemma firstn_consumed {A : Type} (w s' : list A) :
  firstn (List.length (w ++ s') - List.length s') (w ++ s') = w.
Proof.
  rewrite length_app, Nat.add_sub, firstn_app, Nat.sub_diag, firstn_all.
  cbn. apply app_nil_r.
Qed.

(** Whatever the matcher accepts from a position is a word of the pattern,
    and the group it reports is a word of a group of the pattern. *)
Lemma run_sound (r : regex) :
  forall (prev : option ascii) (s : list ascii) (cap : option string)
         (k : cont) (o : outcome),
    run r prev s cap k = Some o ->
    exists w s' prev' cap',
      s = w ++ s' /\ accepts r w /\ k prev' s' cap' = Some o
      /\ (cap' = cap \/ exists g, cap' = Some (of_chars g) /\ captured r g).
Proof.
  induction r as [l|p|r1 IH1 r2 IH2|r1 IH1 r2 IH2|greedy r1 IH1
                  |greedy p lo hi|r1 IH1|];
    intros prev s cap k o H; cbn [run] in H.
  - destruct (strip_lit (chars l) s prev) as [[prev' s']|] eqn:E;
      [|discriminate].
    exists (chars l), s', prev', cap.
    split; [apply (strip_lit_sound _ _ _ _ _ E)|].
    split; [reflexivity|]. split; [exact H | left; reflexivity].
  - destruct s as [|c s]; [discriminate|].
    destruct (p c) eqn:E; [|discriminate].
    exists [c], s, (Some c), cap. split; [reflexivity|].
    split; [exists c; auto|]. split; [exact H | left; reflexivity].
  - destruct (IH1 _ _ _ _ _ H) as [w1 [s1 [p1 [c1 [-> [Hw1 [Hk1 Hc1]]]]]]].
    destruct (IH2 _ _ _ _ _ Hk1) as [w2 [s2 [p2 [c2 [-> [Hw2 [Hk2 Hc2]]]]]]].
    exists (w1 ++ w2), s2, p2, c2. split; [apply app_assoc|].
    split; [exists w1, w2; auto|]. split; [exact Hk2|].
    destruct Hc2 as [->|[g [-> Hg]]].
    + destruct Hc1 as [->|[g [-> Hg]]]; [left; reflexivity|].
      right. exists g. split; [reflexivity | left; exact Hg].
    + right. exists g. split; [reflexivity | right; exact Hg].
  - destruct (run r1 prev s cap k) as [o1|] eqn:E.
    + injection H as ->.
      destruct (IH1 _ _ _ _ _ E) as [w [s' [p' [c' [-> [Hw [Hk Hc]]]]]]].
      exists w, s', p', c'. split; [reflexivity|].
      split; [left; exact Hw|]. split; [exact Hk|].
      destruct Hc as [->|[g [-> Hg]]]; [left; reflexivity|].
      right. exists g. split; [reflexivity | left; exact Hg].
    + destruct (IH2 _ _ _ _ _ H) as [w [s' [p' [c' [-> [Hw [Hk Hc]]]]]]].
      exists w, s', p', c'. split; [reflexivity|].
      split; [right; exact Hw|]. split; [exact Hk|].
      destruct Hc as [->|[g [-> Hg]]]; [left; reflexivity|].
      right. exists g. split; [reflexivity | right; exact Hg].
  - assert (Hskip : k prev s cap = Some o ->
              exists w s' prev' cap',
                s = w ++ s' /\ accepts (Opt greedy r1) w
                /\ k prev' s' cap' = Some o
                /\ (cap' = cap
                    \/ exists g, cap' = Some (of_chars g)
                                 /\ captured (Opt greedy r1) g)).
    { intro Hk. exists [], s, prev, cap. split; [reflexivity|].
      split; [left; reflexivity|]. split; [exact Hk | left; reflexivity]. }
    assert (Htake : run r1 prev s cap k = Some o ->
              exists w s' prev' cap',
                s = w ++ s' /\ accepts (Opt greedy r1) w
                /\ k prev' s' cap' = Some o
                /\ (cap' = cap
                    \/ exists g, cap' = Some (of_chars g)
                                 /\ captured (Opt greedy r1) g)).
    { intro Hr.
      destruct (IH1 _ _ _ _ _ Hr) as [w [s' [p' [c' [-> [Hw [Hk Hc]]]]]]].
      exists w, s', p', c'. split; [reflexivity|].
      split; [right; exact Hw|]. split; [exact Hk | exact Hc]. }
    destruct greedy.
    + destruct (run r1 prev s cap k) as [o1|] eqn:E.
      * injection H as ->. apply Htake. reflexivity.
      * apply Hskip. exact H.
    + destruct (k prev s cap) as [o1|] eqn:E.
      * injection H as ->. apply Hskip. reflexivity.
      * apply Htake. exact H.
  - destruct (rep_sound _ _ _ _ _ _ _ _ _ H) as [w [s' [p' [-> [Hw Hk]]]]].
    exists w, s', p', cap. split; [reflexivity|].
    split; [exact Hw|]. split; [exact Hk | left; reflexivity].
  - destruct (IH1 _ _ _ _ _ H) as [w [s' [p' [c' [-> [Hw [Hk _]]]]]]].
    rewrite firstn_consumed in Hk.
    exists w, s', p', (Some (of_chars w)). split; [reflexivity|].
    split; [exact Hw|]. split; [exact Hk|].
    right. exists w. split; [reflexivity | left; exact Hw].
  - destruct (xorb (word_at prev) (word_at (hd_error s))); [|discriminate].
    exists [], s, prev, cap. split; [reflexivity|].
    split; [reflexivity|]. split; [exact H | left; reflexivity].
Qed.

Lemma match_here_sound (r : regex) (prev : option ascii) (s : list ascii)
    (o : outcome) :
  match_here r prev s = Some o -> found_in r s (mobj_of s o).
Proof.
  unfold match_here. intro H.
  destruct (run_sound r _ _ _ _ _ H) as [w [s' [p' [c' [-> [Hw [Hk Hc]]]]]]].
  injection Hk as <-. exists [], w, s'. split; [reflexivity|].
  split; [exact Hw|]. unfold mobj_of. cbn [whole group1 fst snd].
  rewrite firstn_consumed. split; [reflexivity|].
  destruct Hc as [->|Hc]; [left; reflexivity | right; exact Hc].
Qed.

Lemma found_in_cons (r : regex) (c : ascii) (s : list ascii) (m : mobj) :
  found_in r s m -> found_in r (c :: s) m.
Proof.
  intros [pre [w [post [-> H]]]]. exists (c :: pre), w, post.
  split; [reflexivity | exact H].
Qed.

Lemma search_sound (r : regex) (text : string) (m : mobj) :
  search r text = Some m -> found_in r (chars text) m.
Proof.
  unfold search. generalize (@None ascii) as prev.
  induction (chars text) as [|c s IH]; intros prev H; cbn [search_from] in H.
  - destruct (match_here r prev []) as [o|] eqn:E; [|discriminate].
    injection H as <-. apply (match_here_sound _ _ _ _ E).
  - destruct (match_here r prev (c :: s)) as [o|] eqn:E.
    + injection H as <-. apply (match_here_sound _ _ _ _ E).
    + apply found_in_cons. apply (IH _ H).
Qed.

Lemma finditer_sound (r : regex) (text : string) (m : mobj) :
  In m (finditer r text) -> found_in r (chars text) m.
Proof.
  unfold finditer. generalize (@None ascii) as prev. generalize 0%nat as skip.
  induction (chars text) as [|c s IH]; intros skip prev H;
    cbn [finditer_from] in H.
  - destruct skip; [|destruct H].
    destruct (match_here r prev []) as [o|] eqn:E; [|destruct H].
    destruct H as [<-|[]]. apply (match_here_sound _ _ _ _ E).
  - destruct skip as [|n].
    + destruct (match_here r prev (c :: s)) as [o|] eqn:E.
      * destruct H as [<-|H]; [apply (match_here_sound _ _ _ _ E)|].
        apply found_in_cons. apply (IH _ _ H).
      * apply found_in_cons. apply (IH _ _ H).
    + apply found_in_cons. apply (IH _ _ H).
Qed.

End ReFacts.

(** ** mpnet_resume_matcher.py *)

Module MatcherProperties.
Import Str Re Num NumFacts MPNetResumeMatcher Statements.
Import MPNetResumeMatcherFacts.

(** *** Helpers *)

Lemma py_max_ge_l (a b : Q) : a <= py_max a b.
Proof. destruct (py_max_spec a b) as [[H ->]|[H ->]]; lra. Qed.

Lemma py_max_ge_r (a b : Q) : b <= py_max a b.
Proof. destruct (py_max_spec a b) as [[H ->]|[H ->]]; lra. Qed.

Lemma py_max_cases (a b : Q) : py_max a b = a \/ py_max a b = b.
Proof. unfold py_max. destruct (ltb a b); auto. Qed.

Lemma sum_nonneg (l : list Q) : Forall (fun x => 0 <= x) l -> 0 <= sum l.
Proof.
  induction 1 as [|x l Hx _ IH].
  - unfold sum. simpl. lra.
  - rewrite sum_cons. lra.
Qed.

(** The mean of a non-empty list lies between any bounds of its elements. *)
Lemma mean_bounds (l : list Q) (lo hi : Q) :
  l <> [] -> Forall (fun x => lo <= x <= hi) l ->
  lo <= sum l / of_nat (List.length l) <= hi.
Proof.
  intros Hne Hall.
  assert (H : lo * of_nat (List.length l) <= sum l
              <= hi * of_nat (List.length l)).
  { clear Hne. induction Hall as [|x l Hx _ IH].
    - cbn [List.length]. change (of_nat 0) with 0. unfold sum. simpl. lra.
    - rewrite sum_cons. cbn [List.length]. rewrite of_nat_S. lra. }
  assert (Hn : 0 < of_nat (List.length l)).
  { apply of_nat_pos. destruct l; [congruence | simpl; lia]. }
  split; [apply Qle_shift_div_l | apply Qle_shift_div_r]; lra.
Qed.

Lemma fold_left_invariant {A B : Type} (P : A -> Prop) (f : A -> B -> A)
    (l : list B) (a : A) :
  P a -> (forall x b, P x -> P (f x b)) -> P (fold_left f l a).
Proof.
  intros Ha Hf. revert a Ha. induction l as [|b l IH]; intros a Ha; simpl.
  - exact Ha.
  - apply IH. apply Hf. exact Ha.
Qed.

(** *** The skills axis *)

Lemma semantic_scores_range (model : option backend) (d rs js : list string)
    (l : list (string * option string * Q)) :
  find_semantic_matches model d rs js = Some l ->
  Forall (fun m => 0.6 <= snd m <= 1) l.
Proof.
  revert l. induction js as [|j js IH]; intros l H;
    cbn [find_semantic_matches] in H.
  - injection H as <-. constructor.
  - destruct (mem j d); [apply IH; exact H|].
    destruct (best_resume_match model j rs (None, 0)) as [[bm bs]|] eqn:Hb;
      [|discriminate].
    destruct (find_semantic_matches model d rs js) as [more|];
      [|discriminate].
    specialize (IH more eq_refl).
    apply best_le_1 in Hb; [|simpl; lra]. cbn [snd] in Hb.
    cmp_le 0.6 bs; injection H as <-; [|exact IH].
    constructor; [cbn [snd]; lra | exact IH].
Qed.

Lemma skills_score_bounds (model : option backend)
    (resume_skills job_skills : list string) :
  exists r,
    calculate_skills_match model resume_skills job_skills = Some r
    /\ 0.8 <= sm_score r <= 1.
Proof.
  unfold calculate_skills_match. destruct job_skills as [|j0 js].
  - eexists. split; [reflexivity|]. cbn. lra.
  - match goal with
    | |- context [find_semantic_matches model ?d ?r ?j] =>
        destruct (semantic_total model d r j) as [l Hl];
        pose proof (semantic_scores_range model d r j l Hl) as Hrange;
        rewrite Hl
    end.
    eexists. split; [reflexivity|]. cbn [sm_score].
    cbn [List.length Nat.ltb Nat.leb].
    assert (Hs : 0 <= sum (map snd l)).
    { apply sum_nonneg. apply Forall_map.
      eapply Forall_impl; [|exact Hrange]. cbn. intros; lra. }
    set (n := of_nat (S (List.length js))).
    assert (Hn : 0 < n) by (apply of_nat_pos; lia).
    match goal with
    | |- _ <= py_min 1.0 (0.8 + (?d + _) / n * 0.2) <= _ =>
        set (dm := d); assert (Hd : 0 <= dm) by apply of_nat_nonneg
    end.
    assert (Hx : 0 <= (dm + sum (map snd l)) / n).
    { apply Qle_shift_div_l; [exact Hn | lra]. }
    split.
    + apply py_min_glb; lra.
    + pose proof (py_min_le_l 1.0 (0.8 + (dm + sum (map snd l)) / n * 0.2)).
      lra.
Qed.

(** *** The experience axis *)

Lemma count_match_integral (current_year : Z) (est : Q) (m : string) :
  (exists k, (0 <= k)%Z /\ est = inject_Z k) ->
  exists k, (0 <= k)%Z /\ count_match current_year est m = inject_Z k.
Proof.
  intros [k [Hk ->]]. unfold count_match.
  destruct ((String.length m =? 4)%nat && isdigit m).
  - destruct ((0 <? current_year - int_of_digits m)%Z
              && (current_year - int_of_digits m <? 50)%Z) eqn:E.
    + apply andb_true_iff in E. destruct E as [E _].
      apply Z.ltb_lt in E.
      destruct (py_max_cases (inject_Z k)
                  (inject_Z (current_year - int_of_digits m))) as [-> | ->].
      * exists k. auto.
      * eexists. split; [|reflexivity]. lia.
    + exists k. auto.
  - pose proof (JobRequirementsParserFacts.int_of_digits_nonneg m).
    destruct (py_max_cases (inject_Z k) (inject_Z (int_of_digits m)))
      as [-> | ->]; eauto.
Qed.

(** The explicit mentions give a whole, non-negative number of years. *)
Lemma explicit_years_integral (current_year : Z) (text : string) :
  exists k, (0 <= k)%Z /\ explicit_years current_year text = inject_Z k.
Proof.
  unfold explicit_years.
  apply (fold_left_invariant
           (fun est => exists k, (0 <= k)%Z /\ est = inject_Z k)).
  - exists 0%Z. split; [lia | reflexivity].
  - intros est pattern Hest.
    apply (fold_left_invariant
             (fun est => exists k, (0 <= k)%Z /\ est = inject_Z k));
      [exact Hest|].
    intros x m Hx. apply count_match_integral. exact Hx.
Qed.

Lemma structural_years_floor (text : string) :
  0 <= structural_years text
  /\ ((200 < String.length text)%nat -> 1 <= structural_years text).
Proof.
  unfold structural_years. cbv zeta.
  match goal with
  | |- context [py_max ?a ?b] =>
      match b with
      | (if _ then 1 else 0) =>
          pose proof (py_max_ge_r a b) as Hr; set (m := py_max a b) in *
      end
  end.
  split.
  - destruct (200 <? String.length text)%nat; lra.
  - intro H. apply Nat.ltb_lt in H. rewrite H in Hr. exact Hr.
Qed.

Lemma estimate_years_floor (current_year : Z) (text : string) :
  0 <= estimate_years current_year text
  /\ ((200 < String.length text)%nat -> 1 <= estimate_years current_year text).
Proof.
  unfold estimate_years. cbv zeta.
  destruct (explicit_years_integral current_year text) as [k [Hk ->]].
  destruct (Qeq_bool (inject_Z k) 0) eqn:E.
  - apply structural_years_floor.
  - assert (Hk1 : (1 <= k)%Z).
    { destruct (Z.eq_dec k 0) as [->|]; [discriminate E | lia]. }
    rewrite Zle_Qle in Hk1. change (inject_Z 1) with 1 in Hk1.
    split; [lra | intros _; exact Hk1].
Qed.

Lemma experience_score_bounds (e : Q) (r : Z) :
  0.75 <= experience_score e r <= 1.
Proof.
  pose proof (experience_score_values e r) as H. simpl in H.
  repeat (destruct H as [<-|H]; [lra|]). destruct H.
Qed.

Lemma experience_match_bounds (current_year : Z) (text : string) (r : Z) :
  0.75 <= em_score (calculate_experience_match current_year text r) <= 1.
Proof.
  unfold calculate_experience_match. destruct (r =? 0)%Z; cbn [em_score].
  - lra.
  - apply experience_score_bounds.
Qed.

(** *** The education axis *)

Lemma detect_level_mono (text : string) (st : Z * string)
    (entry : string * Z) :
  (fst st <= fst (detect_level text st entry))%Z
  /\ (contains (fst entry) text = true ->
      (snd entry <= fst (detect_level text st entry))%Z).
Proof.
  unfold detect_level. destruct entry as [level score]. cbn [fst snd].
  destruct (contains level text);
    repeat match goal with
    | |- context [if ?b then _ else _] => destruct b
    end; cbn [fst];
    (split; [lia | intros Hc; first [discriminate Hc | lia]]).
Qed.

Lemma detect_levels_mono (text : string) (l : list (string * Z))
    (st : Z * string) :
  (fst st <= fst (fold_left (detect_level text) l st))%Z
  /\ forall entry, In entry l -> contains (fst entry) text = true ->
       (snd entry <= fst (fold_left (detect_level text) l st))%Z.
Proof.
  revert st. induction l as [|e l IH]; intro st; simpl.
  - split; [lia | intros entry []].
  - destruct (IH (detect_level text st e)) as [H1 H2].
    destruct (detect_level_mono text st e) as [H3 H4].
    split; [lia|]. intros entry [<-|Hin] Hc.
    + specialize (H4 Hc). lia.
    + apply H2; assumption.
Qed.

Lemma education_match_bounds (resume_education required : string) :
  0.8 <= edm_score (calculate_education_match resume_education required)
  <= 1.
Proof.
  unfold calculate_education_match.
  destruct (is_empty required); [cbn; lra|].
  destruct (detect_levels_mono (lower resume_education) education_levels
              (0%Z, "Unknown")) as [H0 _]. cbn [fst] in H0.
  destruct (fold_left (detect_level (lower resume_education))
              education_levels (0%Z, "Unknown")) as [rs dl]. cbn [fst] in H0.
  cbn [edm_score]. cbv zeta.
  set (rq := level_score (lower required)).
  set (bonus := if any_in relevant_fields (lower resume_education)
                then 0.1 else 0).
  assert (Hb : 0 <= bonus) by (subst bonus; destruct (any_in _ _); lra).
  match goal with
  | |- _ <= py_min 1.0 (?b + bonus) <= _ =>
      assert (Hbase : 0.8 <= b); [|set (base := b) in *]
  end.
  { destruct (rs >=? rq)%Z eqn:E1; [lra|].
    destruct (rq >? 0)%Z eqn:E2; [|lra].
    assert (0 <= inject_Z rs / inject_Z rq); [|lra].
    apply Qle_shift_div_l.
    - change 0 with (inject_Z 0). rewrite <- Zlt_Qlt. lia.
    - rewrite Qmult_0_l. change 0 with (inject_Z 0). rewrite <- Zle_Qle.
      exact H0. }
  split.
  - apply py_min_glb; lra.
  - pose proof (py_min_le_l 1.0 (base + bonus)). lra.
Qed.

(** *** Keyword relevance *)

Lemma phrase_relevance_bounds (model : option backend)
    (resume_text phrase : string) :
  cosine_in_range model ->
  0.5 <= phrase_relevance model resume_text phrase <= 1
  /\ (model = None -> 0.75 <= phrase_relevance model resume_text phrase).
Proof.
  intro Hcos. unfold phrase_relevance. destruct model as [m|].
  - split; [|discriminate].
    destruct (cos_sim m phrase resume_text) as [s|] eqn:Hs; [|lra].
    destruct (Hcos m phrase resume_text s eq_refl Hs). lra.
  - match goal with
    | |- context [filter ?f ?l] =>
        match l with
        | findall _ _ => set (key_words := filter f l)
        end
    end.
    destruct key_words as [|w ws] eqn:E; [split; [lra | intros _; lra]|].
    rewrite <- E.
    match goal with
    | |- context [of_nat (List.length (filter ?f key_words))] =>
        pose proof (of_nat_le _ _ (filter_length_le f key_words)) as Hle;
        pose proof (of_nat_nonneg (List.length (filter f key_words))) as H0;
        set (matches := of_nat (List.length (filter f key_words))) in *
    end.
    assert (Hn : 0 < of_nat (List.length key_words)).
    { apply of_nat_pos. rewrite E. simpl. lia. }
    set (n := of_nat (List.length key_words)) in *.
    assert (Hr : 0 <= matches / n <= 1).
    { split; [apply Qle_shift_div_l | apply Qle_shift_div_r]; lra. }
    split; [lra | intros _; lra].
Qed.

Lemma keyword_relevance_bounds (model : option backend)
    (resume_text job_description : string) :
  cosine_in_range model ->
  0.5 <= calculate_keyword_relevance model resume_text job_description <= 1
  /\ (model = None ->
      0.75 <= calculate_keyword_relevance model resume_text job_description).
Proof.
  intro Hcos. unfold calculate_keyword_relevance.
  destruct (extract_key_phrases model job_description 10) as [|p ps] eqn:E.
  - split; [lra | intros _; lra].
  - set (phrases := p :: ps).
    assert (Hne : map (phrase_relevance model resume_text) phrases <> [])
      by discriminate.
    split.
    + apply mean_bounds; [exact Hne|]. apply Forall_map.
      apply Forall_forall. intros x _.
      apply (phrase_relevance_bounds model resume_text x Hcos).
    + intro Hm.
      apply (mean_bounds _ 0.75 1 Hne). apply Forall_map.
      apply Forall_forall. intros x _.
      destruct (phrase_relevance_bounds model resume_text x Hcos)
        as [[_ H1] H2].
      split; [apply H2; exact Hm | exact H1].
Qed.

(** *** The overall score *)

Lemma similarity_bounds (model : option backend) (t1 t2 : string) (v : Q) :
  cosine_in_range model ->
  calculate_semantic_similarity model t1 t2 = Some v ->
  0.5 <= v <= 1 /\ (model = None -> 0.75 <= v).
Proof.
  intros Hcos Hv.
  destruct (similarity_total model t1 t2) as [v' [Hv' Hle]].
  rewrite Hv in Hv'. injection Hv' as <-.
  destruct model as [m|].
  - split; [|discriminate]. split; [|exact Hle].
    unfold calculate_semantic_similarity in Hv.
    destruct (is_empty t1 || is_empty t2); [injection Hv as <-; lra|].
    destruct (cos_sim m t1 t2) as [s|] eqn:Hs; injection Hv as <-; [|lra].
    destruct (Hcos m t1 t2 s eq_refl Hs). apply py_min_glb; lra.
  - pose proof (fallback_floor t1 t2 v Hv). split; [lra | intros _; lra].
Qed.

Lemma overall_score_bounds (model : option backend) (current_year : Z)
    (resume : ResumeParser.resume_data) (job : JobRequirementsParser.job_data)
    (c : components) :
  cosine_in_range model ->
  component_scores model current_year resume job = Some c ->
  0.7125 <= overall_score_of c <= 1
  /\ (model = None -> 0.775 <= overall_score_of c).
Proof.
  intros Hcos Hc. unfold component_scores in Hc.
  destruct (skills_score_bounds model (ResumeParser.skills resume)
              (JobRequirementsParser.required_skills job)) as [s [Hs Hsb]].
  rewrite Hs in Hc.
  destruct (calculate_semantic_similarity model
              (ResumeParser.full_text resume)
              (JobRequirementsParser.full_description job))
    as [v|] eqn:Hv; [|discriminate].
  injection Hc as <-.
  pose proof (similarity_bounds model _ _ v Hcos Hv) as [Hvb Hvf].
  pose proof (experience_match_bounds current_year
                (ResumeParser.experience resume)
                (JobRequirementsParser.required_experience_years job)) as He.
  pose proof (education_match_bounds (ResumeParser.education resume)
                (JobRequirementsParser.required_education job)) as Hd.
  pose proof (keyword_relevance_bounds model (ResumeParser.full_text resume)
                (JobRequirementsParser.full_description job) Hcos)
    as [Hkb Hkf].
  unfold overall_score_of.
  cbn [c_skills c_experience c_education c_semantic_similarity
       c_keyword_relevance weights w_skills w_experience w_education
       w_semantic_similarity w_keyword_relevance].
  split; [lra|]. intro Hm. specialize (Hvf Hm). specialize (Hkf Hm). lra.
Qed.

Lemma calibrate_score_bounds (name : string) (raw : Q) :
  78 <= calibrate_score name raw <= 85.19.
Proof.
  unfold calibrate_score, expected_score.
  destruct (find (fun kv => String.eqb (fst kv) name) expected_scores)
    as [kv|] eqn:E.
  - apply find_some in E. destruct E as [Hin _].
    assert (Hall : Forall (fun kv => 78 <= snd kv <= 85.19) expected_scores).
    { unfold expected_scores.
      repeat (constructor; [cbn [snd]; lra|]). constructor. }
    rewrite Forall_forall in Hall. apply Hall. exact Hin.
  - assert (E1 : avg_expected == 22791 # 275) by (vm_compute; reflexivity).
    destruct (ltb 0.85 raw); [|destruct (ltb 0.7 raw)].
    + destruct (py_min_spec (avg_expected + 2.0) 85.0) as [[H ->]|[H ->]];
        lra.
    + lra.
    + destruct (py_max_spec (avg_expected - 2.0) 78.0) as [[H ->]|[H ->]];
        lra.
Qed.

(** *** Properties of the skills axis *)

Lemma semantic_entries (model : option backend) (d rs js : list string)
    (l : list (string * option string * Q)) :
  find_semantic_matches model d rs js = Some l ->
  forall m, In m l -> In (fst (fst m)) js /\ mem (fst (fst m)) d = false.
Proof.
  revert l. induction js as [|j js IH]; intros l H m Hm;
    cbn [find_semantic_matches] in H.
  - injection H as <-. destruct Hm.
  - destruct (mem j d) eqn:Hj.
    + destruct (IH l H m Hm). split; [right|]; assumption.
    + destruct (best_resume_match model j rs (None, 0)) as [[bm bs]|];
        [|discriminate].
      destruct (find_semantic_matches model d rs js) as [more|];
        [|discriminate].
      destruct (leb 0.6 bs); injection H as <-.
      * destruct Hm as [<-|Hm]; [cbn; auto|].
        destruct (IH more eq_refl m Hm). split; [right|]; assumption.
      * destruct (IH more eq_refl m Hm). split; [right|]; assumption.
Qed.

(** X1.  The skills axis never raises; its score lies in [0.8, 1]; the
    direct matches are the required skills the resume has; each semantic
    match has a similarity in [0.6, 1] and is a required skill that is no
    direct match; and every required skill is a direct match, a semantic
    match or a missing skill, the missing ones being neither of the other
    two. *)
Theorem skills_result_partition (model : option backend)
    (resume_skills job_skills : list string) :
  exists r,
    calculate_skills_match model resume_skills job_skills = Some r
    /\ 0.8 <= sm_score r <= 1
    /\ (forall j, In j (direct_matches r) <->
          In j (map lower job_skills) /\ In j (map lower resume_skills))
    /\ (forall m, In m (semantic_matches r) ->
          0.6 <= snd m <= 1
          /\ In (fst (fst m)) (map lower job_skills)
          /\ ~ In (fst (fst m)) (direct_matches r))
    /\ (forall j, In j (missing_skills r) ->
          In j (map lower job_skills)
          /\ ~ In j (direct_matches r)
          /\ ~ exists m, In m (semantic_matches r) /\ fst (fst m) = j)
    /\ forall j, In j (map lower job_skills) ->
         In j (direct_matches r)
         \/ (exists m, In m (semantic_matches r) /\ fst (fst m) = j)
         \/ In j (missing_skills r).
Proof.
  destruct (skills_score_bounds model resume_skills job_skills)
    as [r [Hr Hb]].
  exists r. split; [exact Hr|]. split; [exact Hb|].
  unfold calculate_skills_match in Hr. destruct job_skills as [|j0 js].
  - injection Hr as <-. cbn.
    repeat split; try tauto; intros; tauto.
  - remember (map lower (j0 :: js)) as J eqn:EJ.
    remember (map lower resume_skills) as R eqn:ER.
    remember (filter (fun job_skill => mem job_skill R) J) as D eqn:ED.
    destruct (find_semantic_matches model D R J) as [l|] eqn:Hl;
      [|discriminate].
    pose proof (semantic_scores_range model D R J l Hl) as Hrange.
    pose proof (semantic_entries model D R J l Hl) as Hent.
    rewrite Forall_forall in Hrange.
    injection Hr as <-.
    cbn [direct_matches semantic_matches missing_skills].
    split; [|split; [|split]].
    + intro j. rewrite ED, filter_In, mem_In. tauto.
    + intros m Hm. destruct (Hent m Hm) as [H1 H2].
      split; [apply Hrange; exact Hm|]. split; [exact H1|].
      intro Hd. apply mem_In in Hd. congruence.
    + intros j Hj. apply filter_In in Hj. destruct Hj as [HJ Hc].
      apply andb_true_iff in Hc. destruct Hc as [Hc1 Hc2].
      apply negb_true_iff in Hc1, Hc2.
      split; [exact HJ|]. split.
      * intro Hd. apply mem_In in Hd. congruence.
      * intros [m [Hm E]].
        assert (Ht : existsb (fun m => String.eqb j (fst (fst m))) l = true).
        { apply existsb_exists. exists m. split; [exact Hm|].
          apply String.eqb_eq. auto. }
        congruence.
    + intros j HJ.
      destruct (mem j D) eqn:HjD; [left; apply mem_In; exact HjD|].
      destruct (existsb (fun m => String.eqb j (fst (fst m))) l) eqn:Hex.
      * right. left. apply existsb_exists in Hex.
        destruct Hex as [m [Hm E]]. apply String.eqb_eq in E.
        exists m. auto.
      * right. right. apply filter_In. split; [exact HJ|].
        rewrite HjD, Hex. reflexivity.
Qed.

(** X2.  The skills axis compares case-insensitively: two resumes and two
    lists of required skills that agree once lower-cased get the same
    result. *)
Theorem skills_match_ignores_case (model : option backend)
    (resume_skills resume_skills' job_skills job_skills' : list string) :
  map lower resume_skills = map lower resume_skills' ->
  map lower job_skills = map lower job_skills' ->
  calculate_skills_match model resume_skills job_skills
  = calculate_skills_match model resume_skills' job_skills'.
Proof.
  intros HR HJ. unfold calculate_skills_match.
  assert (Hlen : List.length job_skills = List.length job_skills').
  { rewrite <- (length_map lower job_skills), HJ. apply length_map. }
  destruct job_skills as [|a l], job_skills' as [|a' l'];
    try discriminate; [reflexivity|].
  rewrite <- HR, <- HJ, Hlen. reflexivity.
Qed.

(** The theorem at a concrete input. *)
Lemma skills_match_ignores_case_witness :
  map lower ["Python"; "NODE"] = map lower ["python"; "node"]
  /\ map lower ["React"; "python"] = map lower ["react"; "PYTHON"]
  /\ calculate_skills_match None ["Python"; "NODE"] ["React"; "python"]
     = calculate_skills_match None ["python"; "node"] ["react"; "PYTHON"].
Proof.
  assert (H1 : map lower ["Python"; "NODE"] = map lower ["python"; "node"])
    by reflexivity.
  assert (H2 : map lower ["React"; "python"] = map lower ["react"; "PYTHON"])
    by reflexivity.
  split; [exact H1|]. split; [exact H2|].
  exact (skills_match_ignores_case None _ _ _ _ H1 H2).
Defined.

Lemma semantic_all_direct (model : option backend) (d rs js : list string) :
  (forall j, In j js -> mem j d = true) ->
  find_semantic_matches model d rs js = Some [].
Proof.
  induction js as [|j js IH]; intro H; cbn [find_semantic_matches].
  - reflexivity.
  - rewrite (H j) by (left; reflexivity).
    apply IH. intros. apply H. right. assumption.
Qed.

Lemma filter_all {A : Type} (f : A -> bool) (l : list A) :
  (forall x, In x l -> f x = true) -> filter f l = l.
Proof.
  induction l as [|a l IH]; intro H; simpl; [reflexivity|].
  rewrite (H a) by (left; reflexivity). f_equal.
  apply IH. intros. apply H. right. assumption.
Qed.

(** X3.  A resume that has every required skill, compared
    case-insensitively, gets the full skills score with nothing missing,
    whatever the model: the similarity backend is not consulted. *)
Theorem skills_full_coverage (model : option backend)
    (resume_skills job_skills : list string) :
  (forall j, In j job_skills ->
     In (lower j) (map lower resume_skills)) ->
  exists r,
    calculate_skills_match model resume_skills job_skills = Some r
    /\ sm_score r == 1
    /\ direct_matches r = map lower job_skills
    /\ semantic_matches r = []
    /\ missing_skills r = [].
Proof.
  intro H. unfold calculate_skills_match.
  destruct job_skills as [|j0 js].
  - eexists. split; [reflexivity|]. cbn. repeat split.
  - set (J := map lower (j0 :: js)). set (R := map lower resume_skills).
    assert (HJ : forall j, In j J -> mem j R = true).
    { intros j Hj. subst J. apply in_map_iff in Hj.
      destruct Hj as [x [<- Hx]]. apply mem_In. apply H. exact Hx. }
    rewrite (filter_all _ J HJ).
    assert (HD : forall j, In j J -> mem j J = true)
      by (intros; apply mem_In; assumption).
    rewrite (semantic_all_direct model J R J HD).
    eexists. split; [reflexivity|].
    cbn [sm_score direct_matches semantic_matches missing_skills].
    split; [|split; [reflexivity|split; [reflexivity|]]].
    + cbn [List.length Nat.ltb Nat.leb map]. subst J.
      rewrite length_map. cbn [List.length].
      set (n := of_nat (S (List.length js))).
      assert (Hn : 0 < n) by (apply of_nat_pos; lia).
      assert (E : (n + sum []) / n == 1).
      { unfold sum. simpl. field. lra. }
      destruct (py_min_spec 1.0 (0.8 + (n + sum []) / n * 0.2))
        as [[Hlt ->]|[Hle ->]]; [rewrite E in *|]; lra.
    + apply filter_nil_when. intros j Hj.
      rewrite (HD j Hj). reflexivity.
Qed.

(** The theorem at a concrete input. *)
Lemma skills_full_coverage_witness :
  (forall j, In j ["Python"; "SQL"] ->
     In (lower j) (map lower ["sql"; "python"; "java"]))
  /\ exists r,
       calculate_skills_match (Some failing_model) ["sql"; "python"; "java"]
         ["Python"; "SQL"] = Some r
       /\ sm_score r == 1
       /\ missing_skills r = [].
Proof.
  assert (H : forall j, In j ["Python"; "SQL"] ->
                In (lower j) (map lower ["sql"; "python"; "java"])).
  { intros j [<-|[<-|[]]]; cbn; auto. }
  split; [exact H|].
  destruct (skills_full_coverage (Some failing_model)
              ["sql"; "python"; "java"] ["Python"; "SQL"] H)
    as [r [Hr [Hs [_ [_ Hm]]]]].
  exists r. auto.
Defined.

(** *** Properties of the fallback similarity *)

Lemma word_set_NoDup (text : string) : NoDup (word_set text).
Proof. unfold word_set. apply NoDup_nodup. Qed.

Lemma common_words_sym (a b : list string) :
  NoDup a -> NoDup b ->
  List.length (filter (fun w => mem w b) a)
  = List.length (filter (fun w => mem w a) b).
Proof.
  intros Ha Hb. apply Permutation_length. apply NoDup_Permutation.
  - apply NoDup_filter. exact Ha.
  - apply NoDup_filter. exact Hb.
  - intro x. rewrite !filter_In, !mem_In. tauto.
Qed.

Lemma py_min_compat (a a' b : Q) : a == a' -> py_min a b == py_min a' b.
Proof.
  intro E.
  destruct (py_min_spec a b) as [[H ->]|[H ->]];
    destruct (py_min_spec a' b) as [[H' ->]|[H' ->]]; lra.
Qed.

Lemma jaccard_sym (t1 t2 : string) : jaccard t1 t2 == jaccard t2 t1.
Proof.
  unfold jaccard. cbv zeta.
  rewrite (common_words_sym (word_set t1) (word_set t2)
             (word_set_NoDup t1) (word_set_NoDup t2)).
  apply Qdiv_comp; ring.
Qed.

(** X4.  Without a model the similarity is symmetric. *)
Theorem fallback_similarity_symmetric (text1 text2 : string) :
  exists v w,
    calculate_semantic_similarity None text1 text2 = Some v
    /\ calculate_semantic_similarity None text2 text1 = Some w
    /\ v == w.
Proof.
  destruct (is_empty text1 || is_empty text2) eqn:E.
  - apply orb_true_iff in E.
    assert (H : text1 = "" \/ text2 = "")
      by (destruct E as [E|E]; apply is_empty_true in E; auto).
    exists 0.8, 0.8. split; [apply similarity_empty; exact H|].
    split; [apply similarity_empty; tauto | reflexivity].
  - apply orb_false_iff in E. destruct E as [E1 E2].
    apply is_empty_false in E1, E2.
    destruct (word_set text1) as [|a1 l1] eqn:W1.
    { exists 0.8, 0.8. split; [apply fallback_wordless; auto|].
      split; [apply fallback_wordless; auto | reflexivity]. }
    destruct (word_set text2) as [|a2 l2] eqn:W2.
    { exists 0.8, 0.8. split; [apply fallback_wordless; auto|].
      split; [apply fallback_wordless; auto | reflexivity]. }
    eexists. eexists.
    split; [apply fallback_on_words; congruence|].
    split; [apply fallback_on_words; congruence|].
    apply py_min_compat. rewrite (jaccard_sym text1 text2). reflexivity.
Qed.

(** X5.  Without a model a text that contains a word is fully similar to
    itself. *)
Theorem fallback_similarity_reflexive (text : string) :
  word_set text <> [] ->
  exists v, calculate_semantic_similarity None text text = Some v /\ v == 1.
Proof.
  intro W.
  assert (Hne : text <> "").
  { intros ->. apply W. reflexivity. }
  rewrite (fallback_on_words text text Hne Hne W W).
  eexists. split; [reflexivity|].
  assert (E : jaccard text text == 1).
  { unfold jaccard. cbv zeta.
    rewrite (filter_all (fun w => mem w (word_set text)) (word_set text))
      by (intros; apply mem_In; assumption).
    assert (0 < of_nat (List.length (word_set text))).
    { apply of_nat_pos. destruct (word_set text);
        [congruence | simpl; lia]. }
    field. lra. }
  destruct (py_min_spec (0.75 + jaccard text text * 0.25) 1.0)
    as [[H ->]|[H ->]]; rewrite E in *; lra.
Qed.

(** The theorem at a concrete input. *)
Lemma fallback_similarity_reflexive_witness :
  word_set "Machine Learning" <> []
  /\ exists v,
       calculate_semantic_similarity None "Machine Learning"
         "Machine Learning" = Some v
       /\ v == 1.
Proof.
  assert (H : word_set "Machine Learning" <> [])
    by (vm_compute; discriminate).
  split; [exact H|].
  exact (fallback_similarity_reflexive "Machine Learning" H).
Defined.

(** *** Properties of the experience and education axes *)

(** X6.  The estimated years are never negative and the experience score
    lies in [0.75, 1]; a requirement of zero (or fewer) years gives the full
    score; with a requirement, an experience text of more than 200
    characters counts for at least one year and scores at least 0.8. *)
Theorem experience_match_range (current_year : Z) (text : string)
    (required_years : Z) :
  let m := calculate_experience_match current_year text required_years in
  0 <= estimated_years m
  /\ 0.75 <= em_score m <= 1
  /\ ((required_years <= 0)%Z -> em_score m = 1.0)
  /\ (required_years <> 0%Z -> (200 < String.length text)%nat ->
      1 <= estimated_years m /\ 0.8 <= em_score m).
Proof.
  cbv zeta.
  pose proof (experience_match_bounds current_year text required_years)
    as Hb.
  destruct (estimate_years_floor current_year text) as [H0 H1].
  unfold calculate_experience_match in *.
  destruct (required_years =? 0)%Z eqn:E;
    cbn [estimated_years em_score] in *.
  - apply Z.eqb_eq in E. repeat split; try lra; intros; congruence.
  - split; [exact H0|]. split; [exact Hb|]. split.
    + intro Hr. unfold experience_score.
      assert (Hq : inject_Z required_years <= 0).
      { change 0 with (inject_Z 0). rewrite <- Zle_Qle. exact Hr. }
      assert (Hl : leb (inject_Z required_years)
                     (estimate_years current_year text) = true)
        by (apply leb_true; lra).
      rewrite Hl. reflexivity.
    + intros _ Hlen. specialize (H1 Hlen). split; [exact H1|].
      unfold experience_score.
      repeat match goal with
      | |- context [if leb ?a ?b then _ else _] => destruct (leb a b)
      end; try lra.
      assert (Hl : ltb 0 (estimate_years current_year text) = true)
        by (apply ltb_true; lra).
      rewrite Hl. lra.
Qed.

Lemma level_score_entry (key : string) :
  level_score key <> 0%Z -> In (key, level_score key) education_levels.
Proof.
  unfold level_score.
  destruct (find (fun kv => String.eqb (fst kv) key) education_levels)
    as [kv|] eqn:E; [|congruence].
  intros _. apply find_some in E. destruct E as [Hin Heq].
  apply String.eqb_eq in Heq. destruct kv as [k s]. cbn in *. subst.
  exact Hin.
Qed.

(** X7.  The education score lies in [0.8, 1]; it is 1.0 when no level is
    required, when the required level is none of the known ones, and when
    the education text names the required level. *)
Theorem education_match_range (resume_education required : string) :
  let m := calculate_education_match resume_education required in
  0.8 <= edm_score m <= 1
  /\ (level_score (lower required) = 0%Z -> edm_score m = 1.0)
  /\ (contains (lower required) (lower resume_education) = true ->
      edm_score m = 1.0).
Proof.
  cbv zeta. split; [apply education_match_bounds|].
  assert (Hfull : (level_score (lower required)
                   <= fst (fold_left (detect_level (lower resume_education))
                             education_levels (0%Z, "Unknown")))%Z ->
                  edm_score (calculate_education_match resume_education
                               required) = 1.0).
  { intro Hle. unfold calculate_education_match.
    destruct (is_empty required); [reflexivity|].
    destruct (fold_left (detect_level (lower resume_education))
                education_levels (0%Z, "Unknown")) as [rs dl].
    cbn [fst] in Hle. cbn [edm_score]. cbv zeta.
    assert (E : (rs >=? level_score (lower required))%Z = true)
      by (apply Z.geb_le; exact Hle).
    rewrite E. unfold py_min.
    assert (Hl : ltb (1.0 + (if any_in relevant_fields
                                   (lower resume_education)
                             then 0.1 else 0)) 1.0 = false).
    { apply ltb_false. destruct (any_in _ _); lra. }
    rewrite Hl. reflexivity. }
  destruct (detect_levels_mono (lower resume_education) education_levels
              (0%Z, "Unknown")) as [H0 Hin]. cbn [fst] in H0.
  split.
  - intro Hz. apply Hfull. rewrite Hz. exact H0.
  - intro Hc. apply Hfull.
    destruct (Z.eq_dec (level_score (lower required)) 0) as [Hz|Hnz].
    + rewrite Hz. exact H0.
    + apply (Hin (lower required, level_score (lower required)));
        [apply level_score_entry; exact Hnz | exact Hc].
Qed.

(** *** Properties of the keyword axis and of the aggregation *)

(** X9.  Keyword relevance lies in [0.5, 1] for a model whose cosine lies in
    [-1, 1], and in [0.75, 1] without a model. *)
Theorem keyword_relevance_range (model : option backend)
    (resume_text job_description : string) :
  cosine_in_range model ->
  0.5 <= calculate_keyword_relevance model resume_text job_description <= 1
  /\ (model = None ->
      0.75 <= calculate_keyword_relevance model resume_text job_description).
Proof. apply keyword_relevance_bounds. Qed.

Lemma constant_model_in_range (c : Q) :
  -1 <= c <= 1 -> cosine_in_range (Some (constant_model c)).
Proof.
  intros Hc m a b s Hm Hs. injection Hm as <-. simpl in Hs.
  injection Hs as <-. exact Hc.
Defined.

(** The theorem at a concrete input. *)
Lemma keyword_relevance_range_witness :
  cosine_in_range (Some (constant_model (-1)))
  /\ 0.5 <= calculate_keyword_relevance (Some (constant_model (-1)))
              "Python developer"
              "We are looking for a Python developer. Join our team today!"
     <= 1.
Proof.
  assert (H : cosine_in_range (Some (constant_model (-1)))).
  { apply constant_model_in_range. split; vm_compute; discriminate. }
  split; [exact H|].
  exact (proj1 (keyword_relevance_range (Some (constant_model (-1)))
                  "Python developer"
                  "We are looking for a Python developer. Join our team today!"
                  H)).
Defined.

(** X10.  [normalize_score] maps every score into the given range, clamping
    scores outside [0, 1], and is monotone. *)
Theorem normalize_score_range (score score' min_score max_score : Q) :
  min_score <= max_score ->
  min_score <= normalize_score score min_score max_score <= max_score
  /\ (score <= score' ->
      normalize_score score min_score max_score
      <= normalize_score score' min_score max_score)
  /\ (score <= 0 -> normalize_score score min_score max_score == min_score)
  /\ (1 <= score -> normalize_score score min_score max_score == max_score)
  /\ (0 <= score <= 1 ->
      normalize_score score min_score max_score
      == min_score + score * (max_score - min_score)).
Proof.
  intro Hmm. unfold normalize_score. cbv zeta.
  assert (Hc : forall s,
            (s <= 0 /\ py_max 0.0 (py_min 1.0 s) == 0)
            \/ (1 <= s /\ py_max 0.0 (py_min 1.0 s) == 1)
            \/ (0 <= s <= 1 /\ py_max 0.0 (py_min 1.0 s) == s)).
  { intro s. unfold py_min. cmp_lt s 1.0.
    - unfold py_max. cmp_lt 0.0 s.
      + right. right. split; [lra | reflexivity].
      + left. split; [lra | reflexivity].
    - right. left. split; [lra | vm_compute; reflexivity]. }
  destruct (Hc score) as [[H E]|[[H E]|[H E]]];
    destruct (Hc score') as [[H' E']|[[H' E']|[H' E']]];
    rewrite E, E'; repeat split; intros; try nra; try lra.
Qed.

(** The theorem at a concrete input. *)
Lemma normalize_score_range_witness :
  0.75 <= 0.95
  /\ 0.75 <= normalize_score 1.3 0.75 0.95 <= 0.95.
Proof.
  assert (H : 0.75 <= 0.95) by (vm_compute; discriminate).
  split; [exact H|].
  exact (proj1 (normalize_score_range 1.3 1.3 0.75 0.95 H)).
Defined.


(** X12.  For a model whose cosine lies in [-1, 1] the raw weighted score
    lies in [0.7125, 1] (from 0.775 without a model), so the lowest
    calibration value is never reported: an unlisted resume gets the mean of
    the table or min(mean + 2.0, 85.0). *)
Theorem unlisted_score_two_values (model : option backend)
    (current_year : Z) (resume : ResumeParser.resume_data)
    (job : JobRequirementsParser.job_data) :
  cosine_in_range model -> unlisted resume ->
  exists r c,
    match_resume_with_job model current_year resume job = Some r
    /\ component_scores model current_year resume job = Some c
    /\ 0.7125 <= overall_score_of c <= 1
    /\ (model = None -> 0.775 <= overall_score_of c)
    /\ (match_score r = avg_expected
        \/ match_score r = py_min (avg_expected + 2.0) 85.0).
Proof.
  intros Hcos Hun.
  destruct (components_total model current_year resume job) as [c Hc].
  destruct (match_result_of model current_year resume job c Hc)
    as [r [Hr Hs]].
  destruct (overall_score_bounds model current_year resume job c Hcos Hc)
    as [Hb Hf].
  exists r, c. split; [exact Hr|]. split; [exact Hc|].
  split; [exact Hb|]. split; [exact Hf|].
  rewrite (calibrate_unlisted _ _ (expected_score_unlisted _ Hun)) in Hs.
  destruct (ltb 0.85 (overall_score_of c)); [right; exact Hs|].
  assert (E : ltb 0.7 (overall_score_of c) = true) by (apply ltb_true; lra).
  rewrite E in Hs. left. exact Hs.
Qed.

(** The theorem at a concrete input. *)
Lemma unlisted_score_two_values_witness :
  cosine_in_range (Some (constant_model (-1)))
  /\ unlisted ResumeParser.john_doe
  /\ exists r,
       match_resume_with_job (Some (constant_model (-1))) 2025
         ResumeParser.john_doe python_profile = Some r
       /\ (match_score r = avg_expected
           \/ match_score r = py_min (avg_expected + 2.0) 85.0).
Proof.
  assert (H : cosine_in_range (Some (constant_model (-1)))).
  { apply constant_model_in_range. split; vm_compute; discriminate. }
  split; [exact H|]. split; [exact unlisted_john_doe|].
  destruct (unlisted_score_two_values (Some (constant_model (-1))) 2025
              ResumeParser.john_doe python_profile H unlisted_john_doe)
    as [r [c [Hr [_ [_ [_ Hv]]]]]].
  exists r. split; assumption.
Defined.

(** *** Key phrases *)

Lemma in_firstn {A : Type} (n : nat) (l : list A) (x : A) :
  In x (firstn n l) -> In x l.
Proof.
  intro H. rewrite <- (firstn_skipn n l). apply in_or_app. left. exact H.
Qed.

Lemma insert_desc_perm (x : nat * Q) (l : list (nat * Q)) :
  Permutation (insert_desc x l) (x :: l).
Proof.
  induction l as [|y l IH]; simpl; [reflexivity|].
  destruct (leb (snd x) (snd y)).
  - rewrite IH. apply perm_swap.
  - reflexivity.
Qed.

Lemma sort_desc_perm (l : list (nat * Q)) : Permutation (sort_desc l) l.
Proof.
  unfold sort_desc.
  assert (H : forall acc,
            Permutation (fold_left (fun sorted x => insert_desc x sorted)
                           l acc) (l ++ acc)).
  { induction l as [|x l IH]; intro acc; simpl; [reflexivity|].
    rewrite IH, insert_desc_perm. symmetry. apply Permutation_middle. }
  rewrite H, app_nil_r. reflexivity.
Qed.

Lemma top_sentences_spec (sentences : list string)
    (score : nat -> Q) (max_phrases : nat) :
  let ps := top_sentences sentences
              (map (fun i => (i, score i))
                   (List.seq 0 (List.length sentences))) max_phrases in
  List.length ps = Nat.min max_phrases (List.length sentences)
  /\ forall p, In p ps -> In p sentences.
Proof.
  cbv zeta. unfold top_sentences.
  set (scores := map (fun i => (i, score i))
                     (List.seq 0 (List.length sentences))).
  pose proof (sort_desc_perm scores) as Hp.
  split.
  - rewrite length_map, length_firstn, (Permutation_length Hp).
    subst scores. rewrite length_map, length_seq. reflexivity.
  - intros p Hin. apply in_map_iff in Hin. destruct Hin as [x [<- Hx]].
    apply in_firstn in Hx.
    apply (Permutation_in _ Hp) in Hx. subst scores.
    apply in_map_iff in Hx. destruct Hx as [i [<- Hi]]. cbn [fst].
    apply in_seq in Hi. apply nth_In. lia.
Qed.

(** X8.  The key phrases are sentences of the text, stripped and longer than
    10 characters; there are as many as there are such sentences, up to the
    maximum, in every mode and also when the model raises. *)
Theorem key_phrases_are_sentences (model : option backend) (text : string)
    (max_phrases : nat) :
  let sentences :=
    map strip
      (filter (fun s => (10 <? String.length (strip s))%nat)
              (split_on (one_of ".!?") text)) in
  let phrases := extract_key_phrases model text max_phrases in
  List.length phrases = Nat.min max_phrases (List.length sentences)
  /\ forall p, In p phrases ->
       In p sentences /\ (10 < String.length p)%nat.
Proof.
  cbv zeta. unfold extract_key_phrases.
  set (sentences := map strip
         (filter (fun s => (10 <? String.length (strip s))%nat)
                 (split_on (one_of ".!?") text))).
  assert (Hlong : forall p, In p sentences -> (10 < String.length p)%nat).
  { intros p Hp. subst sentences. apply in_map_iff in Hp.
    destruct Hp as [s [<- Hs]]. apply filter_In in Hs.
    destruct Hs as [_ Hs]. apply Nat.ltb_lt in Hs. exact Hs. }
  destruct sentences as [|s0 rest] eqn:E.
  - split; [rewrite Nat.min_0_r; reflexivity | intros p []].
  - rewrite <- E in *. clear E.
    assert (Hgoal : forall ps,
              (List.length ps = Nat.min max_phrases (List.length sentences)
               /\ forall p, In p ps -> In p sentences) ->
              List.length ps = Nat.min max_phrases (List.length sentences)
              /\ forall p, In p ps ->
                   In p sentences /\ (10 < String.length p)%nat).
    { intros ps [H1 H2]. split; [exact H1|]. intros p Hp.
      specialize (H2 p Hp). split; [exact H2 | apply Hlong; exact H2]. }
    apply Hgoal. destruct model as [m|].
    + destruct (centrality m sentences) as [score|].
      * apply (top_sentences_spec sentences score max_phrases).
      * split.
        -- rewrite length_firstn. lia.
        -- intros p Hp. apply in_firstn in Hp. exact Hp.
    + match goal with
      | |- context [map ?f (List.seq 0 (List.length sentences))] =>
          assert (Hf : map f (List.seq 0 (List.length sentences))
                       = map (fun i => (i, snd (f i)))
                             (List.seq 0 (List.length sentences)))
            by reflexivity;
          rewrite Hf;
          apply (top_sentences_spec sentences (fun i => snd (f i))
                   max_phrases)
      end.
Qed.

(** *** The ranked output *)


Lemma insert_result_sorted (x : match_result) (l : list match_result) :
  ranked l -> ranked (insert_result x l).
Proof.
  unfold ranked. induction l as [|y l IH]; intro H; simpl.
  - repeat constructor.
  - cmp_le (match_score x) (match_score y).
    + inversion H as [|? ? Hs Hh]; subst. specialize (IH Hs).
      constructor; [exact IH|].
      destruct l as [|z l]; simpl.
      * constructor. exact E.
      * destruct (leb (match_score x) (match_score z)); constructor.
        -- inversion Hh; subst. assumption.
        -- exact E.
    + constructor; [exact H|]. constructor. lra.
Qed.


Lemma component_bounds (model : option backend) (current_year : Z)
    (resume : ResumeParser.resume_data) (job : JobRequirementsParser.job_data)
    (c : components) :
  component_scores model current_year resume job = Some c ->
  0.8 <= sm_score (c_skills c) <= 1
  /\ 0.75 <= em_score (c_experience c) <= 1
  /\ 0.8 <= edm_score (c_education c) <= 1
  /\ c_semantic_similarity c <= 1
  /\ (model = None -> 0.75 <= c_semantic_similarity c).
Proof.
  intro Hc. unfold component_scores in Hc.
  destruct (skills_score_bounds model (ResumeParser.skills resume)
              (JobRequirementsParser.required_skills job)) as [s [Hs Hsb]].
  rewrite Hs in Hc.
  destruct (similarity_total model (ResumeParser.full_text resume)
              (JobRequirementsParser.full_description job))
    as [v [Hv Hle]].
  rewrite Hv in Hc. injection Hc as <-.
  cbn [c_skills c_experience c_education c_semantic_similarity].
  split; [exact Hsb|].
  split; [apply experience_match_bounds|].
  split; [apply education_match_bounds|].
  split; [exact Hle|].
  intros ->. apply (fallback_floor _ _ v Hv).
Qed.

Lemma match_all_spec (model : option backend) (current_year : Z)
    (job : JobRequirementsParser.job_data)
    (l : list ResumeParser.resume_data) :
  exists rs,
    match_all model current_year job l = Some rs
    /\ Forall2 (fun resume r =>
                  match_resume_with_job model current_year resume job
                  = Some r) l rs.
Proof.
  induction l as [|resume l [rs [IH Hn]]]; simpl.
  - exists []. split; [reflexivity | constructor].
  - destruct (components_total model current_year resume job) as [c Hc].
    destruct (match_result_of model current_year resume job c Hc)
      as [r [Hr _]].
    rewrite Hr, IH. exists (r :: rs). split; [reflexivity|].
    constructor; assumption.
Qed.



Lemma ranked_below (y : match_result) (l : list match_result) :
  ranked (y :: l) -> Forall (fun z => match_score z <= match_score y) l.
Proof.
  intro H. apply Sorted_StronglySorted in H.
  - inversion H; subst. assumption.
  - intros a b c Hab Hbc. lra.
Qed.

Lemma ranked_tail (y : match_result) (l : list match_result) :
  ranked (y :: l) -> ranked l.
Proof. intro H. inversion H; subst. assumption. Qed.

Lemma insert_result_ties (v : Q) (x : match_result)
    (l : list match_result) :
  ranked l ->
  filter (fun r => Qeq_bool (match_score r) v) (insert_result x l)
  = filter (fun r => Qeq_bool (match_score r) v) l
    ++ filter (fun r => Qeq_bool (match_score r) v) [x].
Proof.
  induction l as [|y l IH]; intro Hs; [reflexivity|].
  cbn [insert_result]. cmp_le (match_score x) (match_score y).
  - cbn [filter]. rewrite (IH (ranked_tail _ _ Hs)).
    destruct (Qeq_bool (match_score y) v); reflexivity.
  - cbn [filter app].
    destruct (Qeq_bool (match_score x) v) eqn:Ex;
      [|rewrite app_nil_r; reflexivity].
    apply Qeq_bool_iff in Ex.
    assert (Hnone : filter (fun r => Qeq_bool (match_score r) v) (y :: l)
                    = []).
    { pose proof (ranked_below y l Hs) as Hb. rewrite Forall_forall in Hb.
      apply MPNetResumeMatcherFacts.filter_nil_when. intros z Hz.
      destruct (Qeq_bool (match_score z) v) eqn:Ez; [|reflexivity].
      apply Qeq_bool_iff in Ez. exfalso.
      destruct Hz as [<-|Hz]; [lra|]. specialize (Hb z Hz). lra. }
    cbn [filter] in Hnone. rewrite Hnone. reflexivity.
Qed.

Lemma ranking_ties (v : Q) (l acc : list match_result) :
  ranked acc ->
  filter (fun r => Qeq_bool (match_score r) v)
         (fold_left (fun sorted x => insert_result x sorted) l acc)
  = filter (fun r => Qeq_bool (match_score r) v) (acc ++ l).
Proof.
  revert acc. induction l as [|x l IH]; intros acc Ha; cbn [fold_left].
  - rewrite app_nil_r. reflexivity.
  - rewrite (IH _ (insert_result_sorted x acc Ha)).
    rewrite !filter_app, (insert_result_ties v x acc Ha).
    rewrite <- app_assoc. f_equal.
    change (x :: l) with ([x] ++ l). rewrite filter_app. reflexivity.
Qed.

(** X14.  Resumes with the same score keep the order in which they were
    parsed: for every score, the results with that score appear in the
    ranking as in the list of matches before sorting. *)
Theorem ranking_keeps_order_of_ties (model : option backend)
    (current_year : Z) (ner : string -> list (string * string))
    (fs : ResumeParser.filesystem) (resumes_dir : string)
    (job_json : JobRequirementsParser.job_record) :
  exists unsorted results,
    match_all model current_year
      (JobRequirementsParser.parse_job_requirements ner job_json)
      (ResumeParser.parse_resumes_in_directory fs resumes_dir)
    = Some unsorted
    /\ match_resumes_with_job model current_year ner fs resumes_dir job_json
       = Some results
    /\ forall v,
         filter (fun r => Qeq_bool (match_score r) v) results
         = filter (fun r => Qeq_bool (match_score r) v) unsorted.
Proof.
  unfold match_resumes_with_job.
  destruct (match_all_spec model current_year
              (JobRequirementsParser.parse_job_requirements ner job_json)
              (ResumeParser.parse_resumes_in_directory fs resumes_dir))
    as [rs [-> _]].
  exists rs. eexists. split; [reflexivity|]. split; [reflexivity|].
  intro v. apply (ranking_ties v rs [] (Sorted_nil _)).
Qed.

(** X15.  The parser replaces the email of a resume whose file name contains
    Ahmed_Zaki_Eldin.pdf by a fixed truncated address, and the matcher then
    reports no email at all for it. *)
Theorem zaki_email_discarded (model : option backend) (current_year : Z)
    (fs : ResumeParser.filesystem) (job : JobRequirementsParser.job_data)
    (file_path : string) :
  contains "Ahmed_Zaki_Eldin.pdf" (ResumeParser.basename file_path) = true ->
  (ResumeParser.extract_text fs file_path <> "" ->
   ResumeParser.email (ResumeParser.parse_resume fs file_path)
   = "oussof92@gmail.c")
  /\ exists r,
       match_resume_with_job model current_year
         (ResumeParser.parse_resume fs file_path) job = Some r
       /\ mr_email r = "".
Proof.
  intro Hz. split.
  - intro Ht. unfold ResumeParser.parse_resume.
    destruct (is_empty (ResumeParser.extract_text fs file_path)) eqn:E.
    + apply is_empty_true in E. contradiction.
    + cbn [ResumeParser.email]. rewrite Hz. reflexivity.
  - destruct (components_total model current_year
                (ResumeParser.parse_resume fs file_path) job) as [c Hc].
    unfold match_resume_with_job. rewrite Hc.
    eexists. split; [reflexivity|]. cbn [mr_email].
    rewrite ResumeParserFacts.parse_resume_name, Hz. reflexivity.
Qed.

(** The theorem at a concrete input. *)
Lemma zaki_email_discarded_witness :
  contains "Ahmed_Zaki_Eldin.pdf"
    (ResumeParser.basename "resumes/Ahmed_Zaki_Eldin.pdf") = true
  /\ exists r,
       match_resume_with_job None 2025
         (ResumeParser.parse_resume archive_fs "resumes/Ahmed_Zaki_Eldin.pdf")
         python_profile = Some r
       /\ mr_email r = "".
Proof.
  assert (H : contains "Ahmed_Zaki_Eldin.pdf"
                (ResumeParser.basename "resumes/Ahmed_Zaki_Eldin.pdf")
              = true) by reflexivity.
  split; [exact H|].
  exact (proj2 (zaki_email_discarded None 2025 archive_fs python_profile
                  "resumes/Ahmed_Zaki_Eldin.pdf" H)).
Defined.

End MatcherProperties.

(** ** resume_parser/resume_parser.py *)

Module ResumeParserProperties.
Import Str Re ResumeParser Statements ResumeParserFacts ReFacts.

(** *** Substrings *)

Lemma is_prefix_app (p s : string) :
  is_prefix p s = true <-> exists post, s = String.append p post.
Proof.
  revert s. induction p as [|a p IH]; intro s; simpl.
  - split; [intros _; exists s; reflexivity | reflexivity].
  - destruct s as [|b s].
    + split; [discriminate | intros [post H]; discriminate].
    + rewrite andb_true_iff, IH. split.
      * intros [E [post ->]]. apply Ascii.eqb_eq in E. subst.
        exists post. reflexivity.
      * intros [post H]. injection H as -> ->.
        split; [apply Ascii.eqb_refl | exists post; reflexivity].
Qed.

Lemma contains_app (needle hay : string) :
  contains needle hay = true
  <-> exists pre post,
        hay = String.append pre (String.append needle post).
Proof.
  induction hay as [|c hay IH].
  - simpl. rewrite orb_false_r, is_prefix_app. split.
    + intros [post H]. exists "", post. exact H.
    + intros [pre [post H]]. destruct pre; [exists post; exact H|].
      discriminate.
  - cbn [contains]. rewrite orb_true_iff, IH, is_prefix_app. split.
    + intros [[post H]|[pre [post H]]].
      * exists "", post. exact H.
      * exists (String c pre), post. simpl. rewrite H. reflexivity.
    + intros [pre [post H]]. destruct pre as [|a pre].
      * left. exists post. exact H.
      * right. simpl in H. injection H as _ H. exists pre, post. exact H.
Qed.

Lemma append_assoc (a b c : string) :
  String.append (String.append a b) c = String.append a (String.append b c).
Proof. induction a; simpl; congruence. Qed.

(** A substring of a substring is a substring. *)
Lemma contains_trans (a b t : string) :
  contains a b = true -> contains b t = true -> contains a t = true.
Proof.
  rewrite !contains_app. intros [p1 [q1 ->]] [p2 [q2 ->]].
  exists (String.append p2 p1), (String.append q1 q2).
  rewrite !append_assoc. reflexivity.
Qed.

Lemma lower_char_idem (c : ascii) : lower_char (lower_char c) = lower_char c.
Proof. destruct c as [[] [] [] [] [] [] [] []]; reflexivity. Qed.

Lemma lower_idem (s : string) : lower (lower s) = lower s.
Proof.
  induction s as [|c s IH]; simpl; [reflexivity|].
  rewrite lower_char_idem, IH. reflexivity.
Qed.

Lemma common_skills_NoDup : NoDup common_skills.
Proof.
  assert (E : nodup string_dec common_skills = common_skills)
    by (vm_compute; reflexivity).
  rewrite <- E. apply NoDup_nodup.
Qed.

(** *** Skills *)

(** X16.  The skills found in a text are the vocabulary entries that occur
    in the lower-cased text, each once and in vocabulary order; the scan
    ignores case, and an entry is found whenever a longer entry that
    contains it is found (java with javascript, git with github, sql with
    mysql). *)
Theorem extract_skills_vocabulary (text : string) :
  let found := extract_skills text in
  NoDup found
  /\ (forall s, In s found <->
        In s common_skills /\ contains s (lower text) = true)
  /\ extract_skills (lower text) = found
  /\ forall a b, In a common_skills -> In b found ->
       contains a b = true -> In a found.
Proof.
  cbv zeta. unfold extract_skills. cbv zeta. split; [|split; [|split]].
  - apply NoDup_filter. apply common_skills_NoDup.
  - intro s. rewrite filter_In. tauto.
  - rewrite lower_idem. reflexivity.
  - intros a b Ha Hb Hab. apply filter_In in Hb. destruct Hb as [_ Hb].
    apply filter_In. split; [exact Ha|].
    apply (contains_trans a b _ Hab Hb).
Qed.

(** *** Sections *)

Lemma strip_empty : strip "" = "".
Proof. reflexivity. Qed.

(** X17.  Without a header line no section is captured: a text none of whose
    lines mentions education, academic or qualification has an empty
    education section, and one none of whose lines mentions experience,
    employment or work history has an empty experience section. *)
Theorem sections_need_header (text : string) :
  ((forall line, In line (lines text) ->
      any_in ["education"; "academic"; "qualification"] (lower line) = false)
   -> extract_education text = "")
  /\ ((forall line, In line (lines text) ->
         any_in ["experience"; "employment"; "work history"] (lower line)
         = false)
      -> extract_experience text = "").
Proof.
  split; intro H.
  - unfold extract_education.
    assert (E : forall l, (forall line, In line l ->
                   any_in ["education"; "academic"; "qualification"]
                     (lower line) = false) ->
                forall f, (forall st line,
                   any_in ["education"; "academic"; "qualification"]
                     (lower line) = false ->
                   st = (false, "") -> f st line = (false, "")) ->
                fold_left f l (false, "") = (false, "")).
    { induction l as [|x l IH]; intros Hl f Hf; simpl; [reflexivity|].
      rewrite (Hf (false, "") x (Hl x (or_introl eq_refl)) eq_refl).
      apply IH; [intros; apply Hl; right; assumption | exact Hf]. }
    rewrite (E (lines text) H); [reflexivity|].
    intros st line Hline ->. cbv beta iota zeta. rewrite Hline. reflexivity.
  - unfold extract_experience.
    assert (E : forall l, (forall line, In line l ->
                   any_in ["experience"; "employment"; "work history"]
                     (lower line) = false) ->
                forall f, (forall st line,
                   any_in ["experience"; "employment"; "work history"]
                     (lower line) = false ->
                   st = (false, "") -> f st line = (false, "")) ->
                fold_left f l (false, "") = (false, "")).
    { induction l as [|x l IH]; intros Hl f Hf; simpl; [reflexivity|].
      rewrite (Hf (false, "") x (Hl x (or_introl eq_refl)) eq_refl).
      apply IH; [intros; apply Hl; right; assumption | exact Hf]. }
    rewrite (E (lines text) H); [reflexivity|].
    intros st line Hline ->. cbv beta iota zeta. rewrite Hline. reflexivity.
Qed.

(** The theorem at a concrete input. *)
Lemma sections_need_header_witness :
  extract_education (String.append "Jane Roe" (String.append nl "Python"))
  = ""
  /\ extract_experience (String.append "Jane Roe" (String.append nl "Python"))
     = "".
Proof.
  destruct (sections_need_header
              (String.append "Jane Roe" (String.append nl "Python")))
    as [He Hx].
  split; [apply He | apply Hx];
    intros line Hin; vm_compute in Hin;
    destruct Hin as [<-|[<-|[]]]; reflexivity.
Defined.

(** *** The directory *)

(** X18.  The list of parsed resumes is never empty: it has one entry per
    collected file, plus the John Doe entry when no collected path contains
    John_Doe_Resume.pdf; every entry but that one is named after its file. *)
Theorem parsed_resumes_never_empty (fs : filesystem)
    (directory_path : string) :
  let files := resume_files fs directory_path in
  let parsed := parse_resumes_in_directory fs directory_path in
  parsed <> []
  /\ List.length parsed
     = (List.length files + if john_doe_exists files then 0 else 1)%nat
  /\ (john_doe_exists files = true ->
      map resume_name parsed = map basename files)
  /\ (john_doe_exists files = false ->
      map resume_name parsed = "John_Doe_Resume.pdf" :: map basename files).
Proof.
  cbv zeta. unfold parse_resumes_in_directory.
  assert (Hn : map resume_name (map (parse_resume fs)
                                    (resume_files fs directory_path))
               = map basename (resume_files fs directory_path)).
  { rewrite map_map. apply map_ext. intro p. apply parse_resume_name. }
  destruct (john_doe_exists (resume_files fs directory_path)) eqn:E.
  - split; [|split; [|split]].
    + unfold john_doe_exists in E. apply existsb_exists in E.
      destruct E as [p [Hp _]].
      destruct (resume_files fs directory_path); [destruct Hp|].
      discriminate.
    + cbn [app]. rewrite length_map. lia.
    + intros _. exact Hn.
    + discriminate.
  - split; [discriminate|]. split; [|split].
    + cbn [app List.length]. rewrite length_map. lia.
    + discriminate.
    + intros _. cbn [app map]. rewrite Hn. reflexivity.
Qed.

(** *** Email and phone *)

Lemma append_chars (a b : string) :
  chars (String.append a b) = chars a ++ chars b.
Proof. induction a as [|c a IH]; simpl; [reflexivity|]. f_equal. exact IH. Qed.

Lemma length_chars (s : string) : List.length (chars s) = String.length s.
Proof. induction s as [|c s IH]; simpl; [reflexivity|]. f_equal. exact IH. Qed.

Lemma nonempty_length {A : Type} (l : list A) :
  (1 <= List.length l)%nat -> l <> [].
Proof. destruct l; simpl; [lia | discriminate]. Qed.

(** X19.  The extracted email is empty or the first substring of the text of
    the form local@domain.tld, where local and domain are non-empty runs of
    word characters, dots and hyphens and tld is a non-empty run of word
    characters; a text without an at sign has no email. *)
Theorem extracted_email_shape (text : string) :
  let name := fun c => is_word c || one_of ".-" c in
  (ResumeParser.extract_email text = ""
   \/ exists pre local domain tld post,
        chars text
        = pre ++ (local ++ "@"%char :: domain ++ "."%char :: tld) ++ post
        /\ ResumeParser.extract_email text
           = of_chars (local ++ "@"%char :: domain ++ "."%char :: tld)
        /\ local <> [] /\ domain <> [] /\ tld <> []
        /\ forallb name local = true /\ forallb name domain = true
        /\ forallb is_word tld = true)
  /\ (~ In "@"%char (chars text) -> ResumeParser.extract_email text = "").
Proof.
  cbv zeta.
  assert (Hshape :
    ResumeParser.extract_email text = ""
    \/ exists pre local domain tld post,
         chars text
         = pre ++ (local ++ "@"%char :: domain ++ "."%char :: tld) ++ post
         /\ ResumeParser.extract_email text
            = of_chars (local ++ "@"%char :: domain ++ "."%char :: tld)
         /\ local <> [] /\ domain <> [] /\ tld <> []
         /\ forallb (fun c => is_word c || one_of ".-" c) local = true
         /\ forallb (fun c => is_word c || one_of ".-" c) domain = true
         /\ forallb is_word tld = true).
  { unfold ResumeParser.extract_email, findall.
    destruct (finditer ResumeParser.email_pattern text) as [|m ms] eqn:E;
      [left; reflexivity|].
    right.
    assert (Hin : In m (finditer ResumeParser.email_pattern text))
      by (rewrite E; left; reflexivity).
    apply finditer_sound in Hin.
    destruct Hin as [pre [w [post [Ht [Hw [Hwhole _]]]]]].
    unfold ResumeParser.email_pattern in Hw. cbn [seq accepts] in Hw.
    destruct Hw as [local [w1 [-> [[Hl [Hn _]] Hw]]]].
    destruct Hw as [at_ [w2 [-> [-> Hw]]]].
    destruct Hw as [domain [w3 [-> [[Hd [Hdn _]] Hw]]]].
    destruct Hw as [dot [tld [-> [-> [Ht1 [Htn _]]]]]].
    exists pre, local, domain, tld, post.
    cbn [ResumeParser.first_or_empty map]. rewrite Hwhole.
    split; [exact Ht|]. split; [reflexivity|].
    repeat split; auto using nonempty_length. }
  split; [exact Hshape|].
  intro Hno. destruct Hshape as [H|[pre [l [d [t [post [Ht _]]]]]]];
    [exact H|].
  exfalso. apply Hno. rewrite Ht. apply in_or_app. right.
  apply in_or_app. left. apply in_or_app. right. left. reflexivity.
Qed.

(** X20.  The extracted phone is never the number itself: it is the text of
    the one group of the pattern, the country prefix, so it is empty or a
    plus sign, one to three digits and at most one separator, five
    characters at most. *)
Theorem extracted_phone_is_prefix (text : string) :
  (String.length (ResumeParser.extract_phone text) <= 5)%nat
  /\ (ResumeParser.extract_phone text = ""
      \/ exists digits sep,
           ResumeParser.extract_phone text
           = of_chars ("+"%char :: digits ++ sep)
           /\ (1 <= List.length digits <= 3)%nat
           /\ forallb is_digit digits = true
           /\ (sep = []
               \/ exists c, sep = [c]
                            /\ one_of "-." c || is_space c = true)).
Proof.
  assert (Hshape :
    ResumeParser.extract_phone text = ""
    \/ exists digits sep,
         ResumeParser.extract_phone text
         = of_chars ("+"%char :: digits ++ sep)
         /\ (1 <= List.length digits <= 3)%nat
         /\ forallb is_digit digits = true
         /\ (sep = []
             \/ exists c, sep = [c]
                          /\ one_of "-." c || is_space c = true)).
  { unfold ResumeParser.extract_phone, findall_group.
    destruct (finditer ResumeParser.phone_pattern text) as [|m ms] eqn:E;
      [left; reflexivity|].
    assert (Hin : In m (finditer ResumeParser.phone_pattern text))
      by (rewrite E; left; reflexivity).
    apply finditer_sound in Hin.
    destruct Hin as [pre [w [post [_ [_ [_ Hg]]]]]].
    cbn [ResumeParser.first_or_empty map].
    destruct Hg as [->|[g [-> Hg]]]; [left; reflexivity|].
    right. unfold ResumeParser.phone_pattern, times in Hg.
    cbn [seq captured accepts] in Hg.
    repeat match goal with
           | H : _ \/ _ |- _ => destruct H
           | H : False |- _ => destruct H
           end.
    match goal with H : exists _, _ |- _ => rename H into Hg end.
    destruct Hg as [plus [w1 [-> [-> Hg]]]].
    destruct Hg as [digits [sep [-> [[Hd [Hlo Hhi]] Hsep]]]].
    exists digits, sep. split; [reflexivity|]. split; [lia|].
    split; [exact Hd|]. destruct Hsep as [->|[c [-> Hc]]]; [left; auto|].
    right. exists c. auto. }
  split; [|exact Hshape].
  destruct Hshape as [->|[digits [sep [-> [Hn [_ Hsep]]]]]]; [simpl; lia|].
  rewrite <- length_chars,
    ResumeParserFacts.chars_of_chars.
  cbn [List.length]. rewrite length_app.
  destruct Hsep as [->|[c [-> _]]]; cbn [List.length]; lia.
Qed.

(** *** Unsupported files *)

(** X21.  A file whose extension is none of .pdf, .docx and .doc, in any
    case of letters, is not read: it is parsed to its name and empty fields. *)
Theorem unsupported_file_parses_empty (fs : ResumeParser.filesystem)
    (file_path : string) :
  mem (lower (ResumeParser.extension file_path)) [".pdf"; ".docx"; ".doc"]
  = false ->
  ResumeParser.extract_text fs file_path = ""
  /\ ResumeParser.parse_resume fs file_path
     = {| ResumeParser.resume_name := ResumeParser.basename file_path;
          ResumeParser.email := ""; ResumeParser.phone := "";
          ResumeParser.skills := []; ResumeParser.education := "";
          ResumeParser.experience := ""; ResumeParser.full_text := "" |}.
Proof.
  intro H.
  assert (E : ResumeParser.extract_text fs file_path = "").
  { unfold ResumeParser.extract_text. cbv zeta.
    cbn [mem existsb] in H |- *.
    apply orb_false_iff in H. destruct H as [H1 H2].
    rewrite H1, H2. reflexivity. }
  split; [exact E|]. unfold ResumeParser.parse_resume. rewrite E.
  reflexivity.
Qed.

(** The theorem at a concrete input. *)
Lemma unsupported_file_parses_empty_witness :
  mem (lower (ResumeParser.extension "resumes/notes.TXT"))
      [".pdf"; ".docx"; ".doc"] = false
  /\ ResumeParser.extract_text archive_fs "resumes/notes.TXT" = "".
Proof.
  assert (H : mem (lower (ResumeParser.extension "resumes/notes.TXT"))
                  [".pdf"; ".docx"; ".doc"] = false) by reflexivity.
  split; [exact H|].
  exact (proj1 (unsupported_file_parses_empty archive_fs
                  "resumes/notes.TXT" H)).
Defined.

End ResumeParserProperties.

(** ** job_requirements_parser.py *)

Module JobRequirementsParserProperties.
Import Str Re JobRequirementsParser Statements JobRequirementsParserFacts.
Import MPNetResumeMatcherFacts ResumeParserProperties ReFacts.

(** *** The vocabulary scan *)

Lemma vocabulary_NoDup : NoDup common_skills.
Proof. exact common_skills_NoDup. Qed.

Lemma NoDup_snoc (l : list string) (x : string) :
  NoDup l -> ~ In x l -> NoDup (l ++ [x]).
Proof.
  intros Hl Hx. apply NoDup_app; [exact Hl | repeat constructor; auto |].
  intros y Hy [<-|[]]. contradiction.
Qed.

Lemma skills_from_text_spec (ner : string -> list (string * string))
    (text : string) :
  NoDup (extract_skills_from_text ner text)
  /\ (forall s, In s (extract_skills_from_text ner text) ->
        In s common_skills)
  /\ forall s, In s common_skills -> contains s (lower text) = true ->
       In s (extract_skills_from_text ner text).
Proof.
  unfold extract_skills_from_text. cbv zeta.
  set (base := filter (fun skill => contains skill (lower text))
                      common_skills).
  apply (MatcherProperties.fold_left_invariant
           (fun found =>
              NoDup found
              /\ (forall s, In s found -> In s common_skills)
              /\ forall s, In s common_skills ->
                   contains s (lower text) = true -> In s found)).
  - split; [apply NoDup_filter; exact vocabulary_NoDup|]. split.
    + intros s Hs. apply filter_In in Hs. tauto.
    + intros s Hs Hc. apply filter_In. auto.
  - intros found ent [Hnd [Hsub Hall]].
    destruct (String.eqb (snd ent) "PRODUCT" || String.eqb (snd ent) "ORG");
      [|auto].
    destruct (mem (lower (fst ent)) common_skills
              && negb (mem (lower (fst ent)) found)) eqn:E; [|auto].
    apply andb_true_iff in E. destruct E as [E1 E2].
    apply mem_In in E1. apply negb_true_iff in E2.
    split; [|split].
    + apply NoDup_snoc; [exact Hnd|]. intro Hin. apply mem_In in Hin.
      congruence.
    + intros s Hs. apply in_app_or in Hs.
      destruct Hs as [Hs|[<-|[]]]; auto.
    + intros s Hs Hc. apply in_or_app. left. auto.
Qed.

(** X22.  The skills found in a text are distinct entries of the vocabulary
    and include every entry that occurs in the lower-cased text, whatever
    the entity recogniser returns; without entities they are exactly those
    entries, in vocabulary order. *)
Theorem skills_from_text_vocabulary (ner : string -> list (string * string))
    (text : string) :
  let found := extract_skills_from_text ner text in
  NoDup found
  /\ (forall s, In s found -> In s common_skills)
  /\ (forall s, In s common_skills -> contains s (lower text) = true ->
       In s found)
  /\ (ner (lower text) = [] ->
      found = filter (fun skill => contains skill (lower text))
                     common_skills).
Proof.
  cbv zeta. destruct (skills_from_text_spec ner text) as [H1 [H2 H3]].
  split; [exact H1|]. split; [exact H2|]. split; [exact H3|].
  intro Hn. unfold extract_skills_from_text. cbv zeta. rewrite Hn.
  reflexivity.
Qed.

(** *** Required skills *)

Lemma add_new_invariant (P : string -> Prop) (skills new : list string) :
  NoDup skills -> Forall P skills -> Forall P new ->
  NoDup (add_new skills new) /\ Forall P (add_new skills new).
Proof.
  intros Hnd Hp Hnew. unfold add_new.
  revert skills Hnd Hp. induction Hnew as [|x new Hx _ IH];
    intros skills Hnd Hp; simpl; [auto|].
  destruct (mem x skills) eqn:E; [apply IH; assumption|].
  apply IH.
  - apply NoDup_snoc; [exact Hnd|]. intro Hin. apply mem_In in Hin.
    congruence.
  - apply Forall_app. auto.
Qed.

Lemma vocabulary_lower : Forall (fun s => lower s = s /\ s <> "") common_skills.
Proof.
  unfold common_skills.
  repeat (constructor; [split; [reflexivity | discriminate]|]).
  constructor.
Qed.

(** X23.  The required skills are distinct, non-empty and lower-case,
    whatever the job record and the entity recogniser. *)
Theorem required_skills_distinct (ner : string -> list (string * string))
    (job : job_record) :
  NoDup (extract_required_skills ner job)
  /\ Forall (fun s => lower s = s /\ s <> "")
            (extract_required_skills ner job).
Proof.
  set (P := fun s => lower s = s /\ s <> "").
  assert (Htext : forall text, Forall P (extract_skills_from_text ner text)).
  { intro text. apply Forall_forall. intros s Hs.
    destruct (skills_from_text_spec ner text) as [_ [Hsub _]].
    pose proof vocabulary_lower as Hv. rewrite Forall_forall in Hv.
    apply Hv. apply Hsub. exact Hs. }
  unfold extract_required_skills. cbv zeta.
  set (s1 := match job_skills job with
             | Some skills_text =>
                 if is_empty skills_text then []
                 else fold_left _ (split_on (one_of "|,;") skills_text) []
             | None => []
             end).
  assert (H1 : NoDup s1 /\ Forall P s1).
  { subst s1. destruct (job_skills job) as [t|];
      [|split; constructor].
    destruct (is_empty t); [split; constructor|].
    apply (MatcherProperties.fold_left_invariant
             (fun acc => NoDup acc /\ Forall P acc));
      [split; constructor|].
    intros acc skill [Hnd Hp]. cbv zeta.
    destruct (negb (is_empty (lower (strip skill)))
              && negb (mem (lower (strip skill)) acc)) eqn:E; [|auto].
    apply andb_true_iff in E. destruct E as [E1 E2].
    apply negb_true_iff in E1, E2. split.
    - apply NoDup_snoc; [exact Hnd|]. intro Hin. apply mem_In in Hin.
      congruence.
    - apply Forall_app. split; [exact Hp|]. constructor; [|constructor].
      split; [apply lower_idem|].
      apply MPNetResumeMatcherFacts.is_empty_false. exact E1. }
  set (s2 := match job_requirements job with
             | Some reqs => fold_left _ reqs s1
             | None => s1
             end).
  assert (H2 : NoDup s2 /\ Forall P s2).
  { subst s2. destruct (job_requirements job) as [reqs|]; [|exact H1].
    apply (MatcherProperties.fold_left_invariant
             (fun acc => NoDup acc /\ Forall P acc)); [exact H1|].
    intros acc req [Hnd Hp]. apply add_new_invariant; auto. }
  destruct (description job) as [d|]; [|exact H2].
  destruct (is_empty d); [exact H2|].
  apply add_new_invariant; [tauto | tauto | apply Htext].
Qed.

(** *** Categories *)

Lemma category_of_values (req : string) :
  In (category_of req)
     ["education"; "experience"; "skills"; "tools"; "soft_skills"; "other"].
Proof.
  unfold category_of. cbv zeta.
  destruct (find (fun cat => any_in (snd cat) (lower req)) categories)
    as [cat|] eqn:E; [|simpl; auto 10].
  apply find_some in E. destruct E as [Hin _].
  unfold categories in Hin. simpl in Hin.
  repeat (destruct Hin as [<-|Hin]; [simpl; auto 10|]). destruct Hin.
Qed.

(** The buckets for the requirements seen so far. *)
Lemma categorize_step (pre : list string) (req : string) :
  append_to (category_of req) req
    (map (fun c => (c, filter (fun r => String.eqb (category_of r) c) pre))
         ["education"; "experience"; "skills"; "tools"; "soft_skills";
          "other"])
  = map (fun c =>
           (c, filter (fun r => String.eqb (category_of r) c) (pre ++ [req])))
        ["education"; "experience"; "skills"; "tools"; "soft_skills";
         "other"].
Proof.
  cbn [map]. rewrite !filter_app. cbn [filter].
  pose proof (category_of_values req) as H. simpl in H.
  repeat (destruct H as [H|H];
          [rewrite <- H; cbn [append_to String.eqb Ascii.eqb Bool.eqb andb];
           rewrite ?app_nil_r; reflexivity|]).
  destruct H.
Qed.

(** X24.  Every requirement line lands in exactly one bucket: the bucket of
    a category holds, in input order, the lines whose first matching
    category it is, and the lines without a matching category are in other. *)
Theorem categorize_requirements_partition (requirements : list string) :
  categorize_requirements requirements
  = map (fun c =>
           (c, filter (fun r => String.eqb (category_of r) c) requirements))
        ["education"; "experience"; "skills"; "tools"; "soft_skills";
         "other"]
  /\ forall req, In req requirements ->
       In (category_of req)
          ["education"; "experience"; "skills"; "tools"; "soft_skills";
           "other"].
Proof.
  split; [|intros; apply category_of_values].
  unfold categorize_requirements.
  assert (H : forall reqs pre,
            fold_left
              (fun categorized req =>
                 append_to (category_of req) req categorized)
              reqs
              (map (fun c =>
                      (c, filter (fun r => String.eqb (category_of r) c) pre))
                   ["education"; "experience"; "skills"; "tools";
                    "soft_skills"; "other"])
            = map (fun c =>
                     (c, filter (fun r => String.eqb (category_of r) c)
                                (pre ++ reqs)))
                  ["education"; "experience"; "skills"; "tools";
                   "soft_skills"; "other"]).
  { induction reqs as [|req reqs IH]; intro pre.
    - rewrite app_nil_r. reflexivity.
    - cbn [fold_left]. rewrite categorize_step, IH, <- app_assoc.
      reflexivity. }
  exact (H requirements []).
Qed.

(** *** Education across the lines *)

Lemma education_loop_values (reqs : list string) (required : string) :
  In required [""; "bachelor"; "master"] ->
  In (required_education_loop reqs required)
     [""; "bachelor"; "master"; "phd"].
Proof.
  revert required. induction reqs as [|req reqs IH]; intros required Hreq.
  - simpl in *. tauto.
  - cbn [required_education_loop].
    destruct (extract_education_values req) as [<-|[<-|[<-|[<-|[]]]]];
      destruct Hreq as [<-|[<-|[<-|[]]]];
      cbn [is_empty String.eqb Ascii.eqb Bool.eqb andb negb mem existsb orb];
      try (apply IH; simpl; tauto); simpl; tauto.
Qed.

(** X25.  Across the requirement lines the profile keeps the highest level
    that a line yields (phd over master over bachelor), and no level when no
    line yields one. *)
Theorem required_education_is_highest
    (ner : string -> list (string * string)) (job : job_record) :
  let required := required_education (parse_job_requirements ner job) in
  In required [""; "bachelor"; "master"; "phd"]
  /\ education_rank required
     = max_of (map (fun req => education_rank (extract_education_level req))
                   (requirement_lines job)).
Proof.
  cbv zeta. unfold parse_job_requirements.
  destruct (is_empty_record job) eqn:E.
  - cbn [required_education]. split; [simpl; auto|].
    destruct job as [t c s [reqs|] d]; simpl in *;
      [destruct t, c, s, d; discriminate | reflexivity].
  - cbn [required_education]. split.
    + apply education_loop_values. simpl. auto.
    + rewrite education_loop_takes_highest by (simpl; auto).
      change (education_rank "") with 0%Z.
      pose proof (max_of_nonneg
        (map (fun req => education_rank (extract_education_level req))
             (requirement_lines job))). lia.
Qed.

(** *** Years of experience *)

Lemma is_digit_lower (c : ascii) : is_digit (lower_char c) = is_digit c.
Proof.
  destruct c as [[] [] [] [] [] [] [] []]; reflexivity.
Qed.

Lemma digits_lower (s : string) :
  existsb is_digit (chars (lower s)) = existsb is_digit (chars s).
Proof.
  induction s as [|c s IH]; [reflexivity|].
  cbn [lower chars list_ascii_of_string existsb] in *.
  rewrite is_digit_lower. f_equal. exact IH.
Qed.

(** X26.  A requirement line without a digit gets its years from the level
    words alone: 0, 2 or 5. *)
Theorem years_without_digits (text : string) :
  existsb is_digit (chars text) = false ->
  JobRequirementsParser.extract_years_of_experience text
  = JobRequirementsParser.level_words text
  /\ In (JobRequirementsParser.extract_years_of_experience text)
        [0; 2; 5]%Z.
Proof.
  intro Hno.
  assert (E : JobRequirementsParser.extract_years_of_experience text
              = JobRequirementsParser.level_words text).
  { unfold JobRequirementsParser.extract_years_of_experience.
    destruct (search JobRequirementsParser.years_pattern (lower text))
      as [m|] eqn:Es; [|reflexivity].
    exfalso. apply search_sound in Es.
    destruct Es as [pre [w [post [Ht [Hw _]]]]].
    unfold JobRequirementsParser.years_pattern, digits1 in Hw.
    cbn [seq accepts] in Hw.
    destruct Hw as [d [w1 [-> [[Hd [Hn _]] _]]]].
    rewrite <- digits_lower, Ht in Hno.
    destruct d as [|c d]; [simpl in Hn; lia|].
    cbn [forallb] in Hd. apply andb_true_iff in Hd. destruct Hd as [Hc _].
    rewrite !existsb_app in Hno. cbn [app existsb] in Hno.
    rewrite Hc in Hno. rewrite orb_true_r in Hno. discriminate. }
  split; [exact E|]. rewrite E.
  pose proof (JobRequirementsParserFacts.level_words_values text) as H.
  destruct H as [H | [H | H]]; rewrite H; simpl; auto.
Qed.

(** The theorem at a concrete input. *)
Lemma years_without_digits_witness :
  existsb is_digit (chars "Senior engineer with leadership skills") = false
  /\ JobRequirementsParser.extract_years_of_experience
       "Senior engineer with leadership skills" = 5%Z.
Proof.
  assert (H : existsb is_digit
                (chars "Senior engineer with leadership skills") = false)
    by reflexivity.
  split; [exact H|].
  rewrite (proj1 (years_without_digits _ H)). reflexivity.
Defined.

End JobRequirementsParserProperties.

(** ** mpnet_output_generator.py *)

Module OutputGeneratorProperties.
Import Str Num NumFacts MPNetResumeMatcher MPNetOutputGenerator Statements.
Import MPNetResumeMatcherFacts MatcherProperties ResumeParserProperties.

(** A score of at least 0.6 is shown as at least 60 percent. *)
Lemma shown_score_floor (s : Q) :
  0.6 <= s <= 1 -> ltb (round2 (s * 100)) 60 = false.
Proof.
  intros [H1 H2]. apply ltb_false. unfold round2.
  assert (Hb : (6000 <= round_half_even (s * 100 * 100) <= 10000)%Z).
  { apply round_half_even_bounds.
    change (inject_Z 6000) with 6000. change (inject_Z 10000) with 10000.
    lra. }
  destruct Hb as [Hb _]. rewrite Zle_Qle in Hb.
  change (inject_Z 6000) with 6000 in Hb.
  apply Qle_shift_div_l; lra.
Qed.

(** X27.  The report of a computed result recommends an interview: the
    recommendation is the excellent one from 80 points and the strong one
    below, never one of the three weaker ones; for a resume outside the
    table of expected scores it is always the excellent one. *)
Theorem recommendation_of_result (model : option backend)
    (current_year : Z) (resume : ResumeParser.resume_data)
    (job : JobRequirementsParser.job_data) :
  exists r,
    match_resume_with_job model current_year resume job = Some r
    /\ (recommendation (match_score r) = excellent_match
        \/ recommendation (match_score r) = strong_match)
    /\ (unlisted resume ->
        recommendation (match_score r) = excellent_match).
Proof.
  destruct (components_total model current_year resume job) as [c Hc].
  destruct (match_result_of model current_year resume job c Hc)
    as [r [Hr Hs]].
  exists r. split; [exact Hr|].
  pose proof (calibrate_score_bounds (ResumeParser.resume_name resume)
                (overall_score_of c)) as Hb.
  rewrite <- Hs in Hb. split.
  - unfold recommendation. cmp_le 80 (match_score r); [left; reflexivity|].
    right. assert (E70 : leb 70 (match_score r) = true)
      by (apply leb_true; lra).
    rewrite E70. reflexivity.
  - intro Hun. unfold recommendation.
    assert (E80 : leb 80 (match_score r) = true).
    { apply leb_true. rewrite Hs.
      rewrite (calibrate_unlisted _ _ (expected_score_unlisted _ Hun)).
      assert (E1 : avg_expected == 22791 # 275) by (vm_compute; reflexivity).
      destruct (ltb 0.85 (overall_score_of c));
        [|destruct (ltb 0.7 (overall_score_of c))].
      - destruct (py_min_spec (avg_expected + 2.0) 85.0)
          as [[H ->]|[H ->]]; lra.
      - lra.
      - destruct (py_max_spec (avg_expected - 2.0) 78.0)
          as [[H ->]|[H ->]]; lra. }
    rewrite E80. reflexivity.
Qed.

(** The theorem at a concrete input. *)
Lemma recommendation_of_result_witness :
  unlisted ResumeParser.john_doe
  /\ exists r,
       match_resume_with_job None 2025 ResumeParser.john_doe python_profile
       = Some r
       /\ recommendation (match_score r) = excellent_match.
Proof.
  split; [exact unlisted_john_doe|].
  destruct (recommendation_of_result None 2025 ResumeParser.john_doe
              python_profile) as [r [Hr [_ Hx]]].
  exists r. split; [exact Hr | exact (Hx unlisted_john_doe)].
Defined.

(** X28.  The areas for improvement of a computed result never mention
    skills, experience or education, whose scores are at least 75 percent:
    the list is empty or holds the one remark on content relevance, and
    without a model it is always empty. *)
Theorem improvements_of_result (show : Q -> string) (show_int : Z -> string)
    (model : option backend) (current_year : Z)
    (resume : ResumeParser.resume_data)
    (job : JobRequirementsParser.job_data) :
  exists r,
    match_resume_with_job model current_year resume job = Some r
    /\ (improvements show show_int (match_details r) = []
        \/ improvements show show_int (match_details r) = [content_remark])
    /\ (model = None -> improvements show show_int (match_details r) = []).
Proof.
  destruct (components_total model current_year resume job) as [c Hc].
  destruct (component_bounds model current_year resume job c Hc)
    as [Hs [He [Hd [Hv Hf]]]].
  unfold match_resume_with_job. rewrite Hc.
  eexists. split; [reflexivity|]. cbn [match_details].
  unfold improvements, details_of.
  cbn [md_skills md_experience md_education md_semantic_similarity
       sd_score xd_score ed_score d_score].
  rewrite (shown_score_floor (sm_score (c_skills c))) by lra.
  rewrite (shown_score_floor (em_score (c_experience c))) by lra.
  rewrite (shown_score_floor (edm_score (c_education c))) by lra.
  cbn [app]. split.
  - destruct (ltb (round2 (c_semantic_similarity c * 100)) 60);
      [right | left]; reflexivity.
  - intro Hm. specialize (Hf Hm).
    rewrite (shown_score_floor (c_semantic_similarity c)) by lra.
    reflexivity.
Qed.

(** *** Report files *)

(** X29.  The safe name has the length of the name without its extension and
    consists of letters, digits and underscores only, so the report file is
    the safe name followed by _report.md directly inside the output
    directory. *)
Theorem report_file_in_output_dir (output_dir resume_name : string) :
  String.length (safe_name resume_name) = String.length (stem resume_name)
  /\ Forall (fun c => is_alnum c = true \/ c = "_"%char)
            (chars (safe_name resume_name))
  /\ exists sep,
       (sep = "" \/ sep = "/")
       /\ report_file output_dir resume_name
          = String.append output_dir
              (String.append sep
                 (String.append (safe_name resume_name) "_report.md")).
Proof.
  unfold safe_name.
  set (clean := map (fun c => if is_alnum c then c else "_"%char)
                    (chars (stem resume_name))).
  assert (Hclean : Forall (fun c => is_alnum c = true \/ c = "_"%char)
                          clean).
  { subst clean. apply Forall_forall. intros c Hc.
    apply in_map_iff in Hc. destruct Hc as [x [<- _]].
    destruct (is_alnum x) eqn:E; auto. }
  split; [|split].
  - rewrite <- !length_chars, ResumeParserFacts.chars_of_chars.
    subst clean. apply length_map.
  - rewrite ResumeParserFacts.chars_of_chars. exact Hclean.
  - unfold report_file, ResumeParser.path_join, safe_name. fold clean.
    assert (Hslash : is_prefix "/" (String.append (of_chars clean)
                                                  "_report.md") = false).
    { destruct clean as [|c l]; [reflexivity|].
      inversion Hclean as [|? ? Hc _]; subst.
      change (Ascii.eqb "/"%char c && true = false).
      destruct (Ascii.eqb "/" c) eqn:E; [|reflexivity].
      apply Ascii.eqb_eq in E. subst c.
      destruct Hc as [Hc|Hc]; discriminate. }
    rewrite Hslash.
    destruct (is_empty output_dir) eqn:Ee.
    + apply MPNetResumeMatcherFacts.is_empty_true in Ee. subst output_dir.
      exists "". split; [auto | reflexivity].
    + destruct (Ascii.eqb (last (chars output_dir) " "%char) "/"%char).
      * exists "". split; [auto | reflexivity].
      * exists "/". split; [auto | reflexivity].
Qed.

End OutputGeneratorProperties.
